(** * Product service templates: schemas, service layer and router

    A shallow embedding of the Python templates
      - [docs/backend-python/api/examples/schema_template.py]  (Pydantic schemas),
      - [docs/backend-python/api/examples/model_template.py]   (the Product entity),
      - [backend-python/api/examples/service_template.py]      (ProductService),
      - [backend-python/api/examples/router_template.py]       (list_products),
    and the properties of them that the specification states.

    Conventions of the embedding.
      - [Decimal] is a finite Python decimal: a signed coefficient and a
        power-of-ten exponent.  NaN and the infinities are left out.
      - [UUID] is the 128-bit integer of a [uuid.UUID].
      - The database session is explicit state ([AsyncSession]): the rows of
        table "products", the instances handed to [db.add], the value of
        [func.now()], the identifiers [uuid4] will draw, the order the
        engine gives to rows that an [ORDER BY] leaves tied, and the calls
        made on the session and on the logger.
      - The table is the one [model_template.py] declares.  A statement
        that writes it is held to the declared constraints: [nullable=False]
        on [name], [price] and [category_id], the checks [price > 0] and
        [quantity >= 0], the primary key and [unique=True] on [sku]; a
        violation raises [IntegrityError] and the statement stores nothing.
        A price is stored at the two decimal places of [Numeric(10, 2)],
        rounded to the nearest cent, a tie going away from zero (the
        rounding of an exact numeric in PostgreSQL); the properties that
        speak of a rounded price say no more of it than that it is a
        nearest cent.
        The ten digits of its precision, the lengths of the [String]
        columns and the foreign keys are not part of the state.  The
        constraints are also predicates on stores ([pk_products],
        [uq_products_sku], [ck_products_positive_price]) that a property
        may assume of the store it starts from.
      - Service methods live in the monad [M]: a state transformer over the
        session whose outcome is a value or a raised exception. *)

From Stdlib Require Import ZArith NArith List String Ascii Bool Lia Permutation Sorted.
Import ListNotations.

Local Open Scope string_scope.
Local Open Scope list_scope.

(* ===================================================================== *)
(** ** Python values                                                       *)
(* ===================================================================== *)

(** [decimal.Decimal]: value [coefficient * 10 ^ exponent]. *)
Record Decimal := mkDecimal { coefficient : Z; exponent : Z }.

(** The coefficient of [d] once its exponent is lowered to [e]. *)
Definition dec_scale (d : Decimal) (e : Z) : Z :=
  (coefficient d * 10 ^ (exponent d - e))%Z.

(** Numeric comparison, as [Decimal.__lt__] and friends make it: both
    operands are brought to the smaller exponent. *)
Definition dec_compare (a b : Decimal) : comparison :=
  let e := Z.min (exponent a) (exponent b) in
  Z.compare (dec_scale a e) (dec_scale b e).

Definition dec_lt (a b : Decimal) : bool :=
  match dec_compare a b with Lt => true | _ => false end.

Definition dec_le (a b : Decimal) : bool :=
  match dec_compare a b with Gt => false | _ => true end.

Definition dec_eq (a b : Decimal) : bool :=
  match dec_compare a b with Eq => true | _ => false end.

(** [a * b]: coefficients multiply, exponents add. *)
Definition dec_mul (a b : Decimal) : Decimal :=
  mkDecimal (coefficient a * coefficient b) (exponent a + exponent b).

(** [Decimal("0")] and [Decimal("0.01")]. *)
Definition Decimal_0 : Decimal := mkDecimal 0 0.
Definition Decimal_0_01 : Decimal := mkDecimal 1 (-2).

(** [n / d] rounded to the nearest integer, a tie going away from zero;
    [d] is positive. *)
Definition round_half_away (n d : Z) : Z :=
  if (0 <=? n)%Z then ((2 * n + d) / (2 * d))%Z
  else (- ((2 * (- n) + d) / (2 * d)))%Z.

(** The value a [NUMERIC] column of scale [places] holds for [d]: [d]
    itself, written with [places] decimal places, when it has no more of
    them; else [d] rounded to [places] places. *)
Definition round_to_places (places : Z) (d : Decimal) : Decimal :=
  let shift := (exponent d + places)%Z in
  if (0 <=? shift)%Z
  then mkDecimal (coefficient d * 10 ^ shift) (- places)
  else mkDecimal (round_half_away (coefficient d) (10 ^ (- shift))) (- places).

(** The scale of [Numeric(10, 2)], the type of column [price]. *)
Definition Numeric_10_2 (d : Decimal) : Decimal := round_to_places 2 d.


(** [uuid.UUID], by its integer value. *)
Definition UUID := N.

Definition hex_digit (n : N) : ascii :=
  match n with
  | 0%N => "0" | 1%N => "1" | 2%N => "2" | 3%N => "3"
  | 4%N => "4" | 5%N => "5" | 6%N => "6" | 7%N => "7"
  | 8%N => "8" | 9%N => "9" | 10%N => "a" | 11%N => "b"
  | 12%N => "c" | 13%N => "d" | 14%N => "e" | _ => "f"
  end%char.

(** The [k] low hexadecimal digits of [n], most significant first. *)
Fixpoint hex_fixed (k : nat) (n : N) (acc : string) : string :=
  match k with
  | O => acc
  | S k' => hex_fixed k' (N.div n 16) (String (hex_digit (N.modulo n 16)) acc)
  end.

(** [str(u)]: 32 hexadecimal digits grouped 8-4-4-4-12. *)
Definition str_uuid (u : UUID) : string :=
  let h := hex_fixed 32 u "" in
  substring 0 8 h ++ "-" ++ substring 8 4 h ++ "-" ++ substring 12 4 h
    ++ "-" ++ substring 16 4 h ++ "-" ++ substring 20 12 h.

(** *** Strings *)

Definition is_upper (c : ascii) : bool :=
  let n := nat_of_ascii c in (65 <=? n)%nat && (n <=? 90)%nat.

Definition is_lower (c : ascii) : bool :=
  let n := nat_of_ascii c in (97 <=? n)%nat && (n <=? 122)%nat.

Definition is_digit (c : ascii) : bool :=
  let n := nat_of_ascii c in (48 <=? n)%nat && (n <=? 57)%nat.

Definition upper_char (c : ascii) : ascii :=
  if is_lower c then ascii_of_nat (nat_of_ascii c - 32) else c.

Definition lower_char (c : ascii) : ascii :=
  if is_upper c then ascii_of_nat (nat_of_ascii c + 32) else c.

Fixpoint string_map (f : ascii -> ascii) (s : string) : string :=
  match s with
  | EmptyString => EmptyString
  | String c s' => String (f c) (string_map f s')
  end.

Fixpoint string_forallb (f : ascii -> bool) (s : string) : bool :=
  match s with
  | EmptyString => true
  | String c s' => f c && string_forallb f s'
  end.

(** [str.upper] and [str.lower], on the ASCII range. *)
Definition upper (s : string) : string := string_map upper_char s.
Definition lower (s : string) : string := string_map lower_char s.

(** Truthiness of a [str]: the empty string is falsy. *)
Definition str_truthy (s : string) : bool :=
  match s with EmptyString => false | _ => true end.

(** SQL [LIKE]: [%] matches any run of characters, [_] any one character. *)
Fixpoint like (pat : string) (s : string) : bool :=
  match pat with
  | EmptyString => match s with EmptyString => true | _ => false end
  | String p pat' =>
      if Ascii.eqb p "%" then
        (fix any (t : string) : bool :=
           like pat' t
           || match t with
              | EmptyString => false
              | String _ t' => any t'
              end) s
      else
        match s with
        | EmptyString => false
        | String c s' =>
            (Ascii.eqb p "_" || Ascii.eqb p c) && like pat' s'
        end
  end.

(** [column.ilike(pattern)]: [LIKE] on the lower-cased operands. *)
Definition ilike (s pat : string) : bool := like (lower pat) (lower s).

Definition option_eqb {A} (eqb : A -> A -> bool) (x y : option A) : bool :=
  match x, y with
  | Some a, Some b => eqb a b
  | None, None => true
  | _, _ => false
  end.

(** [v is None]. *)
Definition is_none {A} (v : option A) : bool :=
  match v with
  | None => true
  | Some _ => false
  end.

(* ===================================================================== *)
(** ** The entity (model_template.py)                                      *)
(* ===================================================================== *)

(** The mapped columns of [Product]: [UUIDPrimaryKeyMixin], [TimestampMixin],
    [AuditMixin] and the class's own columns.  The record is an instance's
    attributes as well as a stored row: an attribute that [update] may set
    to [None] ([setattr]) is an [option], also where the column is
    [nullable=False]; it is the commit that refuses the [None] (see
    [refused] and [insert_row]).  Timestamps are instants on the database
    clock. *)
Module Product.
Record t := mk {
  id : UUID;
  created_at : Z;
  updated_at : option Z;
  created_by : option UUID;
  updated_by : option UUID;
  name : option string;
  description : option string;
  sku : string;
  price : option Decimal;
  quantity : Z;
  is_active : bool;
  is_published : bool;
  published_at : option Z;
  category_id : option UUID
}.

Definition set_updated_at (v : option Z) (p : t) : t :=
  mk (id p) (created_at p) v (created_by p) (updated_by p) (name p)
     (description p) (sku p) (price p) (quantity p) (is_active p)
     (is_published p) (published_at p) (category_id p).

Definition set_updated_by (v : option UUID) (p : t) : t :=
  mk (id p) (created_at p) (updated_at p) (created_by p) v (name p)
     (description p) (sku p) (price p) (quantity p) (is_active p)
     (is_published p) (published_at p) (category_id p).

Definition set_name (v : option string) (p : t) : t :=
  mk (id p) (created_at p) (updated_at p) (created_by p) (updated_by p) v
     (description p) (sku p) (price p) (quantity p) (is_active p)
     (is_published p) (published_at p) (category_id p).

Definition set_description (v : option string) (p : t) : t :=
  mk (id p) (created_at p) (updated_at p) (created_by p) (updated_by p)
     (name p) v (sku p) (price p) (quantity p) (is_active p)
     (is_published p) (published_at p) (category_id p).

Definition set_price (v : option Decimal) (p : t) : t :=
  mk (id p) (created_at p) (updated_at p) (created_by p) (updated_by p)
     (name p) (description p) (sku p) v (quantity p) (is_active p)
     (is_published p) (published_at p) (category_id p).

Definition set_is_published (v : bool) (p : t) : t :=
  mk (id p) (created_at p) (updated_at p) (created_by p) (updated_by p)
     (name p) (description p) (sku p) (price p) (quantity p) (is_active p)
     v (published_at p) (category_id p).

Definition set_published_at (v : option Z) (p : t) : t :=
  mk (id p) (created_at p) (updated_at p) (created_by p) (updated_by p)
     (name p) (description p) (sku p) (price p) (quantity p) (is_active p)
     (is_published p) v (category_id p).

Definition set_category_id (v : option UUID) (p : t) : t :=
  mk (id p) (created_at p) (updated_at p) (created_by p) (updated_by p)
     (name p) (description p) (sku p) (price p) (quantity p) (is_active p)
     (is_published p) (published_at p) v.

(** [@property is_in_stock]. *)
Definition is_in_stock (self : t) : bool := (0 <? quantity self)%Z.

(** [@property is_visible]. *)
Definition is_visible (self : t) : bool := is_active self && is_published self.
End Product.

(** A [Product] instance in memory: its mapped attributes, and the plain
    attribute [published_by] that [publish] assigns.  [Product] maps no
    column of that name, so the attribute lives on the instance only. *)
Record ProductObj := mkObj {
  columns : Product.t;
  published_by : option UUID
}.

(** The instance the ORM builds from a fetched row. *)
Definition loaded (row : Product.t) : ProductObj := mkObj row None.

Definition with_columns (f : Product.t -> Product.t) (p : ProductObj) : ProductObj :=
  mkObj (f (columns p)) (published_by p).

(** *** Declarative constraints of table "products" *)

(** [primary_key=True] on [id]. *)
Definition pk_products (rows : list Product.t) : Prop :=
  NoDup (map Product.id rows).

(** [unique=True] on [sku]. *)
Definition uq_products_sku (rows : list Product.t) : Prop :=
  NoDup (map Product.sku rows).

(** [CheckConstraint("price > 0")]; a NULL price leaves the check unknown,
    which passes. *)
Definition ck_products_positive_price (p : Product.t) : bool :=
  match Product.price p with
  | Some d => dec_lt Decimal_0 d
  | None => true
  end.

(** [CheckConstraint("quantity >= 0")]. *)
Definition ck_products_non_negative_quantity (p : Product.t) : bool :=
  (0 <=? Product.quantity p)%Z.

(** [nullable=False] on [name], [price] and [category_id]. *)
Definition nullable_false (p : Product.t) : bool :=
  negb (is_none (Product.name p))
  && negb (is_none (Product.price p))
  && negb (is_none (Product.category_id p)).

(** A row as the table holds it: the price at the scale of its column. *)
Definition at_column_scale (p : Product.t) : Product.t :=
  Product.set_price (option_map Numeric_10_2 (Product.price p)) p.

(* ===================================================================== *)
(** ** Exceptions, session and the service monad                           *)
(* ===================================================================== *)

(** [src.core.exceptions], by the keyword arguments the service passes;
    the two errors the ORM raises on a result or an instance; the error
    it raises when the database refuses a statement for a constraint; and
    the error a schema raises on invalid data. *)
Inductive Exception :=
| NotFoundError (message : string) (details : list (string * string))
| ConflictError (message code : string) (details : list (string * string))
| ValidationError (message code : string)
| MultipleResultsFound
| InvalidRequestError
| IntegrityError
| PydanticValidationError (errors : list (string * string)).

(** Calls received by the session, as a mock of it would record them. *)
Inductive DbCall := CallExecute | CallAdd | CallCommit | CallRefresh.

Inductive LogValue :=
| LStr (s : string)
| LList (l : list string)
| LInt (n : Z)
| LDecimal (d : Decimal).       (* str(d) of a Decimal *)

(** [logger.info(event, **kwargs)]. *)
Definition LogEvent : Type := string * list (string * LogValue).

(** [tie_rank s skip limit] is the engine's choice for the query
    [ORDER BY created_at DESC OFFSET skip LIMIT limit], which names no
    column to break a tie: among rows of equal [created_at], those of
    smaller rank come first.  The engine is free in it, from one query to
    the next. *)
Record AsyncSession := mkSession {
  products : list Product.t;      (* rows of table "products" *)
  new : list Product.t;           (* instances given to db.add, not yet flushed *)
  now : Z;                        (* func.now() *)
  uuid4_pool : list UUID;         (* what uuid4() returns next *)
  calls : list DbCall;            (* oldest first *)
  events : list LogEvent;         (* oldest first *)
  tie_rank : nat -> nat -> Product.t -> Z
}.

(** The engine that leaves tied rows in the order the table has them. *)
Definition table_order : nat -> nat -> Product.t -> Z := fun _ _ _ => 0%Z.

(** A session as a request receives it: nothing pending, nothing called. *)
Definition session (rows : list Product.t) (clock : Z) (pool : list UUID)
  : AsyncSession :=
  mkSession rows [] clock pool [] [] table_order.

(** The same session on an engine that orders ties by [rank]. *)
Definition with_tie_rank (rank : nat -> nat -> Product.t -> Z) (s : AsyncSession)
  : AsyncSession :=
  mkSession (products s) (new s) (now s) (uuid4_pool s) (calls s) (events s) rank.

Inductive Outcome (A : Type) :=
| Return (a : A)
| Raise (e : Exception).
Arguments Return {A} a.
Arguments Raise {A} e.

Definition M (A : Type) : Type := AsyncSession -> Outcome A * AsyncSession.

Definition ret {A} (a : A) : M A := fun s => (Return a, s).

Definition raise {A} (e : Exception) : M A := fun s => (Raise e, s).

Definition bind {A B} (m : M A) (k : A -> M B) : M B :=
  fun s =>
    match m s with
    | (Return a, s') => k a s'
    | (Raise e, s') => (Raise e, s')
    end.

Notation "x <- m ;; k" := (bind m (fun x => k))
  (at level 61, m at next level, right associativity).
Notation "m ;;; k" := (bind m (fun _ => k))
  (at level 61, right associativity).

Definition record_call (c : DbCall) (s : AsyncSession) : AsyncSession :=
  mkSession (products s) (new s) (now s) (uuid4_pool s) (calls s ++ [c]) (events s)
    (tie_rank s).

Definition set_products (rows : list Product.t) (s : AsyncSession) : AsyncSession :=
  mkSession rows (new s) (now s) (uuid4_pool s) (calls s) (events s) (tie_rank s).

(** The rows after a flush that left nothing pending. *)
Definition flushed (rows : list Product.t) (s : AsyncSession) : AsyncSession :=
  mkSession rows [] (now s) (uuid4_pool s) (calls s) (events s) (tie_rank s).

(** [await db.execute(select(Product).where(...))]: the matching rows. *)
Definition db_execute_select (where_ : Product.t -> bool) : M (list Product.t) :=
  fun s => (Return (filter where_ (products s)), record_call CallExecute s).

(** [p] goes before [q] under [ORDER BY created_at DESC]: it is newer;
    or as old, and the engine ranks it no later. *)
Definition comes_first (rank : Product.t -> Z) (p q : Product.t) : bool :=
  (Product.created_at q <? Product.created_at p)%Z
  || ((Product.created_at q =? Product.created_at p)%Z && (rank p <=? rank q)%Z).

Fixpoint insert_desc (rank : Product.t -> Z) (p : Product.t) (rows : list Product.t)
  : list Product.t :=
  match rows with
  | [] => [p]
  | q :: rows' =>
      if comes_first rank p q
      then p :: q :: rows'
      else q :: insert_desc rank p rows'
  end.

(** [query.order_by(Product.created_at.desc())]: newest first, rows with
    the same [created_at] by the engine's rank. *)
Definition order_by_created_at_desc (rank : Product.t -> Z) (rows : list Product.t)
  : list Product.t :=
  fold_right (insert_desc rank) [] rows.

(** [await db.execute(query.order_by(Product.created_at.desc())
    .offset(skip).limit(limit))] followed by [.scalars().all()]. *)
Definition db_execute_select_page (where_ : Product.t -> bool) (skip limit : nat)
  : M (list Product.t) :=
  fun s =>
    (Return
       (firstn limit
          (skipn skip
             (order_by_created_at_desc (tie_rank s skip limit)
                (filter where_ (products s))))),
     record_call CallExecute s).

(** [await db.execute(select(func.count()).select_from(query.subquery()))]
    followed by [.scalar_one()]. *)
Definition db_execute_count (where_ : Product.t -> bool) : M nat :=
  fun s => (Return (List.length (filter where_ (products s))), record_call CallExecute s).

(** [result.scalar_one_or_none()]. *)
Definition scalar_one_or_none (result : list Product.t) : M (option ProductObj) :=
  match result with
  | [] => ret None
  | [row] => ret (Some (loaded row))
  | _ => raise MultipleResultsFound
  end.

(** [uuid4()]. *)
Definition uuid4 : M UUID :=
  fun s =>
    match uuid4_pool s with
    | u :: pool =>
        (Return u,
         mkSession (products s) (new s) (now s) pool (calls s) (events s) (tie_rank s))
    | [] => (Return 0%N, s)
    end.

Definition func_now : M Z := fun s => (Return (now s), s).

(** [db.add(product)]. *)
Definition db_add (product : ProductObj) : M unit :=
  fun s =>
    (Return tt,
     record_call CallAdd
       (mkSession (products s) (new s ++ [columns product]) (now s)
          (uuid4_pool s) (calls s) (events s) (tie_rank s))).

(** *** The unit of work *)

(** An instance the caller modified since it was loaded: by assigning
    Python values to attributes, or, among them, a SQL expression
    ([func.now()]), whose value only the database knows. *)
Inductive Modified :=
| Assigned (p : ProductObj)
| AssignedExpression (p : ProductObj).

Definition instance (m : Modified) : ProductObj :=
  match m with
  | Assigned p => p
  | AssignedExpression p => p
  end.

Definition has_expression (m : Modified) : bool :=
  match m with
  | Assigned _ => false
  | AssignedExpression _ => true
  end.

(** The attributes of the instance equal the values loaded from the row,
    by [==] of their Python types: the flush finds no net change.  Two
    [Decimal]s are equal when they are the same number. *)
Definition same_columns (stored inst : Product.t) : bool :=
  N.eqb (Product.id stored) (Product.id inst)
  && Z.eqb (Product.created_at stored) (Product.created_at inst)
  && option_eqb Z.eqb (Product.updated_at stored) (Product.updated_at inst)
  && option_eqb N.eqb (Product.created_by stored) (Product.created_by inst)
  && option_eqb N.eqb (Product.updated_by stored) (Product.updated_by inst)
  && option_eqb String.eqb (Product.name stored) (Product.name inst)
  && option_eqb String.eqb (Product.description stored) (Product.description inst)
  && String.eqb (Product.sku stored) (Product.sku inst)
  && option_eqb dec_eq (Product.price stored) (Product.price inst)
  && Z.eqb (Product.quantity stored) (Product.quantity inst)
  && Bool.eqb (Product.is_active stored) (Product.is_active inst)
  && Bool.eqb (Product.is_published stored) (Product.is_published inst)
  && option_eqb Z.eqb (Product.published_at stored) (Product.published_at inst)
  && option_eqb N.eqb (Product.category_id stored) (Product.category_id inst).

(** The UPDATE of [stored] to the attributes of the instance sets the
    columns whose value changed.  The table refuses it when it sets
    [name], [price] or [category_id] to NULL, or [price] to a value that is
    not positive once at the column's scale.  (The columns it does not set
    keep values the table accepted when they were stored.) *)
Definition refused (stored inst : Product.t) : bool :=
  (negb (option_eqb String.eqb (Product.name stored) (Product.name inst))
   && is_none (Product.name inst))
  || (negb (option_eqb dec_eq (Product.price stored) (Product.price inst))
      && match Product.price inst with
         | None => true
         | Some v => negb (dec_lt Decimal_0 (Numeric_10_2 v))
         end)
  || (negb (option_eqb N.eqb (Product.category_id stored) (Product.category_id inst))
      && is_none (Product.category_id inst)).

(** The row the UPDATE leaves: the attributes of the instance, a changed
    price at the column's scale, an unchanged one as it is stored. *)
Definition written (stored inst : Product.t) : Product.t :=
  if option_eqb dec_eq (Product.price stored) (Product.price inst)
  then Product.set_price (Product.price stored) inst
  else at_column_scale inst.

(** What a flush does to the row [stored] of a modified instance: nothing,
    when no attribute changed value and none was assigned an expression
    (no UPDATE is emitted, and [onupdate] does not fire); else an UPDATE,
    which the table refuses ([None]) or which leaves the written row,
    [onupdate=func.now()] stamping [updated_at]. *)
Definition update_row (clock : Z) (stored : Product.t) (m : Modified)
  : option Product.t :=
  let inst := columns (instance m) in
  if negb (has_expression m) && same_columns stored inst then Some stored
  else if refused stored inst then None
  else Some (Product.set_updated_at (Some clock) (written stored inst)).

(** The flush of one modified instance over the table: the row with its
    primary key is updated; [None] when the table refuses. *)
Fixpoint flush_update (clock : Z) (m : Modified) (rows : list Product.t)
  : option (list Product.t) :=
  match rows with
  | [] => Some []
  | row :: rest =>
      match (if N.eqb (Product.id row) (Product.id (columns (instance m)))
             then update_row clock row m else Some row),
            flush_update clock m rest with
      | Some row', Some rest' => Some (row' :: rest')
      | _, _ => None
      end
  end.

(** The INSERT of an added instance: the row goes last, its price at the
    column's scale; [None] when a constraint of the table refuses it. *)
Definition insert_row (rows : list Product.t) (p : Product.t)
  : option (list Product.t) :=
  let row := at_column_scale p in
  if nullable_false row
     && ck_products_positive_price row
     && ck_products_non_negative_quantity row
     && negb (existsb (fun q => N.eqb (Product.id q) (Product.id row)) rows)
     && negb (existsb (fun q => String.eqb (Product.sku q) (Product.sku row)) rows)
  then Some (rows ++ [row])
  else None.

(** Statements of a flush, one after the other, until one is refused. *)
Definition flush_each {A} (step : list Product.t -> A -> option (list Product.t))
    (items : list A) (rows : option (list Product.t)) : option (list Product.t) :=
  fold_left (fun acc item =>
               match acc with
               | Some rows' => step rows' item
               | None => None
               end) items rows.

(** [await db.commit()]: flushes the instances the caller modified
    ([dirty], the session's unit of work), inserts the added ones, and
    commits.  When the table refuses a statement, the commit raises and
    the rows stay as they were. *)
Definition db_commit (dirty : list Modified) : M unit :=
  fun s =>
    match flush_each insert_row (new s)
            (flush_each (fun rows m => flush_update (now s) m rows) dirty
               (Some (products s))) with
    | Some rows => (Return tt, record_call CallCommit (flushed rows s))
    | None => (Raise IntegrityError, record_call CallCommit s)
    end.

(** [await db.refresh(product)]: the mapped attributes are read back from
    the instance's row; plain attributes stay. *)
Definition db_refresh (product : ProductObj) : M ProductObj :=
  fun s =>
    match filter (fun row => N.eqb (Product.id row) (Product.id (columns product)))
                 (products s) with
    | [row] => (Return (mkObj row (published_by product)), record_call CallRefresh s)
    | _ => (Raise InvalidRequestError, record_call CallRefresh s)
    end.

(** [await db.delete(product)]: the instance is marked for deletion.  The
    mark stays with the caller, who hands it to the commit, as the
    modified instances are. *)
Definition db_delete (product : ProductObj) : M (list ProductObj) :=
  ret [product].

(** The DELETE a flush emits for a marked instance. *)
Definition flush_delete (rows : list Product.t) (p : ProductObj) : list Product.t :=
  filter (fun row => negb (N.eqb (Product.id row) (Product.id (columns p)))) rows.

(** [await db.commit()] with instances marked for deletion: their rows
    are deleted, the added instances inserted, and the whole committed. *)
Definition db_commit_deleting (deleted : list ProductObj) : M unit :=
  fun s =>
    match flush_each insert_row (new s)
            (Some (fold_left flush_delete deleted (products s))) with
    | Some rows => (Return tt, record_call CallCommit (flushed rows s))
    | None => (Raise IntegrityError, record_call CallCommit s)
    end.

(** [await db.execute(update(Product).where(...).values(...))]: one UPDATE
    statement over the matching rows, the values at the scale of their
    columns, [onupdate] stamping [updated_at]; the result is
    [result.rowcount].  The statement sets [price]: when the check
    [price > 0] fails on one of its rows, the database refuses the
    statement and no row changes. *)
Definition db_execute_update (where_ : Product.t -> bool)
    (values : Product.t -> Product.t) : M nat :=
  fun s =>
    let updated :=
      fun row => Product.set_updated_at (Some (now s)) (at_column_scale (values row)) in
    if forallb (fun row => negb (where_ row) || ck_products_positive_price (updated row))
         (products s)
    then
      (Return (List.length (filter where_ (products s))),
       record_call CallExecute
         (set_products
            (map (fun row => if where_ row then updated row else row) (products s)) s))
    else (Raise IntegrityError, record_call CallExecute s).

Definition logger_info (event : string) (kwargs : list (string * LogValue)) : M unit :=
  fun s =>
    (Return tt,
     mkSession (products s) (new s) (now s) (uuid4_pool s) (calls s)
       (events s ++ [(event, kwargs)]) (tie_rank s)).

(* ===================================================================== *)
(** ** Validation schemas (schema_template.py)                             *)
(* ===================================================================== *)

(** One entry of a Pydantic validation error: the field and the error type. *)
Definition ErrorDetails : Type := string * string.

(** Outcome of validating one field: the validated value or the error type. *)
Inductive Checked (A : Type) :=
| Valid (value : A)
| Invalid (error_type : string).
Arguments Valid {A} value.
Arguments Invalid {A} error_type.

(** [Field(min_length=, max_length=)] on a [str], lengths in characters. *)
Definition check_length (min_length max_length : option nat) (v : string)
  : Checked string :=
  if match min_length with Some n => (String.length v <? n)%nat | None => false end
  then Invalid "string_too_short"
  else if match max_length with Some n => (n <? String.length v)%nat | None => false end
  then Invalid "string_too_long"
  else Valid v.

(** [decimal_places=n], judged on the normalised value: at most [n] digits
    follow the decimal point. *)
Definition within_decimal_places (n : Z) (d : Decimal) : bool :=
  (0 <=? exponent d + n)%Z
  || (coefficient d mod 10 ^ (- (exponent d + n)) =? 0)%Z.

(** [Field(gt=0, decimal_places=2)] on a [Decimal]. *)
Definition check_price (v : Decimal) : Checked Decimal :=
  if negb (within_decimal_places 2 v) then Invalid "decimal_max_places"
  else if negb (dec_lt Decimal_0 v) then Invalid "greater_than"
  else Valid v.

(** The class [[A-Z0-9-]] of the sku pattern. *)
Definition sku_char (c : ascii) : bool :=
  is_upper c || is_digit c || Ascii.eqb c "-".

(** [re.search(r"^[A-Z0-9-]+$", v)], the end anchor taken at the end of
    the text as the schema's regex engine does. *)
Definition sku_pattern (v : string) : bool :=
  str_truthy v && string_forallb sku_char v.

(** Errors of the fields of a model, in field order. *)
Definition field_errors {A} (loc : string) (c : Checked A) : list ErrorDetails :=
  match c with
  | Valid _ => []
  | Invalid ty => [(loc, ty)]
  end.

Module ProductBase.
(** [name: str = Field(min_length=1, max_length=200)]. *)
Definition check_name (v : string) : Checked string :=
  check_length (Some 1%nat) (Some 200%nat) v.

(** [description: str | None = Field(default=None, max_length=2000)]. *)
Definition check_description (v : option string) : Checked (option string) :=
  match v with
  | None => Valid None
  | Some s =>
      match check_length None (Some 2000%nat) s with
      | Valid s' => Valid (Some s')
      | Invalid ty => Invalid ty
      end
  end.
End ProductBase.

Module ProductCreate.
Record t := mk {
  name : string;
  description : option string;
  price : Decimal;
  sku : string;
  category_id : UUID
}.

(** [@field_validator("sku")], in the default mode: it runs after the
    field's own validation. *)
Definition uppercase_sku (v : string) : string := upper v.

(** The [sku] field: the [Field] constraints [max_length=50] and
    [pattern], then the validator. *)
Definition check_sku (v : string) : Checked string :=
  match check_length None (Some 50%nat) v with
  | Invalid ty => Invalid ty
  | Valid v =>
      if sku_pattern v then Valid (uppercase_sku v)
      else Invalid "string_pattern_mismatch"
  end.

(** Building a [ProductCreate] from well-typed keyword arguments: the validated
    model, or the errors of the fields that failed. *)
Definition model_validate (kwargs : t) : t + list ErrorDetails :=
  match ProductBase.check_name (name kwargs),
        ProductBase.check_description (description kwargs),
        check_price (price kwargs),
        check_sku (sku kwargs) with
  | Valid n, Valid d, Valid p, Valid s =>
      inl (mk n d p s (category_id kwargs))
  | cn, cd, cp, cs =>
      inr (field_errors "name" cn ++ field_errors "description" cd
           ++ field_errors "price" cp ++ field_errors "sku" cs)
  end.
End ProductCreate.

Module ProductUpdate.
(** The fields of the model, [ProductUpdate.model_fields]. *)
Inductive Field := F_name | F_description | F_price | F_category_id.

Definition Field_eqb (a b : Field) : bool :=
  match a, b with
  | F_name, F_name | F_description, F_description
  | F_price, F_price | F_category_id, F_category_id => true
  | _, _ => false
  end.

Definition field_name (f : Field) : string :=
  match f with
  | F_name => "name"
  | F_description => "description"
  | F_price => "price"
  | F_category_id => "category_id"
  end.

(** The model: every field defaults to [None]; [model_fields_set] holds
    the fields the payload gave explicitly. *)
Record t := mk {
  name : option string;
  description : option string;
  price : option Decimal;
  category_id : option UUID;
  model_fields_set : list Field
}.

(** An item [(field, value)] of a dumped model. *)
Inductive Item :=
| Item_name (value : option string)
| Item_description (value : option string)
| Item_price (value : option Decimal)
| Item_category_id (value : option UUID).

Definition key (i : Item) : Field :=
  match i with
  | Item_name _ => F_name
  | Item_description _ => F_description
  | Item_price _ => F_price
  | Item_category_id _ => F_category_id
  end.

(** [data.model_dump()]: all fields, in declaration order. *)
Definition model_dump (data : t) : list Item :=
  [Item_name (name data); Item_description (description data);
   Item_price (price data); Item_category_id (category_id data)].

Definition is_set (data : t) (f : Field) : bool :=
  existsb (Field_eqb f) (model_fields_set data).

(** [data.model_dump(exclude_unset=True)]: only the fields set explicitly. *)
Definition model_dump_exclude_unset (data : t) : list Item :=
  filter (fun i => is_set data (key i)) (model_dump data).

(** A PATCH body: each field is absent from it, or present with [null]
    or with a value. *)
Record Body := mkBody {
  b_name : option (option string);
  b_description : option (option string);
  b_price : option (option Decimal);
  b_category_id : option (option UUID)
}.

(** A field of type [T | None] with constraints: [None] passes, a value
    is checked. *)
Definition check_optional {A} (check : A -> Checked A) (v : option A)
  : Checked (option A) :=
  match v with
  | None => Valid None
  | Some a =>
      match check a with
      | Valid a' => Valid (Some a')
      | Invalid ty => Invalid ty
      end
  end.

(** A field with [default=None]: validated when the body has it, the
    default otherwise. *)
Definition check_supplied {A} (check : A -> Checked A) (v : option (option A))
  : Checked (option A) :=
  match v with
  | None => Valid None
  | Some x => check_optional check x
  end.

Definition has {A} (v : option A) : bool :=
  match v with
  | Some _ => true
  | None => false
  end.

Definition supplied_fields (body : Body) : list Field :=
  (if has (b_name body) then [F_name] else [])
  ++ (if has (b_description body) then [F_description] else [])
  ++ (if has (b_price body) then [F_price] else [])
  ++ (if has (b_category_id body) then [F_category_id] else []).

(** Building a [ProductUpdate] from a body: [name] has
    [min_length=1, max_length=200], [price] has [gt=0, decimal_places=2],
    and [model_fields_set] is the set of fields the body has. *)
Definition model_validate (body : Body) : t + list ErrorDetails :=
  match check_supplied (check_length (Some 1%nat) (Some 200%nat)) (b_name body),
        check_supplied check_price (b_price body) with
  | Valid n, Valid p =>
      inl (mk n
             (match b_description body with Some d => d | None => None end)
             p
             (match b_category_id body with Some c => c | None => None end)
             (supplied_fields body))
  | cn, cp => inr (field_errors "name" cn ++ field_errors "price" cp)
  end.
End ProductUpdate.

Module ProductResponse.
Record t := mk {
  name : string;
  description : option string;
  price : Decimal;
  id : UUID;
  sku : string;
  category_id : UUID;
  is_published : bool;
  created_at : Z;
  updated_at : option Z;
  created_by : UUID
}.

(** A field that is not optional, read off an attribute: [None] is not
    of the field's type, and the error names the type expected. *)
Definition required {A} (type_error : string) (v : option A) : Checked A :=
  match v with
  | Some a => Valid a
  | None => Invalid type_error
  end.

Definition and_then {A B} (c : Checked A) (k : A -> Checked B) : Checked B :=
  match c with
  | Valid a => k a
  | Invalid ty => Invalid ty
  end.

(** [ProductResponse.model_validate(product)] with [from_attributes=True]:
    the attributes are read off the instance and validated as the fields
    of [ProductBase] and of the response. *)
Definition model_validate (product : ProductObj) : t + list ErrorDetails :=
  let p := columns product in
  match and_then (required "string_type" (Product.name p)) ProductBase.check_name,
        ProductBase.check_description (Product.description p),
        and_then (required "decimal_type" (Product.price p)) check_price,
        required "uuid_type" (Product.category_id p),
        required "uuid_type" (Product.created_by p) with
  | Valid n, Valid d, Valid pr, Valid c, Valid by_ =>
      inl (mk n d pr (Product.id p) (Product.sku p) c
             (Product.is_published p) (Product.created_at p)
             (Product.updated_at p) by_)
  | cn, cd, cp, cc, cb =>
      inr (field_errors "name" cn ++ field_errors "description" cd
           ++ field_errors "price" cp ++ field_errors "category_id" cc
           ++ field_errors "created_by" cb)
  end.
End ProductResponse.

Module ProductListResponse.
Record t := mk {
  items : list ProductResponse.t;
  total : Z;
  skip : Z;
  limit : Z
}.

(** [@computed_field has_more]. *)
Definition has_more (self : t) : bool :=
  (skip self + Z.of_nat (List.length (items self)) <? total self)%Z.
End ProductListResponse.

Module ProductQueryParams.
Record t := mk {
  skip : Z;
  limit : Z;
  category_id : option UUID;
  min_price : option Decimal;
  max_price : option Decimal;
  search : option string
}.

(** [info.data]: the fields validated so far.  A field that failed its
    validation has no key ([None] here); a validated field holds its
    value, which may itself be [None]. *)
Record Data := mkData {
  data_skip : option Z;
  data_limit : option Z;
  data_category_id : option (option UUID);
  data_min_price : option (option Decimal)
}.

Record ValidationInfo := mkInfo { data : Data }.

(** [info.data.get("min_price")]. *)
Definition get_min_price (d : Data) : option Decimal :=
  match data_min_price d with
  | Some v => v
  | None => None
  end.

(** [@field_validator("max_price")]: the value, or the message of the
    [ValueError] raised. *)
Definition max_price_greater_than_min (v : option Decimal) (info : ValidationInfo)
  : option Decimal + string :=
  let min_price := get_min_price (data info) in
  match v, min_price with
  | Some v', Some m =>
      if dec_lt v' m then inr "max_price must be greater than min_price"
      else inl v
  | _, _ => inl v
  end.

(** [Field(ge=, le=)] on an [int]. *)
Definition check_int (ge le : option Z) (v : Z) : Checked Z :=
  if match ge with Some b => (v <? b)%Z | None => false end
  then Invalid "greater_than_equal"
  else if match le with Some b => (b <? v)%Z | None => false end
  then Invalid "less_than_equal"
  else Valid v.

(** [Decimal | None = Field(default=None, ge=0)]. *)
Definition check_ge_0 (v : option Decimal) : Checked (option Decimal) :=
  match v with
  | None => Valid None
  | Some d => if dec_le Decimal_0 d then Valid v else Invalid "greater_than_equal"
  end.

(** The [max_price] field: its [Field] constraint, then the validator. *)
Definition check_max_price (v : option Decimal) (info : ValidationInfo)
  : Checked (option Decimal) :=
  match v with
  | None => Valid None     (* not supplied: the default is not validated *)
  | Some _ =>
      match check_ge_0 v with
      | Invalid ty => Invalid ty
      | Valid v' =>
          match max_price_greater_than_min v' info with
          | inl r => Valid r
          | inr _ => Invalid "value_error"
          end
      end
  end.

(** [search: str | None = Field(default=None, min_length=1)]. *)
Definition check_search (v : option string) : Checked (option string) :=
  match v with
  | None => Valid None
  | Some s =>
      match check_length (Some 1%nat) None s with
      | Valid s' => Valid (Some s')
      | Invalid ty => Invalid ty
      end
  end.

Definition validated {A} (c : Checked A) : option A :=
  match c with
  | Valid a => Some a
  | Invalid _ => None
  end.

(** A query-parameter payload: each parameter is supplied or not. *)
Record Payload := mkPayload {
  p_skip : option Z;
  p_limit : option Z;
  p_category_id : option UUID;
  p_min_price : option Decimal;
  p_max_price : option Decimal;
  p_search : option string
}.

(** Building a [ProductQueryParams] from a payload: fields are validated in declaration
    order, each validator seeing in [info.data] the fields before it. *)
Definition model_validate (payload : Payload) : t + list ErrorDetails :=
  let c_skip :=
    match p_skip payload with
    | Some v => check_int (Some 0%Z) None v
    | None => Valid 0%Z
    end in
  let c_limit :=
    match p_limit payload with
    | Some v => check_int (Some 1%Z) (Some 100%Z) v
    | None => Valid 20%Z
    end in
  let c_min := check_ge_0 (p_min_price payload) in
  let info :=
    mkInfo (mkData (validated c_skip) (validated c_limit)
              (Some (p_category_id payload)) (validated c_min)) in
  let c_max := check_max_price (p_max_price payload) info in
  let c_search := check_search (p_search payload) in
  match c_skip, c_limit, c_min, c_max, c_search with
  | Valid sk, Valid li, Valid mn, Valid mx, Valid se =>
      inl (mk sk li (p_category_id payload) mn mx se)
  | _, _, _, _, _ =>
      inr (field_errors "skip" c_skip ++ field_errors "limit" c_limit
           ++ field_errors "min_price" c_min ++ field_errors "max_price" c_max
           ++ field_errors "search" c_search)
  end.
End ProductQueryParams.

(* ===================================================================== *)
(** ** The service (service_template.py)                                   *)
(* ===================================================================== *)

(** The constructor call of [create]: a [Product] from the keyword
    arguments of a dumped [ProductCreate] and [created_by].  The column defaults ([id] from [uuid4],
    [quantity], [is_active], [is_published], the server-side [created_at])
    are filled here; the ORM fills them when the instance is flushed, and
    [create] does not read them in between. *)
Definition Product_new (kwargs : ProductCreate.t) (created_by : UUID) : M ProductObj :=
  id <- uuid4 ;;
  created_at <- func_now ;;
  ret (mkObj
         (Product.mk id created_at None (Some created_by) None
            (Some (ProductCreate.name kwargs)) (ProductCreate.description kwargs)
            (ProductCreate.sku kwargs) (Some (ProductCreate.price kwargs))
            0%Z true false None (Some (ProductCreate.category_id kwargs)))
         None).

(** [setattr(product, field, value)] for an item of a dumped [ProductUpdate]. *)
Definition setattr (product : ProductObj) (item : ProductUpdate.Item) : ProductObj :=
  match item with
  | ProductUpdate.Item_name value => with_columns (Product.set_name value) product
  | ProductUpdate.Item_description value =>
      with_columns (Product.set_description value) product
  | ProductUpdate.Item_price value => with_columns (Product.set_price value) product
  | ProductUpdate.Item_category_id value =>
      with_columns (Product.set_category_id value) product
  end.

Module ProductService.

Definition get_by_id (product_id : UUID) : M ProductObj :=
  result <- db_execute_select (fun p => N.eqb (Product.id p) product_id) ;;
  product <- scalar_one_or_none result ;;
  match product with
  | None =>
      raise (NotFoundError ("Product " ++ str_uuid product_id ++ " not found")
               [("product_id", str_uuid product_id)])
  | Some product => ret product
  end.

Definition get_by_sku (sku : string) : M (option ProductObj) :=
  result <- db_execute_select (fun p => String.eqb (Product.sku p) sku) ;;
  scalar_one_or_none result.

(** The filters [list] applies.  A [UUID] is always truthy, so
    [if category_id] asks whether one was given; [if search] also
    drops the empty string. *)
Definition list_filter (category_id : option UUID) (search : option string)
    (p : Product.t) : bool :=
  match category_id with
  | Some c => option_eqb N.eqb (Product.category_id p) (Some c)
  | None => true
  end
  &&
  match search with
  | Some s =>
      if str_truthy s then
        match Product.name p with
        | Some n => ilike n ("%" ++ s ++ "%")
        | None => false
        end
      else true
  | None => true
  end.

(** [skip] and [limit] are the non-negative integers the router admits
    ([Query(ge=0)], [Query(ge=1, le=100)]). *)
Definition list (skip limit : nat) (category_id : option UUID)
    (search : option string) : M (Datatypes.list ProductObj * nat) :=
  let query := list_filter category_id search in
  total <- db_execute_count query ;;
  result <- db_execute_select_page query skip limit ;;
  let products := map loaded result in
  ret (products, total).

Definition create (data : ProductCreate.t) (created_by : UUID) : M ProductObj :=
  if dec_lt (ProductCreate.price data) Decimal_0_01 then
    raise (ValidationError "Price must be at least $0.01" "InvalidPrice")
  else
    existing <- get_by_sku (ProductCreate.sku data) ;;
    match existing with
    | Some existing =>
        raise (ConflictError
                 ("Product with SKU " ++ ProductCreate.sku data ++ " already exists")
                 "DuplicateSKU"
                 [("sku", ProductCreate.sku data);
                  ("existing_id", str_uuid (Product.id (columns existing)))])
    | None =>
        product <- Product_new data created_by ;;
        db_add product ;;;
        db_commit [] ;;;
        product <- db_refresh product ;;
        logger_info "product_created"
          [("product_id", LStr (str_uuid (Product.id (columns product))));
           ("sku", LStr (Product.sku (columns product)));
           ("created_by", LStr (str_uuid created_by))] ;;;
        ret product
    end.

Definition update (product_id : UUID) (data : ProductUpdate.t) (updated_by : UUID)
  : M ProductObj :=
  product <- get_by_id product_id ;;
  let update_data := ProductUpdate.model_dump_exclude_unset data in
  let product := fold_left setattr update_data product in
  let product := with_columns (Product.set_updated_by (Some updated_by)) product in
  db_commit [Assigned product] ;;;
  product <- db_refresh product ;;
  logger_info "product_updated"
    [("product_id", LStr (str_uuid product_id));
     ("updated_fields",
      LList (map (fun i => ProductUpdate.field_name (ProductUpdate.key i)) update_data));
     ("updated_by", LStr (str_uuid updated_by))] ;;;
  ret product.

(** [not product.description]: [None] and the empty string are falsy. *)
Definition description_missing (product : ProductObj) : bool :=
  match Product.description (columns product) with
  | Some d => negb (str_truthy d)
  | None => true
  end.

Definition publish (product_id : UUID) (published_by : UUID) : M ProductObj :=
  product <- get_by_id product_id ;;
  if description_missing product then
    raise (ValidationError "Product must have a description before publishing"
             "MissingDescription")
  else
    let product := with_columns (Product.set_is_published true) product in
    (* [func.now()] is a SQL expression: the attribute is modified whatever
       the row holds, and the database puts its clock there. *)
    published_at <- func_now ;;
    let product := with_columns (Product.set_published_at (Some published_at)) product in
    let product := mkObj (columns product) (Some published_by) in
    db_commit [AssignedExpression product] ;;;
    product <- db_refresh product ;;
    logger_info "product_published"
      [("product_id", LStr (str_uuid product_id));
       ("published_by", LStr (str_uuid published_by))] ;;;
    ret product.

Definition bulk_update_prices (category_id : UUID) (multiplier : Decimal) : M nat :=
  result <-
    db_execute_update
      (fun p => option_eqb N.eqb (Product.category_id p) (Some category_id))
      (fun p =>
         Product.set_price
           (option_map (fun price => dec_mul price multiplier) (Product.price p)) p) ;;
  db_commit [] ;;;
  let count := result in
  logger_info "bulk_prices_updated"
    [("category_id", LStr (str_uuid category_id));
     ("multiplier", LDecimal multiplier);
     ("count", LInt (Z.of_nat count))] ;;;
  ret count.

Definition delete (product_id : UUID) : M unit :=
  product <- get_by_id product_id ;;
  deleted <- db_delete product ;;
  db_commit_deleting deleted ;;;
  logger_info "product_deleted" [("product_id", LStr (str_uuid product_id))].

End ProductService.

(* ===================================================================== *)
(** ** The router (router_template.py)                                     *)
(* ===================================================================== *)

(** [[ProductResponse.model_validate(p) for p in products]]. *)
Fixpoint model_validate_all (products : list ProductObj) : M (list ProductResponse.t) :=
  match products with
  | [] => ret []
  | p :: rest =>
      match ProductResponse.model_validate p with
      | inr errors => raise (PydanticValidationError errors)
      | inl item =>
          items <- model_validate_all rest ;;
          ret (item :: items)
      end
  end.

Definition list_products (skip limit : nat) (category_id : option UUID)
    (search : option string) : M ProductListResponse.t :=
  r <- ProductService.list skip limit category_id search ;;
  let '(products, total) := r in
  items <- model_validate_all products ;;
  ret (ProductListResponse.mk items (Z.of_nat total) (Z.of_nat skip) (Z.of_nat limit)).

(** [ProductResponse.model_validate(product)] at the end of an endpoint:
    the response, or the schema's error raised. *)
Definition respond (product : ProductObj) : M ProductResponse.t :=
  match ProductResponse.model_validate product with
  | inl response => ret response
  | inr errors => raise (PydanticValidationError errors)
  end.



Definition update_product (product_id : UUID) (data : ProductUpdate.t)
    (current_user : UUID) : M ProductResponse.t :=
  product <- ProductService.update product_id data current_user ;;
  respond product.

Definition delete_product (product_id : UUID) : M unit :=
  ProductService.delete product_id.

Definition publish_product (product_id : UUID) (current_user : UUID)
  : M ProductResponse.t :=
  product <- ProductService.publish product_id current_user ;;
  respond product.

(* ===================================================================== *)
(** ** Definitions the properties are stated with                          *)
(* ===================================================================== *)

(** The rows once the row of id [product_id] is [x]. *)
Definition rows_after_update (product_id : UUID) (x : Product.t)
    (rows : list Product.t) : list Product.t :=
  map (fun row => if N.eqb (Product.id row) product_id then x else row) rows.

(** The instance [update] holds before it commits. *)
Definition update_assigned (p0 : Product.t) (data : ProductUpdate.t) (updated_by : UUID)
  : ProductObj :=
  with_columns (Product.set_updated_by (Some updated_by))
    (fold_left setattr (ProductUpdate.model_dump_exclude_unset data) (loaded p0)).

(** The row the commit of [update] leaves for the product, or [None] when
    the table refuses the UPDATE. *)
Definition update_stored (clock : Z) (p0 : Product.t) (data : ProductUpdate.t)
    (updated_by : UUID) : option Product.t :=
  update_row clock p0 (Assigned (update_assigned p0 data updated_by)).







(** The columns [update] never assigns. *)
Definition same_identity_and_publication (p p0 : Product.t) : Prop :=
  Product.id p = Product.id p0
  /\ Product.sku p = Product.sku p0
  /\ Product.quantity p = Product.quantity p0
  /\ Product.is_active p = Product.is_active p0
  /\ Product.is_published p = Product.is_published p0
  /\ Product.published_at p = Product.published_at p0
  /\ Product.created_at p = Product.created_at p0
  /\ Product.created_by p = Product.created_by p0.

(** The instance [publish] returns when it succeeds. *)
Definition publish_returned (clock : Z) (p0 : Product.t) (published_by : UUID)
  : ProductObj :=
  mkObj (Product.set_updated_at (Some clock)
           (Product.set_published_at (Some clock)
              (Product.set_is_published true p0)))
        (Some published_by).

Module Fixture.
Definition user_id : UUID := 7%N.
Definition category : UUID := 5%N.

(** [sample_product] of the unit tests. *)
Definition sample_product : Product.t :=
  Product.mk 1%N 100%Z None (Some user_id) None (Some "Test Product") None
    "TEST-001" (Some (mkDecimal 2999 (-2))) 0%Z true false None (Some category).

(** The same product once it has a description. *)
Definition described_product : Product.t :=
  Product.set_description (Some "A widget") sample_product.

(** [valid_create_data] of the unit tests. *)
Definition valid_create_data : ProductCreate.t :=
  ProductCreate.mk "New Product" None (mkDecimal 4999 (-2)) "NEW-001" category.

(** The data of [test_raises_validation_error_for_invalid_price]. *)
Definition invalid_price_data : ProductCreate.t :=
  ProductCreate.mk "Test" None (mkDecimal 1 (-3)) "TEST" category.

(** [ProductUpdate(name="Updated Name")]. *)
Definition rename : ProductUpdate.t :=
  ProductUpdate.mk (Some "Updated Name") None None None [ProductUpdate.F_name].

(** [ProductUpdate(description=None)]: an explicit null. *)
Definition clear_description : ProductUpdate.t :=
  ProductUpdate.mk None None None None [ProductUpdate.F_description].

(** [ProductUpdate()]: nothing supplied. *)
Definition nothing : ProductUpdate.t :=
  ProductUpdate.mk None None None None [].

(** [ProductUpdate(name=None)]: an explicit null for a column that is
    [nullable=False]. *)
Definition null_name : ProductUpdate.t :=
  ProductUpdate.mk None None None None [ProductUpdate.F_name].

(** [ProductUpdate(price=Decimal("5.5"))]. *)
Definition reprice : ProductUpdate.t :=
  ProductUpdate.mk None None (Some (mkDecimal 55 (-1))) None [ProductUpdate.F_price].

(** The products [product_factory] makes in [test_pagination_works_correctly],
    [n] of them, numbered from [i], each with an id and a sku of its own. *)
Fixpoint factory_products (i : N) (n : nat) : list Product.t :=
  match n with
  | O => []
  | S n' =>
      Product.mk (100 + i)%N (Z.of_N i) None (Some user_id) None
        (Some "Factory Product") None (str_uuid i) (Some (mkDecimal 2999 (-2)))
        0%Z true false None (Some category)
      :: factory_products (i + 1)%N n'
  end.

Definition twenty_five : list Product.t := factory_products 0%N 25.

(** The same products when the database gives them one [created_at], as
    [server_default=func.now()] does for rows inserted in one
    transaction. *)
Definition created_together (rows : list Product.t) : list Product.t :=
  map (fun p =>
         Product.mk (Product.id p) 0%Z (Product.updated_at p) (Product.created_by p)
           (Product.updated_by p) (Product.name p) (Product.description p)
           (Product.sku p) (Product.price p) (Product.quantity p)
           (Product.is_active p) (Product.is_published p) (Product.published_at p)
           (Product.category_id p)) rows.

Definition twenty_five_together : list Product.t := created_together twenty_five.

(** An engine that returns tied rows by ascending id for the first page
    and by descending id for the pages after it. *)
Definition changing_rank (skip limit : nat) (p : Product.t) : Z :=
  match skip with
  | O => Z.of_N (Product.id p)
  | S _ => (- Z.of_N (Product.id p))%Z
  end.
End Fixture.

(** A request of price 0.001 whose sku is the stored product's. *)
Definition colliding_cheap_data : ProductCreate.t :=
  ProductCreate.mk "Test" None (mkDecimal 1 (-3)) "TEST-001" Fixture.category.

(** [valid_create_data] with the sku of the stored product, as
    [test_raises_conflict_for_duplicate_sku] builds it. *)
Definition colliding_data : ProductCreate.t :=
  ProductCreate.mk "New Product" None (mkDecimal 4999 (-2)) "TEST-001" Fixture.category.

(** The three requests of [test_pagination_works_correctly], one after the
    other on the same store. *)
Definition three_page_requests
  : M ((list ProductObj * nat) * (list ProductObj * nat) * (list ProductObj * nat)) :=
  first <- ProductService.list 0 10 None None ;;
  second <- ProductService.list 10 10 None None ;;
  last <- ProductService.list 20 10 None None ;;
  ret (first, second, last).

(** The row [bulk_update_prices] leaves in place of a row of the category:
    the price times the multiplier, at the column's scale. *)
Definition repriced (clock : Z) (multiplier : Decimal) (row : Product.t) : Product.t :=
  Product.set_updated_at (Some clock)
    (at_column_scale
       (Product.set_price
          (option_map (fun price => dec_mul price multiplier) (Product.price row))
          row)).

(** The request of the schema's examples, its sku in lower case. *)
Definition lowercase_sku_request : ProductCreate.t :=
  ProductCreate.mk "Premium Widget" None (mkDecimal 2999 (-2)) "widget-001"
    Fixture.category.

Definition is_valid {A} (c : Checked A) : bool :=
  match c with
  | Valid _ => true
  | Invalid _ => false
  end.

(** Every parameter of the payload passes the constraints of its own field. *)
Definition own_constraints_hold (payload : ProductQueryParams.Payload) : bool :=
  match ProductQueryParams.p_skip payload with
  | Some v => is_valid (ProductQueryParams.check_int (Some 0%Z) None v)
  | None => true
  end
  && match ProductQueryParams.p_limit payload with
     | Some v => is_valid (ProductQueryParams.check_int (Some 1%Z) (Some 100%Z) v)
     | None => true
     end
  && is_valid (ProductQueryParams.check_ge_0 (ProductQueryParams.p_min_price payload))
  && is_valid (ProductQueryParams.check_ge_0 (ProductQueryParams.p_max_price payload))
  && is_valid (ProductQueryParams.check_search (ProductQueryParams.p_search payload)).

(** [?min_price=10&max_price=5]. *)
Definition inverted_prices : ProductQueryParams.Payload :=
  ProductQueryParams.mkPayload None None None
    (Some (mkDecimal 10 0)) (Some (mkDecimal 5 0)) None.

(** [?max_price=5]. *)
Definition only_max_price : ProductQueryParams.Payload :=
  ProductQueryParams.mkPayload None None None None (Some (mkDecimal 5 0)) None.

(** The row [create] stores: the request's fields, the price at the two
    decimal places of its column, the creator, the id drawn from [uuid4]
    and the column defaults. *)
Definition created_row (data : ProductCreate.t) (created_by u : UUID) (clock : Z)
  : Product.t :=
  Product.mk u clock None (Some created_by) None
    (Some (ProductCreate.name data)) (ProductCreate.description data)
    (ProductCreate.sku data) (Some (Numeric_10_2 (ProductCreate.price data)))
    0%Z true false None (Some (ProductCreate.category_id data)).

(** The stored products without the one of id [product_id]. *)
Definition without (product_id : UUID) (rows : list Product.t) : list Product.t :=
  filter (fun row => negb (N.eqb (Product.id row) product_id)) rows.

(** The stored product, described and deactivated. *)
Definition inactive_product : Product.t :=
  Product.mk 1%N 100%Z None (Some 7%N) None (Some "Test Product")
    (Some "A widget") "TEST-001" (Some (mkDecimal 2999 (-2))) 0%Z false false
    None (Some 5%N).

Definition in_category (category_id : UUID) (p : Product.t) : bool :=
  option_eqb N.eqb (Product.category_id p) (Some category_id).

(** The price of the row times the multiplier is positive at the column's
    scale: the check [price > 0] passes on the repriced row. *)
Definition stays_positive (multiplier : Decimal) (row : Product.t) : bool :=
  match Product.price row with
  | Some price => dec_lt Decimal_0 (Numeric_10_2 (dec_mul price multiplier))
  | None => true
  end.


(** Newer first: [b] may follow [a] when it was not created after [a]. *)
Definition not_created_after (a b : Product.t) : Prop :=
  (Product.created_at b <= Product.created_at a)%Z.


(** The request of the schema's examples. *)
Definition widget_request : ProductCreate.t :=
  ProductCreate.mk "Premium Widget" None (mkDecimal 2999 (-2)) "WIDGET-001"
    Fixture.category.

(** [?skip=20&limit=10&min_price=5&max_price=10&search=widget]. *)
Definition price_window : ProductQueryParams.Payload :=
  ProductQueryParams.mkPayload (Some 20%Z) (Some 10%Z) None
    (Some (mkDecimal 5 0)) (Some (mkDecimal 10 0)) (Some "widget").


(** The body [{"name": null}]. *)
Definition null_name_patch : ProductUpdate.Body :=
  ProductUpdate.mkBody (Some None) None None None.



(* ===================================================================== *)
(** ** Auxiliary facts                                                     *)
(* ===================================================================== *)

(** *** The Python values, on examples *)

Example str_uuid_1 :
  str_uuid 1%N = "00000000-0000-0000-0000-000000000001".
Proof. reflexivity. Qed.

Example ilike_widget : ilike "Premium Widget" "%WIDG%" = true.
Proof. reflexivity. Qed.

Example ilike_underscore : ilike "Premium Widget" "%w_d%" = true.
Proof. reflexivity. Qed.

Example dec_lt_small : dec_lt (mkDecimal 1 (-3)) Decimal_0_01 = true.
Proof. reflexivity. Qed.

(** *** Decimals *)

Lemma pow10_pos (k : Z) : (0 <= k -> 0 < 10 ^ k)%Z.
Proof. intros Hk. apply Z.pow_pos_nonneg; lia. Qed.

(** Comparing with zero looks at the sign of the coefficient only. *)
Lemma dec_compare_0_l (d : Decimal) :
  dec_compare Decimal_0 d = Z.compare 0 (coefficient d).
Proof.
  unfold dec_compare, dec_scale, Decimal_0; cbn [coefficient exponent].
  set (e := Z.min 0 (exponent d)).
  assert (He : (0 <= exponent d - e)%Z) by (subst e; lia).
  pose proof (pow10_pos _ He) as Hp.
  rewrite Z.mul_0_l.
  destruct (Z.compare_spec 0 (coefficient d)) as [H | H | H].
  - rewrite <- H. rewrite Z.mul_0_l. reflexivity.
  - apply Z.compare_lt_iff. nia.
  - apply Z.compare_gt_iff. nia.
Qed.

Lemma dec_lt_0_iff (d : Decimal) :
  dec_lt Decimal_0 d = true <-> (0 < coefficient d)%Z.
Proof.
  unfold dec_lt. rewrite dec_compare_0_l.
  destruct (Z.compare_spec 0 (coefficient d)); split; intros;
    try lia; try discriminate; try reflexivity.
Qed.

Lemma dec_compare_0_r (d : Decimal) :
  dec_compare d Decimal_0 = Z.compare (coefficient d) 0.
Proof.
  unfold dec_compare, dec_scale, Decimal_0; cbn [coefficient exponent].
  set (e := Z.min (exponent d) 0).
  assert (He : (0 <= exponent d - e)%Z) by (subst e; lia).
  pose proof (pow10_pos _ He) as Hp.
  rewrite Z.mul_0_l.
  destruct (Z.compare_spec (coefficient d) 0) as [H | H | H].
  - rewrite H. rewrite Z.mul_0_l. reflexivity.
  - apply Z.compare_lt_iff. nia.
  - apply Z.compare_gt_iff. nia.
Qed.

Lemma dec_le_0_iff (d : Decimal) :
  dec_le d Decimal_0 = true <-> (coefficient d <= 0)%Z.
Proof.
  unfold dec_le. rewrite dec_compare_0_r.
  destruct (Z.compare_spec (coefficient d) 0); split; intros;
    try lia; try discriminate; try reflexivity.
Qed.

Lemma dec_lt_irrefl_eq (a b : Decimal) : dec_eq a b = true -> dec_lt a b = false.
Proof. unfold dec_eq, dec_lt. destruct (dec_compare a b); congruence. Qed.


Lemma dec_eq_refl (a : Decimal) : dec_eq a a = true.
Proof. unfold dec_eq, dec_compare. rewrite Z.compare_refl. reflexivity. Qed.

(** A decimal with at most two decimal places that is positive is at
    least 0.01. *)
Lemma two_places_positive_at_least_minimum (d : Decimal) :
  dec_lt Decimal_0 d = true ->
  within_decimal_places 2 d = true ->
  dec_lt d Decimal_0_01 = false.
Proof.
  rewrite dec_lt_0_iff. intros Hpos Hplaces.
  unfold dec_lt, dec_compare, dec_scale, Decimal_0_01, within_decimal_places in *.
  cbn [coefficient exponent] in *.
  destruct (Z.leb_spec 0 (exponent d + 2)) as [Hge | Hlt].
  - replace (Z.min (exponent d) (-2)) with (-2)%Z by lia.
    replace (-2 - -2)%Z with 0%Z by lia.
    replace (exponent d - -2)%Z with (exponent d + 2)%Z by lia.
    pose proof (pow10_pos (exponent d + 2) Hge) as Hp.
    destruct (Z.compare_spec (coefficient d * 10 ^ (exponent d + 2)) (1 * 10 ^ 0))
      as [Hc | Hc | Hc]; try reflexivity.
    cbn in Hc. nia.
  - cbn [orb] in Hplaces. apply Z.eqb_eq in Hplaces.
    replace (Z.min (exponent d) (-2)) with (exponent d) by lia.
    replace (exponent d - exponent d)%Z with 0%Z by lia.
    replace (-2 - exponent d)%Z with (- (exponent d + 2))%Z by lia.
    set (k := (- (exponent d + 2))%Z) in *.
    assert (Hk : (0 <= k)%Z) by (subst k; lia).
    pose proof (pow10_pos k Hk) as Hp.
    assert (Hdiv : (coefficient d = 10 ^ k * (coefficient d / 10 ^ k))%Z).
    { assert (Hnz : (10 ^ k <> 0)%Z) by lia.
      pose proof (Z.div_mod (coefficient d) (10 ^ k) Hnz) as Hdm.
      rewrite Hplaces, Z.add_0_r in Hdm. exact Hdm. }
    destruct (Z.compare_spec (coefficient d * 10 ^ 0) (1 * 10 ^ k))
      as [Hc | Hc | Hc]; try reflexivity.
    exfalso. rewrite Z.pow_0_r in Hc.
    remember (coefficient d / 10 ^ k)%Z as q eqn:Eq.
    remember (10 ^ k)%Z as m eqn:Em.
    remember (coefficient d) as c eqn:Ec.
    clear - Hdiv Hc Hp Hpos.
    assert (Hq : (0 < q)%Z) by nia.
    nia.
Qed.

(** *** The scale of the price column *)



(** A price of at least 0.01 is positive at the column's scale. *)
Lemma Numeric_10_2_positive (d : Decimal) :
  dec_lt d Decimal_0_01 = false -> dec_lt Decimal_0 (Numeric_10_2 d) = true.
Proof.
  intros Hge. apply dec_lt_0_iff.
  unfold dec_lt, dec_compare, dec_scale, Decimal_0_01 in Hge.
  cbn [coefficient exponent] in Hge.
  unfold Numeric_10_2, round_to_places, round_half_away.
  destruct (Z.leb_spec 0 (exponent d + 2)) as [Hshift | Hshift];
    cbn [coefficient].
  - replace (Z.min (exponent d) (-2)) with (-2)%Z in Hge by lia.
    replace (-2 - -2)%Z with 0%Z in Hge by lia.
    replace (exponent d - -2)%Z with (exponent d + 2)%Z in Hge by lia.
    pose proof (pow10_pos (exponent d + 2) Hshift) as Hp.
    destruct (Z.compare_spec (coefficient d * 10 ^ (exponent d + 2)) (1 * 10 ^ 0))
      as [Hc | Hc | Hc]; try discriminate Hge; cbn in Hc; nia.
  - replace (Z.min (exponent d) (-2)) with (exponent d) in Hge by lia.
    replace (exponent d - exponent d)%Z with 0%Z in Hge by lia.
    replace (-2 - exponent d)%Z with (- (exponent d + 2))%Z in Hge by lia.
    set (k := (- (exponent d + 2))%Z) in *.
    assert (Hk : (0 <= k)%Z) by (subst k; lia).
    pose proof (pow10_pos k Hk) as Hp.
    rewrite Z.pow_0_r, Z.mul_1_r, Z.mul_1_l in Hge.
    assert (Hc : (10 ^ k <= coefficient d)%Z).
    { destruct (Z.compare_spec (coefficient d) (10 ^ k)) as [Hc | Hc | Hc];
        try discriminate Hge; lia. }
    assert (H0 : (0 <=? coefficient d)%Z = true) by (apply Z.leb_le; lia).
    rewrite H0.
    apply Z.div_str_pos. lia.
Qed.




(** *** Selecting by a unique key *)

Section UniqueKey.
Context {A K : Type} (key : A -> K) (eqb : K -> K -> bool).
Hypothesis eqb_eq : forall a b, eqb a b = true <-> a = b.

Lemma filter_key_absent (k : K) (l : list A) :
  ~ In k (map key l) -> filter (fun y => eqb (key y) k) l = [].
Proof.
  induction l as [ | y l IH ]; cbn [map filter]; intros Hk.
  - reflexivity.
  - destruct (eqb (key y) k) eqn:E.
    + apply eqb_eq in E. exfalso. apply Hk. left. exact E.
    + apply IH. intros Hin. apply Hk. right. exact Hin.
Qed.

Lemma filter_key_unique (x : A) (l : list A) :
  NoDup (map key l) -> In x l ->
  filter (fun y => eqb (key y) (key x)) l = [x].
Proof.
  induction l as [ | y l IH ]; cbn [map filter]; intros Hnd Hin.
  - destruct Hin.
  - apply NoDup_cons_iff in Hnd. destruct Hnd as [Hy Hnd].
    destruct Hin as [-> | Hin].
    + assert (E : eqb (key x) (key x) = true) by (apply eqb_eq; reflexivity).
      rewrite E. f_equal. apply filter_key_absent. exact Hy.
    + destruct (eqb (key y) (key x)) eqn:E.
      * apply eqb_eq in E. exfalso. apply Hy. rewrite E.
        apply in_map. exact Hin.
      * apply IH; assumption.
Qed.

(** Rewriting the rows that carry key [k], key preserved, rewrites
    the selection. *)
Lemma filter_key_map (k : K) (f : A -> A) (l : list A) :
  (forall y, key y = k -> key (f y) = k) ->
  filter (fun y => eqb (key y) k)
         (map (fun y => if eqb (key y) k then f y else y) l)
  = map f (filter (fun y => eqb (key y) k) l).
Proof.
  intros Hf. induction l as [ | y l IH ]; cbn [map filter].
  - reflexivity.
  - destruct (eqb (key y) k) eqn:E.
    + assert (E' : eqb (key (f y)) k = true).
      { apply eqb_eq. apply Hf. apply eqb_eq. exact E. }
      rewrite E'. cbn [map]. f_equal. exact IH.
    + rewrite E. exact IH.
Qed.
End UniqueKey.

Lemma N_eqb_iff (a b : N) : N.eqb a b = true <-> a = b.
Proof. apply N.eqb_eq. Qed.

Lemma String_eqb_iff (a b : string) : String.eqb a b = true <-> a = b.
Proof. apply String.eqb_eq. Qed.

(** *** Ordering and paging *)

Lemma insert_desc_perm (rank : Product.t -> Z) (p : Product.t) (rows : list Product.t) :
  Permutation (p :: rows) (insert_desc rank p rows).
Proof.
  induction rows as [ | q rows IH ]; cbn [insert_desc].
  - apply Permutation_refl.
  - destruct (comes_first rank p q).
    + apply Permutation_refl.
    + eapply perm_trans; [apply perm_swap | apply perm_skip, IH].
Qed.

Lemma order_by_perm (rank : Product.t -> Z) (rows : list Product.t) :
  Permutation rows (order_by_created_at_desc rank rows).
Proof.
  induction rows as [ | p rows IH ]; cbn [order_by_created_at_desc fold_right].
  - apply perm_nil.
  - eapply perm_trans; [apply perm_skip, IH | apply insert_desc_perm].
Qed.

Lemma order_by_length (rank : Product.t -> Z) (rows : list Product.t) :
  List.length (order_by_created_at_desc rank rows) = List.length rows.
Proof. symmetry. apply Permutation_length, order_by_perm. Qed.

(** Where no row is as old as [p], the engine's rank has no say in where
    [p] goes. *)
Lemma insert_desc_no_tie (rank rank' : Product.t -> Z) (p : Product.t)
    (rows : list Product.t) :
  (forall q, In q rows -> Product.created_at q <> Product.created_at p) ->
  insert_desc rank p rows = insert_desc rank' p rows.
Proof.
  induction rows as [ | q rows IH ]; cbn [insert_desc]; intros Hne.
  - reflexivity.
  - assert (Hq : Product.created_at q <> Product.created_at p)
      by (apply Hne; left; reflexivity).
    unfold comes_first.
    assert (E : (Product.created_at q =? Product.created_at p)%Z = false)
      by (apply Z.eqb_neq; exact Hq).
    rewrite E. cbn [andb]. rewrite !orb_false_r.
    destruct (Product.created_at q <? Product.created_at p)%Z; [reflexivity | ].
    f_equal. apply IH. intros r Hr. apply Hne. right. exact Hr.
Qed.

(** Rows created at different times have one order, newest first. *)
Lemma order_by_no_tie (rank rank' : Product.t -> Z) (rows : list Product.t) :
  NoDup (map Product.created_at rows) ->
  order_by_created_at_desc rank rows = order_by_created_at_desc rank' rows.
Proof.
  induction rows as [ | p rows IH ]; cbn [order_by_created_at_desc fold_right map];
    intros Hnd.
  - reflexivity.
  - apply NoDup_cons_iff in Hnd. destruct Hnd as [Hp Hnd].
    fold (order_by_created_at_desc rank rows).
    fold (order_by_created_at_desc rank' rows).
    rewrite (IH Hnd).
    apply insert_desc_no_tie.
    intros q Hq Heq. apply Hp. rewrite <- Heq. apply in_map.
    apply (Permutation_in q (Permutation_sym (order_by_perm rank' rows))).
    exact Hq.
Qed.

(** Engines that rank the rows alike order them alike. *)
Lemma order_by_ext (rank rank' : Product.t -> Z) (rows : list Product.t) :
  (forall p, rank p = rank' p) ->
  order_by_created_at_desc rank rows = order_by_created_at_desc rank' rows.
Proof.
  intros Hext.
  assert (Hins : forall p l, insert_desc rank p l = insert_desc rank' p l).
  { intros p l. induction l as [ | q l IH ]; cbn [insert_desc]; [reflexivity | ].
    unfold comes_first. rewrite (Hext p), (Hext q), IH. reflexivity. }
  induction rows as [ | p rows IH ]; cbn [order_by_created_at_desc fold_right].
  - reflexivity.
  - fold (order_by_created_at_desc rank rows).
    fold (order_by_created_at_desc rank' rows).
    rewrite IH. apply Hins.
Qed.

(** A page and the rest: the page at [skip] followed by what comes after
    [skip + limit] is what comes after [skip]. *)
Lemma page_then_rest {A} (skip limit : nat) (l : list A) :
  firstn limit (skipn skip l) ++ skipn (skip + limit) l = skipn skip l.
Proof.
  rewrite Nat.add_comm, <- skipn_skipn. apply firstn_skipn.
Qed.

(** *** Running the session primitives *)

Arguments str_uuid : simpl never.
Arguments Numeric_10_2 : simpl never.

Lemma get_by_id_found (s : AsyncSession) (p : Product.t) :
  pk_products (products s) -> In p (products s) ->
  ProductService.get_by_id (Product.id p) s
  = (Return (loaded p), record_call CallExecute s).
Proof.
  intros Hpk Hin.
  unfold ProductService.get_by_id, bind, db_execute_select.
  rewrite (filter_key_unique Product.id N.eqb N_eqb_iff p _ Hpk Hin).
  reflexivity.
Qed.

Lemma get_by_id_missing (s : AsyncSession) (product_id : UUID) :
  ~ In product_id (map Product.id (products s)) ->
  ProductService.get_by_id product_id s
  = (Raise (NotFoundError ("Product " ++ str_uuid product_id ++ " not found")
              [("product_id", str_uuid product_id)]),
     record_call CallExecute s).
Proof.
  intros Hno.
  unfold ProductService.get_by_id, bind, db_execute_select.
  rewrite (filter_key_absent Product.id N.eqb N_eqb_iff _ _ Hno).
  reflexivity.
Qed.

(** *** The flush of a modified instance *)

Lemma option_eqb_refl {A} (eqb : A -> A -> bool) (x : option A) :
  (forall a, eqb a a = true) -> option_eqb eqb x x = true.
Proof. intros H. destruct x; cbn [option_eqb]; [apply H | reflexivity]. Qed.

Lemma option_eqb_eq {A} (eqb : A -> A -> bool) (x y : option A) :
  (forall a b, eqb a b = true -> a = b) -> option_eqb eqb x y = true -> x = y.
Proof.
  intros H. destruct x, y; cbn [option_eqb]; intros E;
    try discriminate; [f_equal; apply H; exact E | reflexivity].
Qed.

Lemma same_columns_refl (p : Product.t) : same_columns p p = true.
Proof.
  unfold same_columns.
  rewrite N.eqb_refl, !Z.eqb_refl, String.eqb_refl, !Bool.eqb_reflx.
  rewrite !(option_eqb_refl Z.eqb) by apply Z.eqb_refl.
  rewrite !(option_eqb_refl N.eqb) by apply N.eqb_refl.
  rewrite !(option_eqb_refl String.eqb) by apply String.eqb_refl.
  rewrite (option_eqb_refl dec_eq) by apply dec_eq_refl.
  reflexivity.
Qed.

(** No net change: the attributes the service assigns hold what the row
    holds, the price as a number. *)
Lemma same_columns_assigned (stored inst : Product.t) :
  same_columns stored inst = true ->
  Product.updated_by stored = Product.updated_by inst
  /\ Product.name stored = Product.name inst
  /\ Product.description stored = Product.description inst
  /\ option_eqb dec_eq (Product.price stored) (Product.price inst) = true
  /\ Product.category_id stored = Product.category_id inst.
Proof.
  unfold same_columns. intros H.
  repeat match type of H with
         | (_ && _)%bool = true =>
             let H1 := fresh "E" in
             apply andb_true_iff in H; destruct H as [H H1]
         end.
  split; [apply (option_eqb_eq N.eqb); [apply N.eqb_eq | assumption] | ].
  split; [apply (option_eqb_eq String.eqb); [apply String.eqb_eq | assumption] | ].
  split; [apply (option_eqb_eq String.eqb); [apply String.eqb_eq | assumption] | ].
  split; [assumption | ].
  apply (option_eqb_eq N.eqb); [apply N.eqb_eq | assumption].
Qed.

(** The written row holds the attributes of the instance, but for the
    price. *)
Lemma written_columns (stored inst : Product.t) :
  written stored inst
  = Product.set_price
      (if option_eqb dec_eq (Product.price stored) (Product.price inst)
       then Product.price stored
       else option_map Numeric_10_2 (Product.price inst)) inst.
Proof.
  unfold written, at_column_scale.
  destruct (option_eqb dec_eq (Product.price stored) (Product.price inst));
    reflexivity.
Qed.

(** The two ways a flush leaves a row. *)
Lemma update_row_Some (clock : Z) (stored : Product.t) (m : Modified) (row : Product.t) :
  update_row clock stored m = Some row ->
  (row = stored /\ same_columns stored (columns (instance m)) = true)
  \/ (row = Product.set_updated_at (Some clock) (written stored (columns (instance m)))
      /\ refused stored (columns (instance m)) = false).
Proof.
  unfold update_row.
  destruct (negb (has_expression m) && same_columns stored (columns (instance m)))
    eqn:E.
  - intros H. injection H as <-. left. split; [reflexivity | ].
    apply andb_true_iff in E. apply E.
  - destruct (refused stored (columns (instance m))) eqn:R; [discriminate | ].
    intros H. injection H as <-. right. split; reflexivity.
Qed.

Lemma update_row_id (clock : Z) (stored : Product.t) (m : Modified) (row : Product.t) :
  Product.id (columns (instance m)) = Product.id stored ->
  update_row clock stored m = Some row -> Product.id row = Product.id stored.
Proof.
  intros Hid H. apply update_row_Some in H.
  destruct H as [[-> _] | [-> _]]; [reflexivity | ].
  rewrite written_columns. exact Hid.
Qed.

Lemma rows_after_update_absent (product_id : UUID) (x : Product.t)
    (rows : list Product.t) :
  ~ In product_id (map Product.id rows) -> rows_after_update product_id x rows = rows.
Proof.
  intros Hno. unfold rows_after_update.
  rewrite <- (map_id rows) at 2. apply map_ext_in.
  intros row Hrow. destruct (N.eqb (Product.id row) product_id) eqn:E; [ | reflexivity ].
  apply N.eqb_eq in E. exfalso. apply Hno. rewrite <- E. apply in_map. exact Hrow.
Qed.

Lemma flush_update_absent (clock : Z) (m : Modified) (rows : list Product.t) :
  ~ In (Product.id (columns (instance m))) (map Product.id rows) ->
  flush_update clock m rows = Some rows.
Proof.
  induction rows as [ | row rows IH ]; cbn [flush_update map]; intros Hno.
  - reflexivity.
  - destruct (N.eqb (Product.id row) (Product.id (columns (instance m)))) eqn:E.
    + apply N.eqb_eq in E. exfalso. apply Hno. left. exact E.
    + rewrite IH; [reflexivity | ]. intros Hin. apply Hno. right. exact Hin.
Qed.

(** On a table whose ids are unique, the flush of an instance is the
    flush of its one row. *)
Lemma flush_update_unique (clock : Z) (m : Modified) (rows : list Product.t)
    (p0 : Product.t) :
  pk_products rows -> In p0 rows ->
  Product.id (columns (instance m)) = Product.id p0 ->
  flush_update clock m rows
  = option_map (fun x => rows_after_update (Product.id p0) x rows)
      (update_row clock p0 m).
Proof.
  unfold pk_products. intros Hpk Hin Hid.
  induction rows as [ | row rows IH ]; [destruct Hin | ].
  cbn [map] in Hpk. apply NoDup_cons_iff in Hpk. destruct Hpk as [Hrow Hpk].
  cbn [flush_update]. rewrite Hid.
  destruct Hin as [-> | Hin].
  - rewrite N.eqb_refl.
    assert (Hno : ~ In (Product.id (columns (instance m))) (map Product.id rows))
      by (rewrite Hid; exact Hrow).
    rewrite (flush_update_absent clock m rows Hno).
    destruct (update_row clock p0 m) as [ x | ]; cbn [option_map]; [ | reflexivity ].
    unfold rows_after_update at 1. cbn [map]. rewrite N.eqb_refl.
    fold (rows_after_update (Product.id p0) x rows).
    rewrite (rows_after_update_absent _ x rows Hrow). reflexivity.
  - assert (E : N.eqb (Product.id row) (Product.id p0) = false).
    { apply N.eqb_neq. intros Heq. apply Hrow. rewrite Heq. apply in_map. exact Hin. }
    rewrite E. rewrite (IH Hpk Hin).
    destruct (update_row clock p0 m) as [ x | ]; cbn [option_map]; [ | reflexivity ].
    unfold rows_after_update. cbn [map]. rewrite E. reflexivity.
Qed.

(** On a table whose ids are unique, putting a row back changes nothing. *)
Lemma rows_after_update_same (rows : list Product.t) (p0 : Product.t) :
  pk_products rows -> In p0 rows -> rows_after_update (Product.id p0) p0 rows = rows.
Proof.
  unfold pk_products. intros Hpk Hin.
  induction rows as [ | row rows IH ]; [destruct Hin | ].
  cbn [map] in Hpk. apply NoDup_cons_iff in Hpk. destruct Hpk as [Hrow Hpk].
  unfold rows_after_update. cbn [map].
  fold (rows_after_update (Product.id p0) p0 rows).
  destruct Hin as [-> | Hin].
  - rewrite N.eqb_refl. f_equal. apply rows_after_update_absent. exact Hrow.
  - destruct (N.eqb (Product.id row) (Product.id p0)) eqn:E.
    + apply N.eqb_eq in E. exfalso. apply Hrow. rewrite E. apply in_map. exact Hin.
    + f_equal. apply IH; assumption.
Qed.

(** Committing one modified instance of an existing row, then refreshing
    it: the row is rewritten and read back, or the commit raises. *)
Lemma commit_then_refresh (s : AsyncSession) (p0 : Product.t) (m : Modified) :
  pk_products (products s) -> In p0 (products s) -> new s = [] ->
  Product.id (columns (instance m)) = Product.id p0 ->
  (db_commit [m] ;;; db_refresh (instance m)) s
  = match update_row (now s) p0 m with
    | Some row =>
        (Return (mkObj row (published_by (instance m))),
         record_call CallRefresh
           (record_call CallCommit
              (set_products (rows_after_update (Product.id p0) row (products s)) s)))
    | None => (Raise IntegrityError, record_call CallCommit s)
    end.
Proof.
  intros Hpk Hin Hnew Hid.
  unfold bind, db_commit.
  rewrite Hnew. cbn [flush_each fold_left].
  rewrite (flush_update_unique (now s) m (products s) p0 Hpk Hin Hid).
  destruct (update_row (now s) p0 m) as [ row | ] eqn:E; cbn [option_map];
    [ | reflexivity ].
  unfold db_refresh. cbn [products record_call flushed].
  rewrite Hid. unfold rows_after_update.
  rewrite (filter_key_map Product.id N.eqb N_eqb_iff (Product.id p0) (fun _ => row))
    by (intros; apply (update_row_id _ _ _ _ Hid E)).
  rewrite (filter_key_unique Product.id N.eqb N_eqb_iff p0 _ Hpk Hin).
  cbn [map]. unfold set_products, record_call. cbn. rewrite Hnew. reflexivity.
Qed.

Lemma setattr_id (product : ProductObj) (item : ProductUpdate.Item) :
  Product.id (columns (setattr product item)) = Product.id (columns product).
Proof. destruct item; reflexivity. Qed.

Lemma fold_setattr_id (items : list ProductUpdate.Item) (product : ProductObj) :
  Product.id (columns (fold_left setattr items product)) = Product.id (columns product).
Proof.
  revert product. induction items as [ | i items IH ]; intros product; cbn [fold_left].
  - reflexivity.
  - rewrite IH. apply setattr_id.
Qed.

Lemma fold_setattr_published_by (items : list ProductUpdate.Item) (product : ProductObj) :
  published_by (fold_left setattr items product) = published_by product.
Proof.
  revert product. induction items as [ | i items IH ]; intros product; cbn [fold_left].
  - reflexivity.
  - rewrite IH. destruct i; reflexivity.
Qed.

Lemma bind_assoc {A B C} (m : M A) (f : A -> M B) (g : B -> M C) (s : AsyncSession) :
  bind (bind m f) g s = bind m (fun x => bind (f x) g) s.
Proof. unfold bind. destruct (m s) as [[a | e] s']; reflexivity. Qed.

(** *** [update], run on an existing product *)

Lemma update_assigned_id p0 data updated_by :
  Product.id (columns (update_assigned p0 data updated_by)) = Product.id p0.
Proof.
  unfold update_assigned, with_columns. cbn [columns Product.set_updated_by Product.id].
  apply fold_setattr_id.
Qed.

Lemma update_assigned_published_by p0 data updated_by :
  published_by (update_assigned p0 data updated_by) = None.
Proof.
  unfold update_assigned, with_columns. cbn [published_by].
  apply fold_setattr_published_by.
Qed.

Lemma update_assigned_updated_by p0 data updated_by :
  Product.updated_by (columns (update_assigned p0 data updated_by)) = Some updated_by.
Proof. reflexivity. Qed.


Lemma update_assigned_frame p0 data updated_by :
  same_identity_and_publication (columns (update_assigned p0 data updated_by)) p0.
Proof.
  unfold update_assigned.
  generalize (ProductUpdate.model_dump_exclude_unset data) as items.
  intros items. cbn [columns with_columns].
  assert (H : forall (obj : ProductObj),
             same_identity_and_publication (columns (fold_left setattr items obj))
               (columns obj)).
  { induction items as [ | i items IH ]; intros obj; cbn [fold_left].
    - unfold same_identity_and_publication. repeat split.
    - specialize (IH (setattr obj i)). unfold same_identity_and_publication in *.
      destruct i; exact IH. }
  specialize (H (loaded p0)). unfold same_identity_and_publication in *.
  cbn [loaded columns] in H. exact H.
Qed.

(** [update] when the table takes the commit. *)
Lemma update_run_stored rows clock pool p0 data updated_by row :
  pk_products rows -> In p0 rows ->
  update_stored clock p0 data updated_by = Some row ->
  exists s',
    ProductService.update (Product.id p0) data updated_by (session rows clock pool)
    = (Return (loaded row), s')
    /\ products s' = rows_after_update (Product.id p0) row rows
    /\ calls s' = [CallExecute; CallCommit; CallRefresh].
Proof.
  intros Hpk Hin Hrow.
  unfold ProductService.update. unfold bind at 1.
  rewrite get_by_id_found by assumption.
  fold (update_assigned p0 data updated_by).
  rewrite <- bind_assoc. unfold bind at 1.
  pose proof (commit_then_refresh
                (record_call CallExecute (session rows clock pool)) p0
                (Assigned (update_assigned p0 data updated_by))
                Hpk Hin eq_refl (update_assigned_id p0 data updated_by)) as Hc.
  cbn [instance now record_call session] in Hc.
  unfold update_stored in Hrow. rewrite Hrow in Hc.
  rewrite Hc. rewrite update_assigned_published_by.
  eexists. split; [reflexivity | ]. split; reflexivity.
Qed.

(** [update] when the table refuses the commit. *)
Lemma update_run_refused rows clock pool p0 data updated_by :
  pk_products rows -> In p0 rows ->
  update_stored clock p0 data updated_by = None ->
  ProductService.update (Product.id p0) data updated_by (session rows clock pool)
  = (Raise IntegrityError,
     record_call CallCommit (record_call CallExecute (session rows clock pool))).
Proof.
  intros Hpk Hin Hrow.
  unfold ProductService.update. unfold bind at 1.
  rewrite get_by_id_found by assumption.
  fold (update_assigned p0 data updated_by).
  rewrite <- bind_assoc. unfold bind at 1.
  pose proof (commit_then_refresh
                (record_call CallExecute (session rows clock pool)) p0
                (Assigned (update_assigned p0 data updated_by))
                Hpk Hin eq_refl (update_assigned_id p0 data updated_by)) as Hc.
  cbn [instance now record_call session] in Hc.
  unfold update_stored in Hrow. rewrite Hrow in Hc.
  rewrite Hc. reflexivity.
Qed.

Lemma update_stored_cases clock p0 data updated_by row :
  update_stored clock p0 data updated_by = Some row ->
  (row = p0
   /\ same_columns p0 (columns (update_assigned p0 data updated_by)) = true)
  \/ (row = Product.set_updated_at (Some clock)
              (written p0 (columns (update_assigned p0 data updated_by)))
      /\ refused p0 (columns (update_assigned p0 data updated_by)) = false).
Proof. apply update_row_Some. Qed.

Lemma update_stored_frame clock p0 data updated_by row :
  update_stored clock p0 data updated_by = Some row ->
  same_identity_and_publication row p0.
Proof.
  intros H. apply update_stored_cases in H. destruct H as [[-> _] | [-> _]].
  - unfold same_identity_and_publication. repeat split.
  - rewrite written_columns.
    exact (update_assigned_frame p0 data updated_by).
Qed.

Lemma update_stored_updated_by clock p0 data updated_by row :
  update_stored clock p0 data updated_by = Some row ->
  Product.updated_by row = Some updated_by.
Proof.
  intros H. apply update_stored_cases in H. destruct H as [[-> Hsame] | [-> _]].
  - apply same_columns_assigned in Hsame. destruct Hsame as (Hby & _).
    rewrite Hby. reflexivity.
  - rewrite written_columns. reflexivity.
Qed.









(** *** [publish], run on an existing product *)

(** The flush of an instance that holds the row's [name], [price] and
    [category_id] and was assigned an expression: an UPDATE the table
    takes. *)
Lemma update_row_expression (clock : Z) (stored inst : Product.t)
    (actor : option UUID) :
  Product.name inst = Product.name stored ->
  Product.price inst = Product.price stored ->
  Product.category_id inst = Product.category_id stored ->
  update_row clock stored (AssignedExpression (mkObj inst actor))
  = Some (Product.set_updated_at (Some clock) inst).
Proof.
  intros Hn Hp Hc.
  unfold update_row. cbn [has_expression instance columns negb andb].
  unfold refused. rewrite Hn, Hp, Hc.
  rewrite (option_eqb_refl String.eqb) by apply String.eqb_refl.
  rewrite (option_eqb_refl dec_eq) by apply dec_eq_refl.
  rewrite (option_eqb_refl N.eqb) by apply N.eqb_refl.
  cbn [negb andb orb].
  rewrite written_columns, Hp.
  rewrite (option_eqb_refl dec_eq) by apply dec_eq_refl.
  rewrite <- Hp. destruct inst; reflexivity.
Qed.

Lemma publish_run rows clock pool p0 published_by :
  pk_products rows -> In p0 rows ->
  ProductService.description_missing (loaded p0) = false ->
  exists s',
    ProductService.publish (Product.id p0) published_by (session rows clock pool)
    = (Return (publish_returned clock p0 published_by), s')
    /\ products s'
       = map (fun row =>
                if N.eqb (Product.id row) (Product.id p0)
                then columns (publish_returned clock p0 published_by)
                else row) rows
    /\ calls s' = [CallExecute; CallCommit; CallRefresh].
Proof.
  intros Hpk Hin Hdesc.
  unfold ProductService.publish. unfold bind at 1.
  rewrite get_by_id_found by assumption.
  rewrite Hdesc.
  unfold bind at 1. unfold func_now at 1.
  rewrite <- bind_assoc. unfold bind at 1.
  cbn [now record_call session with_columns loaded columns].
  pose proof (commit_then_refresh
                (record_call CallExecute (session rows clock pool)) p0
                (AssignedExpression
                   (mkObj (Product.set_published_at (Some clock)
                             (Product.set_is_published true p0))
                      (Some published_by)))
                Hpk Hin eq_refl eq_refl) as Hc.
  cbn [instance now record_call session] in Hc.
  rewrite update_row_expression in Hc by reflexivity.
  rewrite Hc.
  eexists. split; [reflexivity | ].
  split; reflexivity.
Qed.


Lemma publish_run_missing_description rows clock pool p0 published_by :
  pk_products rows -> In p0 rows ->
  ProductService.description_missing (loaded p0) = true ->
  ProductService.publish (Product.id p0) published_by (session rows clock pool)
  = (Raise (ValidationError "Product must have a description before publishing"
              "MissingDescription"),
     record_call CallExecute (session rows clock pool)).
Proof.
  intros Hpk Hin Hdesc.
  unfold ProductService.publish. unfold bind at 1.
  rewrite get_by_id_found by assumption.
  rewrite Hdesc. reflexivity.
Qed.

Lemma publish_run_not_found rows clock pool product_id published_by :
  ~ In product_id (map Product.id rows) ->
  ProductService.publish product_id published_by (session rows clock pool)
  = (Raise (NotFoundError ("Product " ++ str_uuid product_id ++ " not found")
              [("product_id", str_uuid product_id)]),
     record_call CallExecute (session rows clock pool)).
Proof.
  intros Hno.
  unfold ProductService.publish. unfold bind at 1.
  rewrite get_by_id_missing by assumption.
  reflexivity.
Qed.

(** *** [create], on its two rejections *)

Lemma create_run_invalid_price (s : AsyncSession) data created_by :
  dec_lt (ProductCreate.price data) Decimal_0_01 = true ->
  ProductService.create data created_by s
  = (Raise (ValidationError "Price must be at least $0.01" "InvalidPrice"), s).
Proof.
  intros Hlt. unfold ProductService.create. rewrite Hlt. reflexivity.
Qed.

Lemma create_run_duplicate (s : AsyncSession) data created_by existing :
  dec_lt (ProductCreate.price data) Decimal_0_01 = false ->
  uq_products_sku (products s) -> In existing (products s) ->
  Product.sku existing = ProductCreate.sku data ->
  ProductService.create data created_by s
  = (Raise (ConflictError
              ("Product with SKU " ++ ProductCreate.sku data ++ " already exists")
              "DuplicateSKU"
              [("sku", ProductCreate.sku data);
               ("existing_id", str_uuid (Product.id existing))]),
     record_call CallExecute s).
Proof.
  intros Hge Huq Hin Hsku.
  unfold ProductService.create. rewrite Hge.
  unfold bind at 1. unfold ProductService.get_by_sku, bind at 1, db_execute_select.
  rewrite <- Hsku.
  rewrite (filter_key_unique Product.sku String.eqb String_eqb_iff existing _ Huq Hin).
  reflexivity.
Qed.

(** *** Rewriting one row of the table *)

Lemma NoDup_map_inj_in {A K} (key : A -> K) (l : list A) (a b : A) :
  NoDup (map key l) -> In a l -> In b l -> key a = key b -> a = b.
Proof.
  induction l as [ | x l IH ]; cbn [map]; intros Hnd Ha Hb Hkey.
  - destruct Ha.
  - apply NoDup_cons_iff in Hnd. destruct Hnd as [Hx Hnd].
    destruct Ha as [-> | Ha]; destruct Hb as [-> | Hb].
    + reflexivity.
    + exfalso. apply Hx. rewrite Hkey. apply in_map. exact Hb.
    + exfalso. apply Hx. rewrite <- Hkey. apply in_map. exact Ha.
    + apply IH; assumption.
Qed.

(** Rewriting the row of one id by a row that has the same value under
    [key] leaves the column [key] of the table as it was. *)
Lemma rewrite_row_keeps_column {K} (key : Product.t -> K)
    (rows : list Product.t) (p0 x : Product.t) :
  pk_products rows -> In p0 rows -> key x = key p0 ->
  map key (map (fun row => if N.eqb (Product.id row) (Product.id p0)
                           then x else row) rows)
  = map key rows.
Proof.
  intros Hpk Hin Hkey. rewrite map_map. apply map_ext_in.
  intros row Hrow. destruct (N.eqb (Product.id row) (Product.id p0)) eqn:E.
  - apply N.eqb_eq in E.
    rewrite (NoDup_map_inj_in Product.id rows row p0 Hpk Hrow Hin E).
    exact Hkey.
  - reflexivity.
Qed.

Lemma rewrite_row_in (rows : list Product.t) (p0 x : Product.t) :
  In p0 rows ->
  In x (map (fun row => if N.eqb (Product.id row) (Product.id p0)
                        then x else row) rows).
Proof.
  intros Hin. apply in_map_iff. exists p0. rewrite N.eqb_refl.
  split; [reflexivity | exact Hin].
Qed.

(** After the rewrite, the row of the id is the new row. *)
Lemma rewrite_row_only (rows : list Product.t) (p0 x row : Product.t) :
  In row (rows_after_update (Product.id p0) x rows) ->
  Product.id row = Product.id p0 -> row = x.
Proof.
  unfold rows_after_update. intros Hin Hid.
  apply in_map_iff in Hin. destruct Hin as (y & Hy & _).
  destruct (N.eqb (Product.id y) (Product.id p0)) eqn:E; [symmetry; exact Hy | ].
  apply N.eqb_neq in E. subst row. contradiction.
Qed.

Lemma rewrite_row_others (rows : list Product.t) (p0 x row : Product.t) :
  In row rows -> Product.id row <> Product.id p0 ->
  In row (rows_after_update (Product.id p0) x rows).
Proof.
  intros Hrow Hne. unfold rows_after_update. apply in_map_iff. exists row.
  split; [ | exact Hrow ].
  destruct (N.eqb (Product.id row) (Product.id p0)) eqn:E; [ | reflexivity ].
  apply N.eqb_eq in E. contradiction.
Qed.

(** *** [create], when the table takes the row *)

Lemma filter_app_key_absent {A K} (key : A -> K) (eqb : K -> K -> bool)
    (eqb_eq : forall a b, eqb a b = true <-> a = b) (l : list A) (x : A) :
  ~ In (key x) (map key l) ->
  filter (fun y => eqb (key y) (key x)) (l ++ [x]) = [x].
Proof.
  intros Hno. rewrite filter_app.
  rewrite (filter_key_absent key eqb eqb_eq _ _ Hno).
  cbn [filter app].
  assert (E : eqb (key x) (key x) = true) by (apply eqb_eq; reflexivity).
  rewrite E. reflexivity.
Qed.

Lemma existsb_key_absent {A K} (key : A -> K) (eqb : K -> K -> bool)
    (eqb_eq : forall a b, eqb a b = true <-> a = b) (l : list A) (k : K) :
  ~ In k (map key l) -> existsb (fun y => eqb (key y) k) l = false.
Proof.
  intros Hno. destruct (existsb (fun y => eqb (key y) k) l) eqn:E; [ | reflexivity ].
  exfalso. apply existsb_exists in E. destruct E as (y & Hy & Hk).
  apply eqb_eq in Hk. apply Hno. rewrite <- Hk. apply in_map. exact Hy.
Qed.

Lemma NoDup_snoc {A} (l : list A) (x : A) : NoDup l -> ~ In x l -> NoDup (l ++ [x]).
Proof.
  intros Hnd Hx.
  apply (Permutation_NoDup (l := x :: l)).
  - apply Permutation_cons_append.
  - constructor; assumption.
Qed.

(** An INSERT is refused, or it puts the row last. *)
Lemma insert_row_cases (rows : list Product.t) (p : Product.t) :
  insert_row rows p = None \/ insert_row rows p = Some (rows ++ [at_column_scale p]).
Proof.
  unfold insert_row.
  match goal with
  | |- context [if ?c then _ else _] => destruct c
  end; [right | left]; reflexivity.
Qed.

(** The table takes the row of a request whose price is at least 0.01,
    whose sku is new and whose id is fresh. *)
Lemma insert_row_created rows clock u data created_by :
  dec_lt (ProductCreate.price data) Decimal_0_01 = false ->
  ~ In (ProductCreate.sku data) (map Product.sku rows) ->
  ~ In u (map Product.id rows) ->
  insert_row rows
    (Product.mk u clock None (Some created_by) None
       (Some (ProductCreate.name data)) (ProductCreate.description data)
       (ProductCreate.sku data) (Some (ProductCreate.price data))
       0%Z true false None (Some (ProductCreate.category_id data)))
  = Some (rows ++ [created_row data created_by u clock]).
Proof.
  intros Hge Hsku Hid.
  unfold insert_row, at_column_scale, nullable_false, ck_products_positive_price,
    ck_products_non_negative_quantity.
  cbn [Product.set_price Product.id Product.sku Product.name Product.price
         Product.category_id Product.quantity option_map is_none negb andb].
  rewrite (Numeric_10_2_positive _ Hge).
  rewrite (existsb_key_absent Product.id N.eqb N_eqb_iff rows u Hid).
  rewrite (existsb_key_absent Product.sku String.eqb String_eqb_iff rows _ Hsku).
  reflexivity.
Qed.

Lemma create_run_ok rows clock u pool data created_by :
  dec_lt (ProductCreate.price data) Decimal_0_01 = false ->
  ~ In (ProductCreate.sku data) (map Product.sku rows) ->
  ~ In u (map Product.id rows) ->
  ProductService.create data created_by (session rows clock (u :: pool))
  = (Return (loaded (created_row data created_by u clock)),
     mkSession (rows ++ [created_row data created_by u clock]) [] clock pool
       [CallExecute; CallAdd; CallCommit; CallRefresh]
       [("product_created",
         [("product_id", LStr (str_uuid u));
          ("sku", LStr (ProductCreate.sku data));
          ("created_by", LStr (str_uuid created_by))])]
       table_order).
Proof.
  intros Hge Hsku Hid.
  unfold ProductService.create. rewrite Hge.
  unfold ProductService.get_by_sku, Product_new, uuid4, func_now, db_add,
    db_commit, db_refresh, db_execute_select, logger_info, bind.
  cbn [session products new now uuid4_pool calls events tie_rank record_call].
  rewrite (filter_key_absent Product.sku String.eqb String_eqb_iff _ _ Hsku).
  cbn [scalar_one_or_none ret session products new now uuid4_pool calls events
         tie_rank record_call columns fold_left flush_each app].
  rewrite (insert_row_created rows clock u data created_by Hge Hsku Hid).
  cbn [flushed products new now uuid4_pool calls events tie_rank record_call].
  cbn [Product.id].
  change (fun row : Product.t => (Product.id row =? u)%N)
    with (fun row : Product.t =>
            (Product.id row =? Product.id (created_row data created_by u clock))%N).
  rewrite (filter_app_key_absent Product.id N.eqb N_eqb_iff rows
             (created_row data created_by u clock)) by exact Hid.
  reflexivity.
Qed.

(** *** [list] and paging *)

Lemma list_run (s : AsyncSession) skip limit category_id search :
  ProductService.list skip limit category_id search s
  = (Return
       (map loaded
          (firstn limit
             (skipn skip
                (order_by_created_at_desc (tie_rank s skip limit)
                   (filter (ProductService.list_filter category_id search)
                      (products s))))),
        List.length (filter (ProductService.list_filter category_id search)
                       (products s))),
     record_call CallExecute (record_call CallExecute s)).
Proof. reflexivity. Qed.

Lemma filter_no_filter (rows : list Product.t) :
  filter (ProductService.list_filter None None) rows = rows.
Proof.
  induction rows as [ | p rows IH ]; cbn [filter].
  - reflexivity.
  - cbn [ProductService.list_filter andb]. f_equal. exact IH.
Qed.

Lemma columns_loaded (rows : list Product.t) : map columns (map loaded rows) = rows.
Proof.
  rewrite map_map. cbn [loaded columns]. apply map_id.
Qed.

(** Three pages of ten cover a list of at most thirty. *)
Lemma three_pages_cover {A} (l : list A) :
  (List.length l <= 30)%nat ->
  firstn 10 (skipn 0 l) ++ firstn 10 (skipn 10 l) ++ firstn 10 (skipn 20 l) = l.
Proof.
  intros Hlen.
  rewrite <- (app_nil_r (firstn 10 (skipn 20 l))).
  rewrite <- (skipn_all2 l (n := 20 + 10)) by exact Hlen.
  rewrite (page_then_rest 20 10 l).
  change 20%nat with (10 + 10)%nat.
  rewrite (page_then_rest 10 10 l).
  change 10%nat with (0 + 10)%nat at 2.
  rewrite (page_then_rest 0 10 l).
  reflexivity.
Qed.

Lemma insert_desc_sorted (rank : Product.t -> Z) (p : Product.t)
    (rows : list Product.t) :
  Sorted not_created_after rows -> Sorted not_created_after (insert_desc rank p rows).
Proof.
  assert (Hfirst : forall q, comes_first rank p q = true -> not_created_after p q).
  { intros q H. unfold comes_first in H. unfold not_created_after.
    apply orb_true_iff in H. destruct H as [H | H].
    - apply Z.ltb_lt in H. lia.
    - apply andb_true_iff in H. destruct H as [H _]. apply Z.eqb_eq in H. lia. }
  assert (Hlater : forall q, comes_first rank p q = false -> not_created_after q p).
  { intros q H. unfold comes_first in H. unfold not_created_after.
    apply orb_false_iff in H. destruct H as [H _]. apply Z.ltb_ge in H. exact H. }
  induction rows as [ | q rows IH ]; cbn [insert_desc]; intros Hs.
  - constructor; constructor.
  - destruct (comes_first rank p q) eqn:E.
    + constructor; [exact Hs | ]. constructor. apply Hfirst. exact E.
    + inversion Hs as [ | ? ? Hs' Hhd ]; subst.
      constructor; [apply IH; exact Hs' | ].
      destruct rows as [ | r rows ]; cbn [insert_desc].
      * constructor. apply Hlater. exact E.
      * destruct (comes_first rank p r).
        -- constructor. apply Hlater. exact E.
        -- constructor. inversion Hhd; subst. assumption.
Qed.

Lemma order_by_sorted (rank : Product.t -> Z) (rows : list Product.t) :
  Sorted not_created_after (order_by_created_at_desc rank rows).
Proof.
  induction rows as [ | p rows IH ]; cbn [order_by_created_at_desc fold_right].
  - constructor.
  - apply insert_desc_sorted. exact IH.
Qed.

(** *** [bulk_update_prices] *)

Lemma option_eqb_Some_iff (x : option N) (c : N) :
  option_eqb N.eqb x (Some c) = true <-> x = Some c.
Proof.
  destruct x as [ a | ]; cbn [option_eqb].
  - rewrite N.eqb_eq. split; congruence.
  - split; discriminate.
Qed.

Lemma dec_le_0_not_positive (d : Decimal) :
  dec_le d Decimal_0 = true -> dec_lt Decimal_0 d = false.
Proof.
  rewrite dec_le_0_iff. intros Hle.
  destruct (dec_lt Decimal_0 d) eqn:E; [ | reflexivity ].
  apply dec_lt_0_iff in E. lia.
Qed.

Lemma repriced_check (clock : Z) (multiplier : Decimal) (row : Product.t) :
  ck_products_positive_price (repriced clock multiplier row)
  = stays_positive multiplier row.
Proof.
  unfold ck_products_positive_price, repriced, at_column_scale, stays_positive.
  cbn [Product.set_updated_at Product.set_price Product.price].
  destruct (Product.price row); reflexivity.
Qed.

(** The check of the statement, row by row. *)
Lemma bulk_check_passes (clock : Z) (multiplier : Decimal) (category_id : UUID)
    (rows : list Product.t) :
  forallb (fun row => negb (in_category category_id row)
                      || ck_products_positive_price (repriced clock multiplier row))
    rows = true
  <-> (forall p, In p rows -> Product.category_id p = Some category_id ->
                 stays_positive multiplier p = true).
Proof.
  rewrite forallb_forall. split.
  - intros H p Hin Hcat. specialize (H p Hin).
    assert (E : in_category category_id p = true)
      by (apply option_eqb_Some_iff; exact Hcat).
    rewrite E, repriced_check in H. exact H.
  - intros H p Hin. destruct (in_category category_id p) eqn:E; [ | reflexivity ].
    cbn [negb orb]. rewrite repriced_check. apply H; [exact Hin | ].
    apply option_eqb_Some_iff. exact E.
Qed.

(** [bulk_update_prices] when the table takes the statement. *)
Lemma bulk_run rows clock pool category_id multiplier :
  (forall p, In p rows -> Product.category_id p = Some category_id ->
             stays_positive multiplier p = true) ->
  ProductService.bulk_update_prices category_id multiplier (session rows clock pool)
  = (Return (List.length (filter (in_category category_id) rows)),
     mkSession
       (map (fun row => if in_category category_id row
                        then repriced clock multiplier row else row) rows)
       [] clock pool [CallExecute; CallCommit]
       [("bulk_prices_updated",
         [("category_id", LStr (str_uuid category_id));
          ("multiplier", LDecimal multiplier);
          ("count",
           LInt (Z.of_nat (List.length (filter (in_category category_id) rows))))])]
       table_order).
Proof.
  intros Hpos.
  apply (proj2 (bulk_check_passes clock multiplier category_id rows)) in Hpos.
  unfold ProductService.bulk_update_prices, bind, db_execute_update.
  cbn [products now session].
  match goal with
  | |- context [forallb ?f rows] =>
      assert (Hc : forallb f rows = true) by exact Hpos; rewrite Hc
  end.
  reflexivity.
Qed.


(* ===================================================================== *)
(** ** Fixtures of the test templates                                      *)
(* ===================================================================== *)

Example create_valid_data :
  let r := ProductService.create Fixture.valid_create_data Fixture.user_id
             (session [Fixture.sample_product] 200%Z [2%N]) in
  fst r = Return (mkObj (Product.mk 2%N 200%Z None (Some Fixture.user_id) None
                           (Some "New Product") None "NEW-001"
                           (Some (mkDecimal 4999 (-2))) 0%Z true false None
                           (Some Fixture.category)) None)
  /\ List.length (products (snd r)) = 2%nat
  /\ calls (snd r) = [CallExecute; CallAdd; CallCommit; CallRefresh].
Proof. vm_compute. repeat split. Qed.

(** [test_raises_validation_error_for_invalid_price]. *)
Example create_invalid_price_data :
  ProductService.create Fixture.invalid_price_data Fixture.user_id
    (session [] 200%Z [2%N])
  = (Raise (ValidationError "Price must be at least $0.01" "InvalidPrice"),
     session [] 200%Z [2%N]).
Proof. reflexivity. Qed.

Example update_explicit_null_differs_from_omitted :
  let s := session [Fixture.described_product] 200%Z [] in
  let cleared := ProductService.update 1%N Fixture.clear_description Fixture.user_id s in
  let omitted := ProductService.update 1%N Fixture.nothing Fixture.user_id s in
  (exists p s', cleared = (Return p, s') /\ Product.description (columns p) = None)
  /\ (exists p s', omitted = (Return p, s')
                   /\ Product.description (columns p) = Some "A widget").
Proof. split; eexists; eexists; split; vm_compute; reflexivity. Qed.

Example list_second_page_of_25 :
  let r := ProductService.list 10 10 None None (session Fixture.twenty_five 0%Z []) in
  exists page, fst r = Return (page, 25%nat)
               /\ map (fun p => Product.id (columns p)) page
                  = [114; 113; 112; 111; 110; 109; 108; 107; 106; 105]%N.
Proof. eexists. split; vm_compute; reflexivity. Qed.

(** A null for [name] passes the schema and is refused by the table. *)
Example update_null_name_is_refused :
  ProductUpdate.model_validate null_name_patch = inl Fixture.null_name
  /\ fst (ProductService.update 1%N Fixture.null_name Fixture.user_id
            (session [Fixture.sample_product] 200%Z []))
     = Raise IntegrityError.
Proof. split; reflexivity. Qed.

(** A price of 5.5 is stored, and read back, as 5.50. *)
Example update_price_at_column_scale :
  exists p s',
    ProductService.update 1%N Fixture.reprice Fixture.user_id
      (session [Fixture.sample_product] 200%Z [])
    = (Return p, s')
    /\ Product.price (columns p) = Some (mkDecimal 550 (-2)).
Proof. eexists. eexists. split; vm_compute; reflexivity. Qed.

(** 29.99 times 1.1 is 32.989, stored as 32.99. *)
Example bulk_price_is_rounded :
  dec_mul (mkDecimal 2999 (-2)) (mkDecimal 11 (-1)) = mkDecimal 32989 (-3)
  /\ map Product.price
       (products (snd (ProductService.bulk_update_prices Fixture.category
                         (mkDecimal 11 (-1))
                         (session [Fixture.sample_product] 200%Z []))))
     = [Some (mkDecimal 3299 (-2))].
Proof. split; reflexivity. Qed.

(* ===================================================================== *)
(** ** Properties of the specification                                     *)
(* ===================================================================== *)




(** C9.  [update] on an existing product leaves [id], [sku], [quantity],
    [is_active], [is_published], [published_at], [created_at] and
    [created_by] as they were, whatever the payload and whatever the
    outcome: an item of the payload assigns one of [name], [description],
    [price], [category_id], and the service itself assigns [updated_by]
    only.  The call returns or, the table refusing the commit, raises
    [IntegrityError] with the stored products unchanged; in both cases the
    product is still stored under its id with those columns as they were;
    and when the call returns, the returned product is that stored row,
    with the caller as [updated_by]. *)
Theorem update_preserves_identity_and_publication
    (rows : list Product.t) (clock : Z) (pool : list UUID)
    (p0 : Product.t) (data : ProductUpdate.t) (updated_by : UUID) :
  pk_products rows -> In p0 rows ->
  let r := ProductService.update (Product.id p0) data updated_by
             (session rows clock pool) in
  ((exists product, fst r = Return product)
   \/ (fst r = Raise IntegrityError /\ products (snd r) = rows))
  /\ (exists row, In row (products (snd r)) /\ Product.id row = Product.id p0)
  /\ (forall row, In row (products (snd r)) -> Product.id row = Product.id p0 ->
        same_identity_and_publication row p0)
  /\ (forall product, fst r = Return product ->
        In (columns product) (products (snd r))
        /\ same_identity_and_publication (columns product) p0
        /\ Product.updated_by (columns product) = Some updated_by).
Proof.
  intros Hpk Hin r.
  destruct (update_stored clock p0 data updated_by) as [ row | ] eqn:Hrow.
  - destruct (update_run_stored rows clock pool p0 data updated_by row Hpk Hin Hrow)
      as (s' & Hrun & Hrows & _).
    pose proof (update_stored_frame clock p0 data updated_by row Hrow) as Hframe.
    assert (Hstored : In row (products s')).
    { rewrite Hrows. apply rewrite_row_in. exact Hin. }
    subst r. rewrite Hrun. cbn [fst snd].
    split; [left; eauto | ].
    split; [exists row; split; [exact Hstored | apply Hframe] | ].
    split.
    + intros row' Hin' Hid'. rewrite Hrows in Hin'.
      rewrite (rewrite_row_only rows p0 row row' Hin' Hid'). exact Hframe.
    + intros product Hret. injection Hret as <-. cbn [loaded columns].
      split; [exact Hstored | ]. split; [exact Hframe | ].
      exact (update_stored_updated_by clock p0 data updated_by row Hrow).
  - subst r.
    rewrite (update_run_refused rows clock pool p0 data updated_by Hpk Hin Hrow).
    cbn [fst snd products record_call session].
    split; [right; split; reflexivity | ].
    split; [exists p0; split; [exact Hin | reflexivity] | ].
    split.
    + intros row' Hin' Hid'.
      rewrite (NoDup_map_inj_in Product.id rows row' p0 Hpk Hin' Hin Hid').
      unfold same_identity_and_publication. repeat split.
    + intros product Hret. discriminate Hret.
Qed.

Lemma update_preserves_identity_and_publication_witness :
  pk_products [Fixture.sample_product]
  /\ In Fixture.sample_product [Fixture.sample_product]
  /\ exists product,
       fst (ProductService.update 1%N Fixture.rename Fixture.user_id
              (session [Fixture.sample_product] 200%Z []))
       = Return product
       /\ Product.sku (columns product) = "TEST-001"
       /\ Product.is_published (columns product) = false.
Proof.
  set (rows := [Fixture.sample_product]).
  assert (Hpk : pk_products rows).
  { unfold pk_products. cbn. constructor; [intros [] | constructor]. }
  assert (Hin : In Fixture.sample_product rows) by (left; reflexivity).
  split; [exact Hpk | split; [exact Hin | ] ].
  destruct (update_preserves_identity_and_publication rows 200%Z []
              Fixture.sample_product Fixture.rename Fixture.user_id Hpk Hin)
    as (_ & _ & _ & Hret).
  eexists. split; [vm_compute; reflexivity | ].
  match goal with
  | |- Product.sku (columns ?p) = _ /\ _ =>
      destruct (Hret p eq_refl) as (_ & Hframe & _)
  end.
  destruct Hframe as (_ & Hsku & _ & _ & Hpub & _).
  split; [exact Hsku | exact Hpub].
Defined.

(** X14.  What [publish(id, published_by)] does.  When no product has the
    id it fails with [NotFoundError]; when the product's description is
    absent or empty it fails with a [ValidationError] tagged
    [MissingDescription],
    the stored products being unchanged and nothing committed; otherwise it
    succeeds, the returned instance has [is_published = True] and the
    publish timestamp in its columns, which are the row persisted under
    its id by a commit, and holds the publishing actor as a plain
    attribute. *)
Theorem publish_checks_then_publishes
    (rows : list Product.t) (clock : Z) (pool : list UUID)
    (product_id actor : UUID) :
  pk_products rows ->
  let r := ProductService.publish product_id actor (session rows clock pool) in
  (~ In product_id (map Product.id rows) ->
     (exists message details, fst r = Raise (NotFoundError message details))
     /\ products (snd r) = rows)
  /\ (forall p0, In p0 rows -> Product.id p0 = product_id ->
        (Product.description p0 = None \/ Product.description p0 = Some "" ->
           fst r = Raise (ValidationError
                            "Product must have a description before publishing"
                            "MissingDescription")
           /\ products (snd r) = rows
           /\ ~ In CallCommit (calls (snd r)))
        /\ (forall d, Product.description p0 = Some d -> d <> "" ->
              exists product,
                fst r = Return product
                /\ Product.is_published (columns product) = true
                /\ Product.published_at (columns product) = Some clock
                /\ published_by product = Some actor
                /\ columns product
                   = Product.set_updated_at (Some clock)
                       (Product.set_published_at (Some clock)
                          (Product.set_is_published true p0))
                /\ products (snd r)
                   = map (fun row =>
                            if N.eqb (Product.id row) product_id
                            then columns product else row) rows
                /\ In (columns product) (products (snd r))
                /\ In CallCommit (calls (snd r)))).
Proof.
  intros Hpk r. split.
  - intros Hno. subst r. rewrite publish_run_not_found by assumption.
    cbn [fst snd]. split; [eauto | reflexivity].
  - intros p0 Hin Hid. subst product_id. split.
    + intros Hdesc.
      assert (Hmiss : ProductService.description_missing (loaded p0) = true).
      { unfold ProductService.description_missing. cbn [loaded columns].
        destruct Hdesc as [-> | ->]; reflexivity. }
      subst r. rewrite publish_run_missing_description by assumption.
      cbn [fst snd]. split; [reflexivity | ]. split; [reflexivity | ].
      cbn. intros [H | []]. discriminate H.
    + intros d Hd Hne.
      assert (Hmiss : ProductService.description_missing (loaded p0) = false).
      { unfold ProductService.description_missing. cbn [loaded columns].
        rewrite Hd. destruct d; [congruence | reflexivity]. }
      destruct (publish_run rows clock pool p0 actor Hpk Hin Hmiss)
        as (s' & Hrun & Hrows & Hcalls).
      subst r. rewrite Hrun. cbn [fst snd].
      exists (publish_returned clock p0 actor).
      split; [reflexivity | ].
      split; [reflexivity | ].
      split; [reflexivity | ].
      split; [reflexivity | ].
      split; [reflexivity | ].
      split; [exact Hrows | ].
      split.
      * rewrite Hrows. apply in_map_iff. exists p0.
        rewrite N.eqb_refl. split; [reflexivity | exact Hin].
      * rewrite Hcalls. right. left. reflexivity.
Qed.

Lemma publish_checks_then_publishes_witness :
  pk_products [Fixture.described_product]
  /\ exists product,
       fst (ProductService.publish 1%N Fixture.user_id
              (session [Fixture.described_product] 200%Z []))
       = Return product
       /\ Product.is_published (columns product) = true
       /\ Product.published_at (columns product) = Some 200%Z
       /\ published_by product = Some Fixture.user_id.
Proof.
  assert (Hpk : pk_products [Fixture.described_product]).
  { unfold pk_products. cbn. constructor; [intros [] | constructor]. }
  split; [exact Hpk | ].
  destruct (publish_checks_then_publishes [Fixture.described_product] 200%Z []
              1%N Fixture.user_id Hpk) as [_ Hfound].
  destruct (Hfound Fixture.described_product (or_introl eq_refl) eq_refl)
    as [_ Hok].
  destruct (Hok "A widget" eq_refl) as (product & Hrun & Hpub & Hat & Hby & _).
  { discriminate. }
  exists product. repeat split; assumption.
Defined.

(** C5, on the code.  [publish(1, 9)] on a stored product that has a
    description succeeds, and the returned instance carries actor 9 with
    [is_published] and the publish timestamp.  The row it persists holds
    [is_published] and [published_at], and no column of it holds the
    actor: [Product] maps no [published_by], the audit columns keep the
    creator 7 and no updater.  Loaded again, the product has no
    publishing actor. *)
Theorem publish_does_not_persist_the_actor :
  (exists product,
      fst (ProductService.publish 1%N 9%N
             (session [Fixture.described_product] 200%Z []))
      = Return product
      /\ published_by product = Some 9%N
      /\ Product.is_published (columns product) = true
      /\ Product.published_at (columns product) = Some 200%Z)
  /\ products (snd (ProductService.publish 1%N 9%N
                      (session [Fixture.described_product] 200%Z [])))
     = [Product.mk 1%N 100%Z (Some 200%Z) (Some 7%N) None (Some "Test Product")
          (Some "A widget") "TEST-001" (Some (mkDecimal 2999 (-2))) 0%Z true true
          (Some 200%Z) (Some 5%N)]
  /\ (exists reloaded,
        fst (ProductService.get_by_id 1%N
               (session
                  (products (snd (ProductService.publish 1%N 9%N
                                    (session [Fixture.described_product] 200%Z []))))
                  300%Z []))
        = Return reloaded
        /\ Product.is_published (columns reloaded) = true
        /\ published_by reloaded = None).
Proof.
  split; [ | split ].
  - eexists. split; [vm_compute; reflexivity | ]. repeat split.
  - vm_compute. reflexivity.
  - eexists. split; [vm_compute; reflexivity | ]. repeat split.
Qed.

(** C2.  [create] with a price below 0.01 fails with a [ValidationError]
    tagged [InvalidPrice] and touches nothing: no row is stored, nothing is
    added or committed, no statement is even executed.  The check comes
    first, so the outcome is the same when the sku collides with a stored
    product: the error is never [DuplicateSKU]. *)
Theorem create_rejects_price_below_minimum
    (s : AsyncSession) (data : ProductCreate.t) (created_by : UUID) :
  dec_lt (ProductCreate.price data) Decimal_0_01 = true ->
  ProductService.create data created_by s
  = (Raise (ValidationError "Price must be at least $0.01" "InvalidPrice"), s)
  /\ (forall existing,
        In existing (products s) ->
        Product.sku existing = ProductCreate.sku data ->
        forall message code details,
          fst (ProductService.create data created_by s)
          <> Raise (ConflictError message code details)).
Proof.
  intros Hlt. rewrite create_run_invalid_price by assumption.
  split; [reflexivity | ].
  intros existing _ _ message code details. cbn [fst]. discriminate.
Qed.

Lemma create_rejects_price_below_minimum_witness :
  dec_lt (ProductCreate.price colliding_cheap_data) Decimal_0_01 = true
  /\ ProductService.create colliding_cheap_data Fixture.user_id
       (session [Fixture.sample_product] 200%Z [2%N])
     = (Raise (ValidationError "Price must be at least $0.01" "InvalidPrice"),
        session [Fixture.sample_product] 200%Z [2%N]).
Proof.
  split; [reflexivity | ].
  apply (create_rejects_price_below_minimum
           (session [Fixture.sample_product] 200%Z [2%N])
           colliding_cheap_data Fixture.user_id).
  reflexivity.
Defined.

(** C3, as stated, fails: a request whose sku is a stored product's, but
    whose price is below 0.01, is rejected for its price. *)
Lemma create_duplicate_sku_counterexample :
  (exists existing,
      In existing (products (session [Fixture.sample_product] 200%Z [2%N]))
      /\ Product.sku existing = ProductCreate.sku colliding_cheap_data)
  /\ fst (ProductService.create colliding_cheap_data Fixture.user_id
            (session [Fixture.sample_product] 200%Z [2%N]))
     = Raise (ValidationError "Price must be at least $0.01" "InvalidPrice")
  /\ forall message code details,
       fst (ProductService.create colliding_cheap_data Fixture.user_id
              (session [Fixture.sample_product] 200%Z [2%N]))
       <> Raise (ConflictError message code details).
Proof.
  split; [ | split ].
  - exists Fixture.sample_product. split; [left; reflexivity | reflexivity].
  - reflexivity.
  - intros message code details. discriminate.
Qed.

(** C3, amended.  [create] with a price of at least 0.01, on a store whose
    skus are unique, where a stored product already has the sku of the
    request: it fails with a [ConflictError] tagged [DuplicateSKU] whose
    details carry the sku and the id of the stored product; no row is
    stored, and nothing is added or committed. *)
Theorem create_rejects_duplicate_sku
    (s : AsyncSession) (data : ProductCreate.t) (created_by : UUID)
    (existing : Product.t) :
  dec_lt (ProductCreate.price data) Decimal_0_01 = false ->
  uq_products_sku (products s) ->
  In existing (products s) ->
  Product.sku existing = ProductCreate.sku data ->
  let r := ProductService.create data created_by s in
  fst r = Raise (ConflictError
                   ("Product with SKU " ++ ProductCreate.sku data ++ " already exists")
                   "DuplicateSKU"
                   [("sku", ProductCreate.sku data);
                    ("existing_id", str_uuid (Product.id existing))])
  /\ products (snd r) = products s
  /\ new (snd r) = new s
  /\ calls (snd r) = calls s ++ [CallExecute].
Proof.
  intros Hge Huq Hin Hsku r. subst r.
  rewrite (create_run_duplicate s data created_by existing) by assumption.
  cbn [fst snd]. repeat split.
Qed.

Lemma create_rejects_duplicate_sku_witness :
  dec_lt (ProductCreate.price colliding_data) Decimal_0_01 = false
  /\ uq_products_sku [Fixture.sample_product]
  /\ In Fixture.sample_product [Fixture.sample_product]
  /\ Product.sku Fixture.sample_product = ProductCreate.sku colliding_data
  /\ fst (ProductService.create colliding_data Fixture.user_id
            (session [Fixture.sample_product] 200%Z [2%N]))
     = Raise (ConflictError "Product with SKU TEST-001 already exists"
                "DuplicateSKU"
                [("sku", "TEST-001");
                 ("existing_id", "00000000-0000-0000-0000-000000000001")]).
Proof.
  assert (Huq : uq_products_sku [Fixture.sample_product]).
  { unfold uq_products_sku. cbn. constructor; [intros [] | constructor]. }
  split; [reflexivity | ].
  split; [exact Huq | ].
  split; [left; reflexivity | ].
  split; [reflexivity | ].
  apply (create_rejects_duplicate_sku
           (session [Fixture.sample_product] 200%Z [2%N])
           colliding_data Fixture.user_id Fixture.sample_product
           eq_refl Huq (or_introl eq_refl) eq_refl).
Defined.

(** *** [list] and paging *)

(** C4, as stated, fails.  The query orders by [created_at] alone, so the
    order among products created at the same time is the engine's, and
    the engine may choose it anew for every request.  Over 25 products
    created together, on an engine that returns tied rows by ascending id
    at offset 0 and by descending id at the later offsets, the three
    pages have 10, 10 and 5 products and total 25 each, yet they do not
    hold every product exactly once: product 105 is on the first page and
    on the second, and product 115 is on none. *)
Lemma list_pages_with_ties_counterexample :
  List.length Fixture.twenty_five_together = 25%nat
  /\ exists first second last s',
       three_page_requests
         (with_tie_rank Fixture.changing_rank
            (session Fixture.twenty_five_together 0%Z []))
       = (Return ((first, 25%nat), (second, 25%nat), (last, 25%nat)), s')
       /\ map (fun p => Product.id (columns p)) first
          = [100; 101; 102; 103; 104; 105; 106; 107; 108; 109]%N
       /\ map (fun p => Product.id (columns p)) second
          = [114; 113; 112; 111; 110; 109; 108; 107; 106; 105]%N
       /\ map (fun p => Product.id (columns p)) last
          = [104; 103; 102; 101; 100]%N
       /\ In 115%N (map Product.id Fixture.twenty_five_together)
       /\ ~ In 115%N (map (fun p => Product.id (columns p))
                        (first ++ second ++ last)).
Proof.
  split; [reflexivity | ].
  eexists. eexists. eexists. eexists.
  split; [vm_compute; reflexivity | ].
  split; [reflexivity | ]. split; [reflexivity | ]. split; [reflexivity | ].
  split.
  - vm_compute. do 15 right. left. reflexivity.
  - vm_compute. intros H.
    repeat (destruct H as [H | H]; [discriminate H | ]). exact H.
Qed.

(** C4, amended.  [list] returns, with the page, the number of products
    that pass the category and search filters over the whole store: a
    count that does not depend on [skip] or [limit], while the page is the
    slice [skip, skip + limit) of the filtered products arranged newest
    first, whatever order the engine gives to products created at the
    same time.  Over a store of 25 products, the requests (0,10), (10,10),
    (20,10) return pages of 10, 10 and 5 products, each with total 25;
    the three pages together hold every product exactly once when the
    products were created at pairwise different times, and also when the
    engine ranks products created at the same time alike for the three
    requests. *)
Theorem list_total_is_the_filtered_count
    (rows : list Product.t) (clock : Z) (pool : list UUID)
    (rank : nat -> nat -> Product.t -> Z) :
  (forall skip limit category_id search,
      exists page s' ordered,
        ProductService.list skip limit category_id search
          (with_tie_rank rank (session rows clock pool))
        = (Return (page,
                   List.length
                     (filter (ProductService.list_filter category_id search) rows)),
           s')
        /\ Permutation ordered
             (filter (ProductService.list_filter category_id search) rows)
        /\ Sorted not_created_after ordered
        /\ map columns page = firstn limit (skipn skip ordered)
        /\ products s' = rows)
  /\ (List.length rows = 25%nat ->
      exists first second last s',
        three_page_requests (with_tie_rank rank (session rows clock pool))
        = (Return ((first, 25%nat), (second, 25%nat), (last, 25%nat)), s')
        /\ List.length first = 10%nat
        /\ List.length second = 10%nat
        /\ List.length last = 5%nat
        /\ products s' = rows
        /\ (NoDup (map Product.created_at rows) ->
            Permutation (map columns (first ++ second ++ last)) rows)
        /\ ((forall p, rank 10%nat 10%nat p = rank 0%nat 10%nat p
                       /\ rank 20%nat 10%nat p = rank 0%nat 10%nat p) ->
            Permutation (map columns (first ++ second ++ last)) rows)).
Proof.
  split.
  - intros skip limit category_id search.
    eexists. eexists.
    exists (order_by_created_at_desc (rank skip limit)
              (filter (ProductService.list_filter category_id search) rows)).
    rewrite list_run. cbn [products session with_tie_rank tie_rank].
    split; [reflexivity | ].
    split; [apply Permutation_sym, order_by_perm | ].
    split; [apply order_by_sorted | ].
    split; [apply columns_loaded | reflexivity].
  - intros Hlen.
    assert (Hsorted : forall r, List.length (order_by_created_at_desc r rows) = 25%nat).
    { intros r. rewrite order_by_length. exact Hlen. }
    unfold three_page_requests.
    unfold bind at 1. rewrite list_run.
    unfold bind at 1. rewrite list_run.
    unfold bind at 1. rewrite list_run.
    cbn [products session record_call with_tie_rank tie_rank].
    rewrite filter_no_filter, Hlen.
    eexists. eexists. eexists. eexists.
    split; [reflexivity | ].
    rewrite !length_map, !length_firstn, !length_skipn, !Hsorted.
    split; [reflexivity | ]. split; [reflexivity | ]. split; [reflexivity | ].
    split; [reflexivity | ].
    assert (Hsame : order_by_created_at_desc (rank 10%nat 10%nat) rows
                    = order_by_created_at_desc (rank 0%nat 10%nat) rows
                    -> order_by_created_at_desc (rank 20%nat 10%nat) rows
                       = order_by_created_at_desc (rank 0%nat 10%nat) rows
                    -> Permutation
                         (map columns
                            (map loaded
                               (firstn 10
                                  (skipn 0
                                     (order_by_created_at_desc (rank 0%nat 10%nat)
                                        rows)))
                             ++ map loaded
                                  (firstn 10
                                     (skipn 10
                                        (order_by_created_at_desc
                                           (rank 10%nat 10%nat) rows)))
                             ++ map loaded
                                  (firstn 10
                                     (skipn 20
                                        (order_by_created_at_desc
                                           (rank 20%nat 10%nat) rows)))))
                         rows).
    { intros E1 E2. rewrite E1, E2.
      rewrite <- !map_app, columns_loaded.
      rewrite three_pages_cover by (rewrite Hsorted; repeat constructor).
      apply Permutation_sym, order_by_perm. }
    split.
    + intros Hnd. apply Hsame; apply order_by_no_tie; exact Hnd.
    + intros Hrank. apply Hsame; apply order_by_ext; intros p; apply Hrank.
Qed.

Lemma list_total_is_the_filtered_count_witness :
  List.length Fixture.twenty_five = 25%nat
  /\ NoDup (map Product.created_at Fixture.twenty_five)
  /\ exists first second last s',
       three_page_requests
         (with_tie_rank Fixture.changing_rank (session Fixture.twenty_five 0%Z []))
       = (Return ((first, 25%nat), (second, 25%nat), (last, 25%nat)), s')
       /\ List.length first = 10%nat
       /\ List.length second = 10%nat
       /\ List.length last = 5%nat
       /\ Permutation (map columns (first ++ second ++ last)) Fixture.twenty_five.
Proof.
  assert (Hnd : NoDup (map Product.created_at Fixture.twenty_five)).
  { vm_compute.
    repeat (constructor;
            [ intros H; repeat (destruct H as [H | H]; [discriminate H | ]);
              exact H | ]).
    constructor. }
  split; [reflexivity | ]. split; [exact Hnd | ].
  destruct (list_total_is_the_filtered_count Fixture.twenty_five 0%Z []
              Fixture.changing_rank)
    as [_ Hpages].
  destruct (Hpages eq_refl)
    as (first & second & last & s' & Hrun & H1 & H2 & H3 & _ & Hperm & _).
  exists first, second, last, s'.
  split; [exact Hrun | ]. split; [exact H1 | ]. split; [exact H2 | ].
  split; [exact H3 | ]. exact (Hperm Hnd).
Defined.

(** *** [bulk_update_prices] *)




(** *** The sku of a create request *)

Lemma upper_char_sku_char (c : ascii) : sku_char c = true -> upper_char c = c.
Proof.
  destruct c as [b0 b1 b2 b3 b4 b5 b6 b7].
  destruct b0, b1, b2, b3, b4, b5, b6, b7; vm_compute; congruence.
Qed.

Lemma upper_sku_chars (v : string) : string_forallb sku_char v = true -> upper v = v.
Proof.
  induction v as [ | c v IH ]; cbn [string_forallb]; intros H.
  - reflexivity.
  - apply andb_true_iff in H. destruct H as [Hc Hv].
    unfold upper in *. cbn [string_map].
    rewrite (upper_char_sku_char c Hc), (IH Hv). reflexivity.
Qed.

(** X29.  What the schema lets through: the sku of an accepted request
    matches the pattern as it was supplied, and [uppercase_sku] returns it
    as it is. *)
Lemma accepted_sku_is_uppercase (kwargs m : ProductCreate.t) :
  ProductCreate.model_validate kwargs = inl m ->
  sku_pattern (ProductCreate.sku kwargs) = true
  /\ ProductCreate.sku m = ProductCreate.uppercase_sku (ProductCreate.sku kwargs)
  /\ ProductCreate.sku m = ProductCreate.sku kwargs
  /\ string_forallb sku_char (ProductCreate.sku m) = true.
Proof.
  unfold ProductCreate.model_validate.
  destruct (ProductBase.check_name (ProductCreate.name kwargs)); [ | discriminate ].
  destruct (ProductBase.check_description (ProductCreate.description kwargs));
    [ | discriminate ].
  destruct (check_price (ProductCreate.price kwargs)); [ | discriminate ].
  destruct (ProductCreate.check_sku (ProductCreate.sku kwargs)) as [s | ty] eqn:E;
    [ | discriminate ].
  intros H. injection H as <-. cbn [ProductCreate.sku].
  unfold ProductCreate.check_sku, check_length in E.
  destruct (50 <? String.length (ProductCreate.sku kwargs))%nat; [discriminate | ].
  destruct (sku_pattern (ProductCreate.sku kwargs)) eqn:Hpat; [ | discriminate ].
  injection E as <-.
  assert (Hall : string_forallb sku_char (ProductCreate.sku kwargs) = true).
  { unfold sku_pattern in Hpat. apply andb_true_iff in Hpat. apply Hpat. }
  unfold ProductCreate.uppercase_sku.
  rewrite (upper_sku_chars _ Hall).
  repeat split; assumption.
Qed.

(** C7, on the code.  A create request whose sku is in lower case or in
    mixed case is rejected by the schema with a pattern mismatch: the
    pattern is checked on the sku as supplied, before [uppercase_sku] runs,
    so the sku is not normalised to ["WIDGET-001"], although
    [uppercase_sku] would map it there. *)
Theorem lowercase_sku_is_rejected_not_normalised :
  ProductCreate.uppercase_sku "widget-001" = "WIDGET-001"
  /\ ProductCreate.check_sku "widget-001" = Invalid "string_pattern_mismatch"
  /\ ProductCreate.check_sku "Widget-001" = Invalid "string_pattern_mismatch"
  /\ ProductCreate.model_validate lowercase_sku_request
     = inr [("sku", "string_pattern_mismatch")]
  /\ ProductCreate.check_sku "WIDGET-001" = Valid "WIDGET-001".
Proof. repeat split. Qed.

(** *** The price filters of the query parameters *)

Lemma is_valid_true {A} (c : Checked A) : is_valid c = true -> exists a, c = Valid a.
Proof. destruct c; [eauto | discriminate]. Qed.

Lemma query_params_rejected_iff (payload : ProductQueryParams.Payload) (m v : Decimal) :
  ProductQueryParams.p_min_price payload = Some m ->
  ProductQueryParams.p_max_price payload = Some v ->
  own_constraints_hold payload = true ->
  (exists errors, ProductQueryParams.model_validate payload = inr errors)
  <-> dec_lt v m = true.
Proof.
  intros Hmin Hmax Hown.
  unfold own_constraints_hold in Hown.
  rewrite Hmin, Hmax in Hown.
  repeat (apply andb_true_iff in Hown; destruct Hown as [Hown ?]).
  unfold ProductQueryParams.model_validate.
  rewrite Hmin, Hmax.
  assert (Hsk : exists a,
             match ProductQueryParams.p_skip payload with
             | Some v0 => ProductQueryParams.check_int (Some 0%Z) None v0
             | None => Valid 0%Z
             end = Valid a).
  { destruct (ProductQueryParams.p_skip payload);
      [apply is_valid_true; assumption | eauto]. }
  assert (Hli : exists a,
             match ProductQueryParams.p_limit payload with
             | Some v0 => ProductQueryParams.check_int (Some 1%Z) (Some 100%Z) v0
             | None => Valid 20%Z
             end = Valid a).
  { destruct (ProductQueryParams.p_limit payload);
      [apply is_valid_true; assumption | eauto]. }
  destruct Hsk as [sk ->]. destruct Hli as [li ->].
  destruct (is_valid_true _ H) as [se ->].
  unfold ProductQueryParams.check_max_price.
  unfold ProductQueryParams.check_ge_0 in *.
  destruct (dec_le Decimal_0 m); [ | discriminate ].
  destruct (dec_le Decimal_0 v); [ | discriminate ].
  cbn [ProductQueryParams.validated].
  unfold ProductQueryParams.max_price_greater_than_min,
    ProductQueryParams.get_min_price.
  cbn [ProductQueryParams.data ProductQueryParams.data_min_price].
  destruct (dec_lt v m).
  - split; [reflexivity | ]. intros _. eexists. reflexivity.
  - split; [ | discriminate ]. intros [errors Herr]. discriminate Herr.
Qed.

Lemma query_params_one_price_never_rule_error
    (payload : ProductQueryParams.Payload) (errors : list ErrorDetails) :
  ProductQueryParams.p_min_price payload = None
  \/ ProductQueryParams.p_max_price payload = None ->
  ProductQueryParams.model_validate payload = inr errors ->
  ~ In ("max_price", "value_error") errors.
Proof.
  intros Hone.
  unfold ProductQueryParams.model_validate.
  assert (Hmax : forall info,
             ProductQueryParams.check_max_price
               (ProductQueryParams.p_max_price payload) info
             <> Invalid "value_error"
             \/ ProductQueryParams.get_min_price (ProductQueryParams.data info)
                <> None).
  { intros info. unfold ProductQueryParams.check_max_price.
    destruct (ProductQueryParams.p_max_price payload) as [v | ]; [ | left; discriminate ].
    unfold ProductQueryParams.check_ge_0.
    destruct (dec_le Decimal_0 v); [ | left; discriminate ].
    unfold ProductQueryParams.max_price_greater_than_min.
    destruct (ProductQueryParams.get_min_price (ProductQueryParams.data info));
      [right; discriminate | left; discriminate]. }
  set (info := ProductQueryParams.mkInfo _).
  specialize (Hmax info).
  assert (Hneq : ProductQueryParams.check_max_price
                   (ProductQueryParams.p_max_price payload) info
                 <> Invalid "value_error").
  { destruct Hmax as [Hmax | Hmax]; [exact Hmax | ].
    destruct Hone as [Hmin | Hmx].
    - exfalso. apply Hmax. subst info.
      cbn [ProductQueryParams.data ProductQueryParams.get_min_price
             ProductQueryParams.data_min_price].
      rewrite Hmin. reflexivity.
    - rewrite Hmx. discriminate. }
  clearbody info.
  destruct (match ProductQueryParams.p_skip payload with
            | Some v => ProductQueryParams.check_int (Some 0%Z) None v
            | None => Valid 0%Z
            end) as [sk | e1];
    destruct (match ProductQueryParams.p_limit payload with
              | Some v => ProductQueryParams.check_int (Some 1%Z) (Some 100%Z) v
              | None => Valid 20%Z
              end) as [li | e2];
    destruct (ProductQueryParams.check_ge_0 (ProductQueryParams.p_min_price payload))
      as [mn | e3];
    destruct (ProductQueryParams.check_max_price
                (ProductQueryParams.p_max_price payload) info) as [mx | e4];
    destruct (ProductQueryParams.check_search (ProductQueryParams.p_search payload))
      as [se | e5];
    intros Herr; try discriminate Herr;
    injection Herr as <-; cbn [field_errors app];
    intros Hin; cbn [In] in Hin;
    repeat (destruct Hin as [Hin | Hin]; [try discriminate Hin | ]);
    try contradiction;
    try (injection Hin as Hin; apply Hneq; rewrite Hin; reflexivity).
Qed.

(** C8.  The cross-field rule of the query parameters.  With both
    [min_price] and [max_price] supplied, the validator of [max_price]
    raises exactly when [max_price < min_price]; equal prices are
    accepted; with only one of the two, the rule never rejects.  On a
    whole payload whose parameters each pass their own constraints and
    that supplies both prices, validation fails exactly when
    [max_price < min_price]; a payload supplying only one of the two never
    carries the rule's error. *)
Theorem max_price_rule_rejects_exactly_smaller_max :
  (forall sk li cat (m v : Decimal),
      let info := ProductQueryParams.mkInfo
                    (ProductQueryParams.mkData sk li cat (Some (Some m))) in
      ((exists message,
           ProductQueryParams.max_price_greater_than_min (Some v) info = inr message)
       <-> dec_lt v m = true)
      /\ (dec_eq v m = true ->
          ProductQueryParams.max_price_greater_than_min (Some v) info = inl (Some v)))
  /\ (forall info, ProductQueryParams.max_price_greater_than_min None info = inl None)
  /\ (forall v info,
        ProductQueryParams.get_min_price (ProductQueryParams.data info) = None ->
        ProductQueryParams.max_price_greater_than_min (Some v) info = inl (Some v))
  /\ (forall payload m v,
        ProductQueryParams.p_min_price payload = Some m ->
        ProductQueryParams.p_max_price payload = Some v ->
        own_constraints_hold payload = true ->
        ((exists errors, ProductQueryParams.model_validate payload = inr errors)
         <-> dec_lt v m = true))
  /\ (forall payload errors,
        ProductQueryParams.p_min_price payload = None
        \/ ProductQueryParams.p_max_price payload = None ->
        ProductQueryParams.model_validate payload = inr errors ->
        ~ In ("max_price", "value_error") errors).
Proof.
  split; [ | split; [ | split; [ | split ] ] ].
  - intros sk li cat m v info.
    unfold ProductQueryParams.max_price_greater_than_min. subst info.
    cbn [ProductQueryParams.data ProductQueryParams.get_min_price
           ProductQueryParams.data_min_price].
    split.
    + destruct (dec_lt v m).
      * split; [reflexivity | ]. intros _. eexists. reflexivity.
      * split; [ | discriminate ]. intros [message H]. discriminate H.
    + intros Heq. rewrite (dec_lt_irrefl_eq v m Heq). reflexivity.
  - intros info. unfold ProductQueryParams.max_price_greater_than_min. reflexivity.
  - intros v info Hmin. unfold ProductQueryParams.max_price_greater_than_min.
    rewrite Hmin. reflexivity.
  - exact query_params_rejected_iff.
  - exact query_params_one_price_never_rule_error.
Qed.

Lemma max_price_rule_rejects_exactly_smaller_max_witness :
  ProductQueryParams.p_min_price inverted_prices = Some (mkDecimal 10 0)
  /\ ProductQueryParams.p_max_price inverted_prices = Some (mkDecimal 5 0)
  /\ own_constraints_hold inverted_prices = true
  /\ (exists errors, ProductQueryParams.model_validate inverted_prices = inr errors)
  /\ ProductQueryParams.p_min_price only_max_price = None
  /\ ProductQueryParams.model_validate only_max_price
     = inl (ProductQueryParams.mk 0%Z 20%Z None None (Some (mkDecimal 5 0)) None)
  /\ ProductQueryParams.max_price_greater_than_min (Some (mkDecimal 5 0))
       (ProductQueryParams.mkInfo
          (ProductQueryParams.mkData (Some 0%Z) (Some 20%Z) (Some None) (Some None)))
     = inl (Some (mkDecimal 5 0)).
Proof.
  destruct max_price_rule_rejects_exactly_smaller_max
    as (_ & _ & Hone & Hpayload & _).
  split; [reflexivity | ].
  split; [reflexivity | ].
  split; [reflexivity | ].
  split.
  - apply (Hpayload inverted_prices (mkDecimal 10 0) (mkDecimal 5 0)
             eq_refl eq_refl eq_refl).
    reflexivity.
  - split; [reflexivity | ]. split; [reflexivity | ].
    apply Hone. reflexivity.
Defined.

(** *** The list response *)

Lemma model_validate_all_length (products_ : list ProductObj) (s s' : AsyncSession)
    (items : list ProductResponse.t) :
  model_validate_all products_ s = (Return items, s') ->
  List.length items = List.length products_ /\ s' = s.
Proof.
  revert items. induction products_ as [ | p rest IH ]; intros items;
    cbn [model_validate_all].
  - unfold ret. intros H. injection H as <- <-. split; reflexivity.
  - destruct (ProductResponse.model_validate p) as [item | errors].
    + unfold bind.
      destruct (model_validate_all rest s) as [[items' | e] s''] eqn:E.
      * unfold ret. intros H. injection H as <- <-.
        destruct (IH items' eq_refl) as [Hlen ->].
        cbn [List.length]. split; [congruence | reflexivity].
      * discriminate.
    + unfold raise. discriminate.
Qed.

(** C10.  [has_more] of a list response is true exactly when [skip] plus
    the number of items of the page is strictly less than [total].  For
    the response [list_products] returns, [total] is the number of
    products passing the filters, so [has_more] says that products remain
    beyond [skip + limit]. *)
Theorem has_more_iff_skip_plus_page_below_total :
  (forall r : ProductListResponse.t,
      ProductListResponse.has_more r = true
      <-> (ProductListResponse.skip r
           + Z.of_nat (List.length (ProductListResponse.items r))
           < ProductListResponse.total r)%Z)
  /\ (forall rows clock pool skip limit category_id search r s',
        list_products skip limit category_id search (session rows clock pool)
        = (Return r, s') ->
        let count :=
          List.length (filter (ProductService.list_filter category_id search) rows) in
        ProductListResponse.total r = Z.of_nat count
        /\ ProductListResponse.skip r = Z.of_nat skip
        /\ (ProductListResponse.has_more r = true
            <-> (skip + List.length (ProductListResponse.items r) < count)%nat)
        /\ (ProductListResponse.has_more r = true <-> (skip + limit < count)%nat)).
Proof.
  split.
  - intros r. unfold ProductListResponse.has_more. apply Z.ltb_lt.
  - intros rows clock pool skip limit category_id search r s' Hrun count.
    unfold list_products in Hrun. unfold bind at 1 in Hrun.
    rewrite list_run in Hrun. cbn [products session] in Hrun.
    fold count in Hrun. unfold bind in Hrun.
    destruct (model_validate_all _ _) as [[items | e] s''] eqn:E in Hrun;
      [ | discriminate Hrun ].
    unfold ret in Hrun. injection Hrun as <- <-.
    apply model_validate_all_length in E. destruct E as [Hlen _].
    rewrite length_map, length_firstn, length_skipn, order_by_length in Hlen.
    fold count in Hlen.
    unfold ProductListResponse.has_more.
    cbn [ProductListResponse.total ProductListResponse.skip ProductListResponse.items].
    split; [reflexivity | ]. split; [reflexivity | ].
    rewrite Z.ltb_lt, Hlen. split; split; lia.
Qed.

Lemma has_more_iff_skip_plus_page_below_total_witness :
  match fst (list_products 10 10 None None (session Fixture.twenty_five 0%Z [])) with
  | Return r =>
      ProductListResponse.has_more r = true
      /\ List.length (ProductListResponse.items r) = 10%nat
      /\ ProductListResponse.total r = 25%Z
  | Raise _ => False
  end.
Proof.
  destruct (list_products 10 10 None None (session Fixture.twenty_five 0%Z []))
    as [[r | e] s'] eqn:E; cbn [fst].
  - destruct has_more_iff_skip_plus_page_below_total as [_ Hrouter].
    destruct (Hrouter _ _ _ _ _ _ _ _ _ E) as (Htotal & _ & Hitems & Hlimit).
    assert (Hmore : ProductListResponse.has_more r = true).
    { apply Hlimit. vm_compute. repeat constructor. }
    split; [exact Hmore | ].
    split; [ | rewrite Htotal; reflexivity ].
    vm_compute in E. injection E as <- _. reflexivity.
  - vm_compute in E. discriminate E.
Defined.

(* ===================================================================== *)
(** ** Further properties of the service                                   *)
(* ===================================================================== *)

(** *** [create], when it succeeds *)



(** X2.  A successful [create] keeps the constraints of the table: when
    ids and skus are unique among the stored products, they are unique
    after the new product is stored. *)
Theorem create_keeps_ids_and_skus_unique
    (rows : list Product.t) (clock : Z) (u : UUID) (pool : list UUID)
    (data : ProductCreate.t) (created_by : UUID) :
  dec_lt (ProductCreate.price data) Decimal_0_01 = false ->
  ~ In (ProductCreate.sku data) (map Product.sku rows) ->
  ~ In u (map Product.id rows) ->
  pk_products rows -> uq_products_sku rows ->
  let s' := snd (ProductService.create data created_by
                   (session rows clock (u :: pool))) in
  pk_products (products s') /\ uq_products_sku (products s').
Proof.
  intros Hge Hsku Hid Hpk Huq.
  rewrite (create_run_ok rows clock u pool data created_by Hge Hsku Hid).
  cbn [snd products]. unfold pk_products, uq_products_sku.
  rewrite !map_app. cbn [map created_row Product.id Product.sku].
  split; apply NoDup_snoc; assumption.
Qed.

Lemma create_keeps_ids_and_skus_unique_witness :
  dec_lt (ProductCreate.price Fixture.valid_create_data) Decimal_0_01 = false
  /\ ~ In (ProductCreate.sku Fixture.valid_create_data)
          (map Product.sku [Fixture.sample_product])
  /\ ~ In 2%N (map Product.id [Fixture.sample_product])
  /\ pk_products [Fixture.sample_product]
  /\ uq_products_sku [Fixture.sample_product]
  /\ pk_products
       (products (snd (ProductService.create Fixture.valid_create_data
                         Fixture.user_id
                         (session [Fixture.sample_product] 200%Z [2%N]))))
  /\ uq_products_sku
       (products (snd (ProductService.create Fixture.valid_create_data
                         Fixture.user_id
                         (session [Fixture.sample_product] 200%Z [2%N])))).
Proof.
  assert (Hsku : ~ In (ProductCreate.sku Fixture.valid_create_data)
                      (map Product.sku [Fixture.sample_product])).
  { cbn. intros [H | []]. discriminate H. }
  assert (Hid : ~ In 2%N (map Product.id [Fixture.sample_product])).
  { cbn. intros [H | []]. discriminate H. }
  assert (Hpk : pk_products [Fixture.sample_product]).
  { unfold pk_products. cbn. constructor; [intros [] | constructor]. }
  assert (Huq : uq_products_sku [Fixture.sample_product]).
  { unfold uq_products_sku. cbn. constructor; [intros [] | constructor]. }
  split; [reflexivity | ]. split; [exact Hsku | ]. split; [exact Hid | ].
  split; [exact Hpk | ]. split; [exact Huq | ].
  apply (create_keeps_ids_and_skus_unique [Fixture.sample_product] 200%Z 2%N []
           Fixture.valid_create_data Fixture.user_id eq_refl Hsku Hid Hpk Huq).
Defined.

(** X3.  What [create] stored can be read back: on the resulting store,
    in a later session, [get_by_sku] of the request's sku and [get_by_id]
    of the new id both return the created product. *)
Theorem create_then_lookup_returns_the_product
    (rows : list Product.t) (clock : Z) (u : UUID) (pool : list UUID)
    (data : ProductCreate.t) (created_by : UUID)
    (clock' : Z) (pool' : list UUID) :
  dec_lt (ProductCreate.price data) Decimal_0_01 = false ->
  ~ In (ProductCreate.sku data) (map Product.sku rows) ->
  ~ In u (map Product.id rows) ->
  let r := ProductService.create data created_by (session rows clock (u :: pool)) in
  let later := session (products (snd r)) clock' pool' in
  exists product,
    fst r = Return product
    /\ fst (ProductService.get_by_sku (ProductCreate.sku data) later)
       = Return (Some product)
    /\ fst (ProductService.get_by_id u later) = Return product.
Proof.
  intros Hge Hsku Hid.
  rewrite (create_run_ok rows clock u pool data created_by Hge Hsku Hid).
  cbn [fst snd products].
  exists (loaded (created_row data created_by u clock)).
  split; [reflexivity | ]. split.
  - unfold ProductService.get_by_sku, bind, db_execute_select.
    cbn [products session].
    change (ProductCreate.sku data)
      with (Product.sku (created_row data created_by u clock)) at 1.
    rewrite (filter_app_key_absent Product.sku String.eqb String_eqb_iff rows
               (created_row data created_by u clock)) by exact Hsku.
    reflexivity.
  - unfold ProductService.get_by_id, bind, db_execute_select.
    cbn [products session].
    change u with (Product.id (created_row data created_by u clock)) at 1.
    rewrite (filter_app_key_absent Product.id N.eqb N_eqb_iff rows
               (created_row data created_by u clock)) by exact Hid.
    reflexivity.
Qed.

Lemma create_then_lookup_returns_the_product_witness :
  dec_lt (ProductCreate.price Fixture.valid_create_data) Decimal_0_01 = false
  /\ ~ In (ProductCreate.sku Fixture.valid_create_data)
          (map Product.sku [Fixture.sample_product])
  /\ ~ In 2%N (map Product.id [Fixture.sample_product])
  /\ exists product,
       fst (ProductService.get_by_sku "NEW-001"
              (session
                 (products
                    (snd (ProductService.create Fixture.valid_create_data
                            Fixture.user_id
                            (session [Fixture.sample_product] 200%Z [2%N]))))
                 300%Z []))
       = Return (Some product)
       /\ Product.id (columns product) = 2%N.
Proof.
  assert (Hsku : ~ In (ProductCreate.sku Fixture.valid_create_data)
                      (map Product.sku [Fixture.sample_product])).
  { cbn. intros [H | []]. discriminate H. }
  assert (Hid : ~ In 2%N (map Product.id [Fixture.sample_product])).
  { cbn. intros [H | []]. discriminate H. }
  split; [reflexivity | ]. split; [exact Hsku | ]. split; [exact Hid | ].
  destruct (create_then_lookup_returns_the_product [Fixture.sample_product]
              200%Z 2%N [] Fixture.valid_create_data Fixture.user_id 300%Z []
              eq_refl Hsku Hid)
    as (product & Hrun & Hget & _).
  exists product. split; [exact Hget | ].
  vm_compute in Hrun. injection Hrun as <-. reflexivity.
Defined.

(** X4.  [create] is not repeatable.  After a successful [create], a
    second request with the same sku and a price of at least 0.01, in a
    later session on the resulting store, fails with [DuplicateSKU]; the
    error's [existing_id] is the id the first call gave the product, and
    the second call stores nothing. *)
Theorem create_same_sku_again_conflicts
    (rows : list Product.t) (clock : Z) (u : UUID) (pool : list UUID)
    (data again : ProductCreate.t) (created_by : UUID)
    (clock' : Z) (pool' : list UUID) :
  dec_lt (ProductCreate.price data) Decimal_0_01 = false ->
  ~ In (ProductCreate.sku data) (map Product.sku rows) ->
  ~ In u (map Product.id rows) ->
  uq_products_sku rows ->
  dec_lt (ProductCreate.price again) Decimal_0_01 = false ->
  ProductCreate.sku again = ProductCreate.sku data ->
  let stored := products (snd (ProductService.create data created_by
                                 (session rows clock (u :: pool)))) in
  let r := ProductService.create again created_by (session stored clock' pool') in
  fst r = Raise (ConflictError
                   ("Product with SKU " ++ ProductCreate.sku data ++ " already exists")
                   "DuplicateSKU"
                   [("sku", ProductCreate.sku data); ("existing_id", str_uuid u)])
  /\ products (snd r) = stored.
Proof.
  intros Hge Hsku Hid Huq Hge' Hsame.
  cbv zeta.
  rewrite (create_run_ok rows clock u pool data created_by Hge Hsku Hid).
  cbn [snd products].
  set (stored := rows ++ [created_row data created_by u clock]).
  assert (Huq' : uq_products_sku stored).
  { subst stored. unfold uq_products_sku. rewrite map_app.
    cbn [map created_row Product.sku]. apply NoDup_snoc; assumption. }
  assert (Hin : In (created_row data created_by u clock) stored).
  { subst stored. apply in_or_app. right. left. reflexivity. }
  rewrite (create_run_duplicate (session stored clock' pool') again created_by
             (created_row data created_by u clock) Hge' Huq' Hin)
    by (symmetry; exact Hsame).
  cbn [fst snd]. rewrite Hsame. split; reflexivity.
Qed.

Lemma create_same_sku_again_conflicts_witness :
  dec_lt (ProductCreate.price Fixture.valid_create_data) Decimal_0_01 = false
  /\ ~ In (ProductCreate.sku Fixture.valid_create_data)
          (map Product.sku [Fixture.sample_product])
  /\ ~ In 2%N (map Product.id [Fixture.sample_product])
  /\ uq_products_sku [Fixture.sample_product]
  /\ fst (ProductService.create Fixture.valid_create_data Fixture.user_id
            (session
               (products
                  (snd (ProductService.create Fixture.valid_create_data
                          Fixture.user_id
                          (session [Fixture.sample_product] 200%Z [2%N]))))
               300%Z [3%N]))
     = Raise (ConflictError "Product with SKU NEW-001 already exists"
                "DuplicateSKU"
                [("sku", "NEW-001");
                 ("existing_id", "00000000-0000-0000-0000-000000000002")]).
Proof.
  assert (Hsku : ~ In (ProductCreate.sku Fixture.valid_create_data)
                      (map Product.sku [Fixture.sample_product])).
  { cbn. intros [H | []]. discriminate H. }
  assert (Hid : ~ In 2%N (map Product.id [Fixture.sample_product])).
  { cbn. intros [H | []]. discriminate H. }
  assert (Huq : uq_products_sku [Fixture.sample_product]).
  { unfold uq_products_sku. cbn. constructor; [intros [] | constructor]. }
  split; [reflexivity | ]. split; [exact Hsku | ]. split; [exact Hid | ].
  split; [exact Huq | ].
  apply (create_same_sku_again_conflicts [Fixture.sample_product] 200%Z 2%N []
           Fixture.valid_create_data Fixture.valid_create_data Fixture.user_id
           300%Z [3%N] eq_refl Hsku Hid Huq eq_refl eq_refl).
Defined.

(** X5.  Whatever its outcome, [create] never alters or removes a stored
    product: the products after the call are the products before it,
    followed by at most one new row, which has the request's sku and the
    caller as creator; and when the call raises one of the service's own
    errors, nothing was added. *)
Theorem create_never_touches_stored_rows
    (rows : list Product.t) (clock : Z) (pool : list UUID)
    (data : ProductCreate.t) (created_by : UUID) :
  let r := ProductService.create data created_by (session rows clock pool) in
  (products (snd r) = rows
   \/ exists row,
        products (snd r) = rows ++ [row]
        /\ Product.sku row = ProductCreate.sku data
        /\ Product.created_by row = Some created_by)
  /\ (forall message code, fst r = Raise (ValidationError message code) ->
                           products (snd r) = rows)
  /\ (forall message code details,
        fst r = Raise (ConflictError message code details) ->
        products (snd r) = rows).
Proof.
  unfold ProductService.create.
  destruct (dec_lt (ProductCreate.price data) Decimal_0_01).
  - cbn. split; [left; reflexivity | split; intros; reflexivity ].
  - unfold ProductService.get_by_sku, Product_new, uuid4, func_now, db_add,
      db_commit, db_refresh, db_execute_select, logger_info, scalar_one_or_none,
      bind, ret, raise.
    cbn [session products new now uuid4_pool calls events tie_rank record_call].
    destruct (filter _ rows) as [ | existing [ | another more ] ].
    + destruct pool as [ | u pool ];
        cbn [session products new now uuid4_pool calls events tie_rank record_call
               columns fold_left flush_each app];
        match goal with
        | |- context [insert_row rows ?p] =>
            destruct (insert_row_cases rows p) as [E | E]; rewrite E
        end;
        cbn [flushed session products new now uuid4_pool calls events tie_rank
               record_call fst snd];
        try (split; [left; reflexivity | split; intros; discriminate ]);
        match goal with
        | |- context [filter ?f ?l] => destruct (filter f l) as [ | x [ | y l' ] ]
        end;
        cbn [fst snd products record_call];
        (split;
         [ right; eexists; split; [reflexivity | split; reflexivity]
         | split; intros; discriminate ]).
    + cbn. split; [left; reflexivity | split; intros; reflexivity ].
    + cbn. split; [left; reflexivity | split; intros; reflexivity ].
Qed.

(** *** [update]: the missing product, the empty payload, two in a row *)

(** X6.  [update] of an id no stored product has fails with
    [NotFoundError], whose message and details name the id; the stored
    products are unchanged, nothing is committed and nothing is logged. *)
Theorem update_of_missing_id_changes_nothing
    (rows : list Product.t) (clock : Z) (pool : list UUID)
    (product_id : UUID) (data : ProductUpdate.t) (updated_by : UUID) :
  ~ In product_id (map Product.id rows) ->
  let r := ProductService.update product_id data updated_by
             (session rows clock pool) in
  fst r = Raise (NotFoundError ("Product " ++ str_uuid product_id ++ " not found")
                   [("product_id", str_uuid product_id)])
  /\ products (snd r) = rows
  /\ calls (snd r) = [CallExecute]
  /\ events (snd r) = [].
Proof.
  intros Hno. cbv zeta.
  assert (Hrun : ProductService.update product_id data updated_by
                   (session rows clock pool)
                 = (Raise (NotFoundError
                             ("Product " ++ str_uuid product_id ++ " not found")
                             [("product_id", str_uuid product_id)]),
                    record_call CallExecute (session rows clock pool))).
  { unfold ProductService.update. unfold bind at 1.
    rewrite get_by_id_missing by exact Hno. reflexivity. }
  rewrite Hrun.
  cbn [fst snd]. split; [reflexivity | ]. split; [reflexivity | ].
  split; reflexivity.
Qed.

Lemma update_of_missing_id_changes_nothing_witness :
  ~ In 9%N (map Product.id [Fixture.sample_product])
  /\ fst (ProductService.update 9%N Fixture.rename Fixture.user_id
            (session [Fixture.sample_product] 200%Z []))
     = Raise (NotFoundError
                "Product 00000000-0000-0000-0000-000000000009 not found"
                [("product_id", "00000000-0000-0000-0000-000000000009")]).
Proof.
  assert (Hno : ~ In 9%N (map Product.id [Fixture.sample_product])).
  { cbn. intros [H | []]. discriminate H. }
  split; [exact Hno | ].
  apply (update_of_missing_id_changes_nothing [Fixture.sample_product] 200%Z []
           9%N Fixture.rename Fixture.user_id Hno).
Defined.

(** The flush of an instance that holds the row's [name], [price] and
    [category_id]: nothing when no attribute changed value, else an
    UPDATE the table takes. *)
Lemma update_row_keeping_required (clock : Z) (stored : Product.t) (p : ProductObj) :
  Product.name (columns p) = Product.name stored ->
  Product.price (columns p) = Product.price stored ->
  Product.category_id (columns p) = Product.category_id stored ->
  update_row clock stored (Assigned p)
  = if same_columns stored (columns p) then Some stored
    else Some (Product.set_updated_at (Some clock) (columns p)).
Proof.
  intros Hn Hp Hc.
  unfold update_row. cbn [has_expression instance negb andb].
  destruct (same_columns stored (columns p)); [reflexivity | ].
  unfold refused. rewrite Hn, Hp, Hc.
  rewrite (option_eqb_refl String.eqb) by apply String.eqb_refl.
  rewrite (option_eqb_refl dec_eq) by apply dec_eq_refl.
  rewrite (option_eqb_refl N.eqb) by apply N.eqb_refl.
  cbn [negb andb orb].
  rewrite written_columns, Hp.
  rewrite (option_eqb_refl dec_eq) by apply dec_eq_refl.
  rewrite <- Hp. destruct (columns p); reflexivity.
Qed.

(** X7.  [update] with a payload that supplies nothing assigns the caller
    to [updated_by], and nothing else.  When the product already has the
    caller as [updated_by], no attribute changed value: the commit emits
    no UPDATE, the stored products are exactly as they were, [updated_at]
    included, and the product is returned as it is stored.  Otherwise the
    product keeps every column except [updated_by], which becomes the
    caller, and [updated_at], which becomes the time of the commit. *)
Theorem update_with_nothing_supplied_writes_only_the_actor
    (rows : list Product.t) (clock : Z) (pool : list UUID)
    (p0 : Product.t) (data : ProductUpdate.t) (updated_by : UUID) :
  pk_products rows -> In p0 rows ->
  ProductUpdate.model_fields_set data = [] ->
  exists product s',
    ProductService.update (Product.id p0) data updated_by (session rows clock pool)
    = (Return product, s')
    /\ In (columns product) (products s')
    /\ (Product.updated_by p0 = Some updated_by ->
        columns product = p0 /\ products s' = rows)
    /\ (Product.updated_by p0 <> Some updated_by ->
        columns product
        = Product.set_updated_at (Some clock)
            (Product.set_updated_by (Some updated_by) p0)).
Proof.
  intros Hpk Hin Hset.
  assert (Hinst : update_assigned p0 data updated_by
                  = mkObj (Product.set_updated_by (Some updated_by) p0) None).
  { unfold update_assigned, ProductUpdate.model_dump_exclude_unset,
      ProductUpdate.model_dump, ProductUpdate.is_set.
    rewrite Hset. reflexivity. }
  assert (Hrow : update_stored clock p0 data updated_by
                 = if same_columns p0 (Product.set_updated_by (Some updated_by) p0)
                   then Some p0
                   else Some (Product.set_updated_at (Some clock)
                                (Product.set_updated_by (Some updated_by) p0))).
  { unfold update_stored. rewrite Hinst.
    apply update_row_keeping_required; reflexivity. }
  destruct (same_columns p0 (Product.set_updated_by (Some updated_by) p0)) eqn:E.
  - destruct (update_run_stored rows clock pool p0 data updated_by p0 Hpk Hin Hrow)
      as (s' & Hrun & Hrows & _).
    rewrite (rows_after_update_same rows p0 Hpk Hin) in Hrows.
    exists (loaded p0), s'. split; [exact Hrun | ]. cbn [loaded columns].
    split; [rewrite Hrows; exact Hin | ].
    split; [intros _; split; [reflexivity | exact Hrows] | ].
    intros Hne. exfalso. apply Hne.
    apply same_columns_assigned in E. destruct E as (Hby & _).
    rewrite Hby. reflexivity.
  - destruct (update_run_stored rows clock pool p0 data updated_by _ Hpk Hin Hrow)
      as (s' & Hrun & Hrows & _).
    eexists. exists s'. split; [exact Hrun | ]. cbn [loaded columns].
    split; [rewrite Hrows; apply rewrite_row_in; exact Hin | ].
    split; [ | intros _; reflexivity ].
    intros Hby. exfalso.
    assert (Hsame : Product.set_updated_by (Some updated_by) p0 = p0).
    { destruct p0. cbn in Hby. subst. reflexivity. }
    rewrite Hsame, same_columns_refl in E. discriminate E.
Qed.

Lemma update_with_nothing_supplied_writes_only_the_actor_witness :
  pk_products [Fixture.sample_product]
  /\ In Fixture.sample_product [Fixture.sample_product]
  /\ ProductUpdate.model_fields_set Fixture.nothing = []
  /\ Product.updated_by Fixture.sample_product <> Some 9%N
  /\ exists product s',
       ProductService.update 1%N Fixture.nothing 9%N
         (session [Fixture.sample_product] 200%Z [])
       = (Return product, s')
       /\ Product.updated_by (columns product) = Some 9%N
       /\ Product.updated_at (columns product) = Some 200%Z
       /\ Product.name (columns product) = Some "Test Product".
Proof.
  assert (Hpk : pk_products [Fixture.sample_product]).
  { unfold pk_products. cbn. constructor; [intros [] | constructor]. }
  assert (Hne : Product.updated_by Fixture.sample_product <> Some 9%N)
    by discriminate.
  split; [exact Hpk | ]. split; [left; reflexivity | ]. split; [reflexivity | ].
  split; [exact Hne | ].
  destruct (update_with_nothing_supplied_writes_only_the_actor
              [Fixture.sample_product] 200%Z [] Fixture.sample_product
              Fixture.nothing 9%N Hpk (or_introl eq_refl) eq_refl)
    as (product & s' & Hrun & _ & _ & Hcols).
  exists product, s'. split; [exact Hrun | ].
  rewrite (Hcols Hne). repeat split.
Defined.



(** X9.  [update] keeps the shape of the table: the number of stored
    products is unchanged, every product with another id is stored as it
    was, and when ids and skus are unique before the call they are unique
    after it. *)
Theorem update_keeps_the_table_shape
    (rows : list Product.t) (clock : Z) (pool : list UUID)
    (p0 : Product.t) (data : ProductUpdate.t) (updated_by : UUID) :
  pk_products rows -> In p0 rows ->
  let s' := snd (ProductService.update (Product.id p0) data updated_by
                   (session rows clock pool)) in
  List.length (products s') = List.length rows
  /\ (forall row, In row rows -> Product.id row <> Product.id p0 ->
                  In row (products s'))
  /\ pk_products (products s')
  /\ (uq_products_sku rows -> uq_products_sku (products s')).
Proof.
  intros Hpk Hin. cbv zeta.
  destruct (update_stored clock p0 data updated_by) as [ x | ] eqn:Hrow.
  - destruct (update_run_stored rows clock pool p0 data updated_by x Hpk Hin Hrow)
      as (s' & Hrun & Hrows & _).
    rewrite Hrun. cbn [snd]. rewrite Hrows. unfold rows_after_update.
    pose proof (update_stored_frame clock p0 data updated_by x Hrow) as Hframe.
    destruct Hframe as (Hid & Hsku & _).
    split; [apply length_map | ].
    split.
    + intros row Hrow' Hne. apply in_map_iff. exists row.
      split; [ | exact Hrow' ].
      destruct (N.eqb (Product.id row) (Product.id p0)) eqn:E; [ | reflexivity ].
      apply N.eqb_eq in E. contradiction.
    + split.
      * unfold pk_products.
        rewrite (rewrite_row_keeps_column Product.id rows p0 _ Hpk Hin Hid).
        exact Hpk.
      * intros Huq. unfold uq_products_sku.
        rewrite (rewrite_row_keeps_column Product.sku rows p0 _ Hpk Hin Hsku).
        exact Huq.
  - rewrite (update_run_refused rows clock pool p0 data updated_by Hpk Hin Hrow).
    cbn [snd products record_call session].
    split; [reflexivity | ]. split; [intros row Hrow' _; exact Hrow' | ].
    split; [exact Hpk | intros Huq; exact Huq].
Qed.

Lemma update_keeps_the_table_shape_witness :
  pk_products [Fixture.sample_product]
  /\ In Fixture.sample_product [Fixture.sample_product]
  /\ List.length
       (products (snd (ProductService.update 1%N Fixture.rename Fixture.user_id
                         (session [Fixture.sample_product] 200%Z []))))
     = 1%nat.
Proof.
  assert (Hpk : pk_products [Fixture.sample_product]).
  { unfold pk_products. cbn. constructor; [intros [] | constructor]. }
  split; [exact Hpk | ]. split; [left; reflexivity | ].
  apply (update_keeps_the_table_shape [Fixture.sample_product] 200%Z []
           Fixture.sample_product Fixture.rename Fixture.user_id Hpk
           (or_introl eq_refl)).
Defined.

(** *** [delete] *)

Lemma delete_run rows clock pool p0 :
  pk_products rows -> In p0 rows ->
  ProductService.delete (Product.id p0) (session rows clock pool)
  = (Return tt,
     mkSession (without (Product.id p0) rows) [] clock pool
       [CallExecute; CallCommit]
       [("product_deleted", [("product_id", LStr (str_uuid (Product.id p0)))])]
       table_order).
Proof.
  intros Hpk Hin.
  unfold ProductService.delete. unfold bind at 1.
  rewrite get_by_id_found by assumption.
  unfold bind, db_delete, ret, db_commit_deleting, logger_info.
  cbn [fold_left flush_each flush_delete flushed loaded columns products new now
         uuid4_pool calls events tie_rank record_call session].
  reflexivity.
Qed.


Lemma without_has_not (product_id : UUID) (rows : list Product.t) :
  ~ In product_id (map Product.id (without product_id rows)).
Proof.
  intros Hid. apply in_map_iff in Hid. destruct Hid as (row & Hrow & Hmem).
  unfold without in Hmem. apply filter_In in Hmem. destruct Hmem as [_ Hne].
  rewrite Hrow, N.eqb_refl in Hne. discriminate Hne.
Qed.

Lemma delete_run_missing rows clock pool product_id :
  ~ In product_id (map Product.id rows) ->
  ProductService.delete product_id (session rows clock pool)
  = (Raise (NotFoundError ("Product " ++ str_uuid product_id ++ " not found")
              [("product_id", str_uuid product_id)]),
     record_call CallExecute (session rows clock pool)).
Proof.
  intros Hno. unfold ProductService.delete. unfold bind at 1.
  rewrite get_by_id_missing by exact Hno. reflexivity.
Qed.



(** X11.  [delete] of an id no stored product has fails with
    [NotFoundError] naming the id; the stored products are unchanged,
    nothing is committed and nothing is logged. *)
Theorem delete_of_missing_id_changes_nothing
    (rows : list Product.t) (clock : Z) (pool : list UUID) (product_id : UUID) :
  ~ In product_id (map Product.id rows) ->
  let r := ProductService.delete product_id (session rows clock pool) in
  fst r = Raise (NotFoundError ("Product " ++ str_uuid product_id ++ " not found")
                   [("product_id", str_uuid product_id)])
  /\ products (snd r) = rows
  /\ calls (snd r) = [CallExecute]
  /\ events (snd r) = [].
Proof.
  intros Hno. cbv zeta.
  assert (Hrun : ProductService.delete product_id (session rows clock pool)
                 = (Raise (NotFoundError
                             ("Product " ++ str_uuid product_id ++ " not found")
                             [("product_id", str_uuid product_id)]),
                    record_call CallExecute (session rows clock pool))).
  { unfold ProductService.delete. unfold bind at 1.
    rewrite get_by_id_missing by exact Hno. reflexivity. }
  rewrite Hrun. cbn [fst snd].
  split; [reflexivity | ]. split; [reflexivity | ]. split; reflexivity.
Qed.

Lemma delete_of_missing_id_changes_nothing_witness :
  ~ In 9%N (map Product.id [Fixture.sample_product])
  /\ products (snd (ProductService.delete 9%N
                      (session [Fixture.sample_product] 200%Z [])))
     = [Fixture.sample_product].
Proof.
  assert (Hno : ~ In 9%N (map Product.id [Fixture.sample_product])).
  { cbn. intros [H | []]. discriminate H. }
  split; [exact Hno | ].
  apply (delete_of_missing_id_changes_nothing [Fixture.sample_product] 200%Z []
           9%N Hno).
Defined.

(** X12.  After [delete], the product is gone for every reader: in a later
    session on the resulting store, [get_by_id] of the id fails with
    [NotFoundError], and so does a second [delete]. *)
Theorem delete_then_lookup_is_not_found
    (rows : list Product.t) (clock : Z) (pool : list UUID) (p0 : Product.t)
    (clock' : Z) (pool' : list UUID) :
  pk_products rows -> In p0 rows ->
  let stored := products (snd (ProductService.delete (Product.id p0)
                                 (session rows clock pool))) in
  let not_found :=
    NotFoundError ("Product " ++ str_uuid (Product.id p0) ++ " not found")
      [("product_id", str_uuid (Product.id p0))] in
  fst (ProductService.get_by_id (Product.id p0) (session stored clock' pool'))
  = Raise not_found
  /\ fst (ProductService.delete (Product.id p0) (session stored clock' pool'))
     = Raise not_found.
Proof.
  intros Hpk Hin. cbv zeta.
  rewrite delete_run by assumption. cbn [snd products].
  pose proof (without_has_not (Product.id p0) rows) as Hgone.
  split.
  - rewrite get_by_id_missing by exact Hgone. reflexivity.
  - rewrite delete_run_missing by exact Hgone. reflexivity.
Qed.

Lemma delete_then_lookup_is_not_found_witness :
  pk_products [Fixture.sample_product]
  /\ In Fixture.sample_product [Fixture.sample_product]
  /\ fst (ProductService.get_by_id 1%N
            (session
               (products (snd (ProductService.delete 1%N
                                 (session [Fixture.sample_product] 200%Z []))))
               300%Z []))
     = Raise (NotFoundError
                "Product 00000000-0000-0000-0000-000000000001 not found"
                [("product_id", "00000000-0000-0000-0000-000000000001")]).
Proof.
  assert (Hpk : pk_products [Fixture.sample_product]).
  { unfold pk_products. cbn. constructor; [intros [] | constructor]. }
  split; [exact Hpk | ]. split; [left; reflexivity | ].
  apply (delete_then_lookup_is_not_found [Fixture.sample_product] 200%Z []
           Fixture.sample_product 300%Z [] Hpk (or_introl eq_refl)).
Defined.



(** *** [publish], again and seen through the entity's properties *)

Lemma publish_returned_description clock p0 actor :
  ProductService.description_missing (publish_returned clock p0 actor)
  = ProductService.description_missing (loaded p0).
Proof. reflexivity. Qed.

(** X15.  [publish] does not refuse a product that is already published:
    publishing it again, in a later session, succeeds, leaves
    [is_published] true and overwrites [published_at] with the time of the
    second call. *)
Theorem publish_again_restamps
    (rows : list Product.t) (clock1 clock2 : Z) (pool1 pool2 : list UUID)
    (p0 : Product.t) (actor1 actor2 : UUID) :
  pk_products rows -> In p0 rows ->
  ProductService.description_missing (loaded p0) = false ->
  let stored := products (snd (ProductService.publish (Product.id p0) actor1
                                 (session rows clock1 pool1))) in
  exists product s2,
    ProductService.publish (Product.id p0) actor2 (session stored clock2 pool2)
    = (Return product, s2)
    /\ Product.is_published (columns product) = true
    /\ Product.published_at (columns product) = Some clock2
    /\ In (columns product) (products s2).
Proof.
  intros Hpk Hin Hdesc. cbv zeta.
  destruct (publish_run rows clock1 pool1 p0 actor1 Hpk Hin Hdesc)
    as (s1 & Hrun1 & Hrows1 & _).
  rewrite Hrun1. cbn [snd].
  set (p1 := columns (publish_returned clock1 p0 actor1)) in *.
  assert (Hid1 : Product.id p1 = Product.id p0) by reflexivity.
  assert (Hpk1 : pk_products (products s1)).
  { unfold pk_products. rewrite Hrows1.
    rewrite (rewrite_row_keeps_column Product.id rows p0 p1 Hpk Hin Hid1).
    exact Hpk. }
  assert (Hin1 : In p1 (products s1)).
  { rewrite Hrows1. apply rewrite_row_in. exact Hin. }
  assert (Hdesc1 : ProductService.description_missing (loaded p1) = false).
  { exact Hdesc. }
  destruct (publish_run (products s1) clock2 pool2 p1 actor2 Hpk1 Hin1 Hdesc1)
    as (s2 & Hrun2 & Hrows2 & _).
  rewrite Hid1 in Hrun2.
  exists (publish_returned clock2 p1 actor2), s2.
  split; [exact Hrun2 | ]. split; [reflexivity | ]. split; [reflexivity | ].
  rewrite Hrows2. apply rewrite_row_in. exact Hin1.
Qed.

Lemma publish_again_restamps_witness :
  pk_products [Fixture.described_product]
  /\ In Fixture.described_product [Fixture.described_product]
  /\ ProductService.description_missing (loaded Fixture.described_product) = false
  /\ exists product s2,
       ProductService.publish 1%N 9%N
         (session
            (products (snd (ProductService.publish 1%N 8%N
                              (session [Fixture.described_product] 200%Z []))))
            300%Z [])
       = (Return product, s2)
       /\ Product.published_at (columns product) = Some 300%Z.
Proof.
  assert (Hpk : pk_products [Fixture.described_product]).
  { unfold pk_products. cbn. constructor; [intros [] | constructor]. }
  split; [exact Hpk | ]. split; [left; reflexivity | ]. split; [reflexivity | ].
  destruct (publish_again_restamps [Fixture.described_product] 200%Z 300%Z [] []
              Fixture.described_product 8%N 9%N Hpk (or_introl eq_refl) eq_refl)
    as (product & s2 & Hrun & _ & Hat & _).
  exists product, s2. split; [exact Hrun | exact Hat].
Defined.

(** X16.  A published product is visible only if it is active: after a
    successful [publish], [is_visible] of the product equals its
    [is_active], which [publish] does not change; [is_in_stock] is as it
    was. *)
Theorem publish_makes_visible_when_active
    (rows : list Product.t) (clock : Z) (pool : list UUID)
    (p0 : Product.t) (actor : UUID) :
  pk_products rows -> In p0 rows ->
  ProductService.description_missing (loaded p0) = false ->
  exists product s',
    ProductService.publish (Product.id p0) actor (session rows clock pool)
    = (Return product, s')
    /\ Product.is_active (columns product) = Product.is_active p0
    /\ Product.is_visible (columns product) = Product.is_active p0
    /\ Product.is_in_stock (columns product) = Product.is_in_stock p0.
Proof.
  intros Hpk Hin Hdesc.
  destruct (publish_run rows clock pool p0 actor Hpk Hin Hdesc)
    as (s' & Hrun & _).
  exists (publish_returned clock p0 actor), s'.
  split; [exact Hrun | ]. split; [reflexivity | ].
  split; [ | reflexivity ].
  unfold Product.is_visible. cbn. apply andb_true_r.
Qed.

Lemma publish_makes_visible_when_active_witness :
  pk_products [inactive_product]
  /\ In inactive_product [inactive_product]
  /\ ProductService.description_missing (loaded inactive_product) = false
  /\ exists product s',
       ProductService.publish 1%N 9%N (session [inactive_product] 200%Z [])
       = (Return product, s')
       /\ Product.is_published (columns product) = true
       /\ Product.is_visible (columns product) = false.
Proof.
  assert (Hpk : pk_products [inactive_product]).
  { unfold pk_products. cbn. constructor; [intros [] | constructor]. }
  split; [exact Hpk | ]. split; [left; reflexivity | ]. split; [reflexivity | ].
  destruct (publish_makes_visible_when_active [inactive_product] 200%Z []
              inactive_product 9%N Hpk (or_introl eq_refl) eq_refl)
    as (product & s' & Hrun & _ & Hvis & _).
  exists product, s'. split; [exact Hrun | ]. split; [ | exact Hvis ].
  vm_compute in Hrun. injection Hrun as <- _. reflexivity.
Defined.

(** *** [bulk_update_prices]: no match, the table's shape *)

(** X17.  [bulk_update_prices] for a category no stored product belongs
    to returns 0 and leaves every stored product exactly as it was. *)
Theorem bulk_update_prices_without_match_is_a_no_op
    (rows : list Product.t) (clock : Z) (pool : list UUID)
    (category_id : UUID) (multiplier : Decimal) :
  (forall p, In p rows -> Product.category_id p <> Some category_id) ->
  let r := ProductService.bulk_update_prices category_id multiplier
             (session rows clock pool) in
  fst r = Return 0%nat /\ products (snd r) = rows.
Proof.
  intros Hnone. cbv zeta.
  rewrite bulk_run by (intros p Hp Hcat; exfalso; exact (Hnone p Hp Hcat)).
  cbn [fst snd products].
  assert (Hf : forall p, In p rows -> in_category category_id p = false).
  { intros p Hp. destruct (in_category category_id p) eqn:E; [ | reflexivity ].
    apply option_eqb_Some_iff in E. exfalso. exact (Hnone p Hp E). }
  split.
  - rewrite (filter_ext_in (in_category category_id) (fun _ => false) rows)
      by exact Hf.
    rewrite filter_false. reflexivity.
  - rewrite <- (map_id rows) at 2. apply map_ext_in.
    intros p Hp. rewrite (Hf p Hp). reflexivity.
Qed.

Lemma bulk_update_prices_without_match_is_a_no_op_witness :
  (forall p, In p [Fixture.sample_product] -> Product.category_id p <> Some 6%N)
  /\ fst (ProductService.bulk_update_prices 6%N (mkDecimal 11 (-1))
            (session [Fixture.sample_product] 200%Z []))
     = Return 0%nat
  /\ products (snd (ProductService.bulk_update_prices 6%N (mkDecimal 11 (-1))
                      (session [Fixture.sample_product] 200%Z [])))
     = [Fixture.sample_product].
Proof.
  assert (Hnone : forall p, In p [Fixture.sample_product] ->
                            Product.category_id p <> Some 6%N).
  { intros p [<- | []]. discriminate. }
  split; [exact Hnone | ].
  apply (bulk_update_prices_without_match_is_a_no_op [Fixture.sample_product]
           200%Z [] 6%N (mkDecimal 11 (-1)) Hnone).
Defined.

(** The stored products after [bulk_update_prices]: repriced, or as they
    were when the table refuses the statement. *)
Lemma bulk_run_either rows clock pool category_id multiplier :
  products (snd (ProductService.bulk_update_prices category_id multiplier
                   (session rows clock pool)))
  = map (fun row => if in_category category_id row
                    then repriced clock multiplier row else row) rows
  \/ products (snd (ProductService.bulk_update_prices category_id multiplier
                      (session rows clock pool)))
     = rows.
Proof.
  unfold ProductService.bulk_update_prices, bind, db_execute_update.
  cbn [products now session].
  destruct (forallb _ rows); [left | right]; reflexivity.
Qed.

(** X19.  [bulk_update_prices] changes prices and update stamps only: the
    stored products keep their number and order, and the id, sku, name,
    category, quantity and publication state of each. *)
Theorem bulk_update_prices_keeps_the_table_shape
    (rows : list Product.t) (clock : Z) (pool : list UUID)
    (category_id : UUID) (multiplier : Decimal) :
  let stored := products (snd (ProductService.bulk_update_prices category_id
                                 multiplier (session rows clock pool))) in
  map Product.id stored = map Product.id rows
  /\ map Product.sku stored = map Product.sku rows
  /\ map Product.name stored = map Product.name rows
  /\ map Product.category_id stored = map Product.category_id rows
  /\ map Product.quantity stored = map Product.quantity rows
  /\ map Product.is_published stored = map Product.is_published rows
  /\ (pk_products rows -> pk_products stored)
  /\ (uq_products_sku rows -> uq_products_sku stored).
Proof.
  cbv zeta.
  destruct (bulk_run_either rows clock pool category_id multiplier) as [-> | ->];
    [ | repeat split; intros Hx; exact Hx ].
  assert (H : forall {K} (key : Product.t -> K),
             (forall row, key (repriced clock multiplier row) = key row) ->
             map key (map (fun row => if in_category category_id row
                                      then repriced clock multiplier row
                                      else row) rows)
             = map key rows).
  { intros K key Hkey. rewrite map_map. apply map_ext. intros row.
    destruct (in_category category_id row); [apply Hkey | reflexivity]. }
  assert (Hid := H _ Product.id (fun _ => eq_refl)).
  assert (Hsku := H _ Product.sku (fun _ => eq_refl)).
  split; [exact Hid | ]. split; [exact Hsku | ].
  split; [exact (H _ Product.name (fun _ => eq_refl)) | ].
  split; [exact (H _ Product.category_id (fun _ => eq_refl)) | ].
  split; [exact (H _ Product.quantity (fun _ => eq_refl)) | ].
  split; [exact (H _ Product.is_published (fun _ => eq_refl)) | ].
  unfold pk_products, uq_products_sku. rewrite Hid, Hsku.
  split; intros Hx; exact Hx.
Qed.

(** *** [list]: the size, the order and the content of a page *)

(** X20.  The page [list] returns has [min(limit, total - skip)]
    products: never more than [limit], and none once [skip] reaches
    [total], while [total] still counts every match. *)
Theorem list_page_size
    (rows : list Product.t) (clock : Z) (pool : list UUID)
    (skip limit : nat) (category_id : option UUID) (search : option string) :
  exists page total s',
    ProductService.list skip limit category_id search (session rows clock pool)
    = (Return (page, total), s')
    /\ total = List.length (filter (ProductService.list_filter category_id search) rows)
    /\ List.length page = Nat.min limit (total - skip)
    /\ (List.length page <= limit)%nat
    /\ ((total <= skip)%nat -> page = []).
Proof.
  rewrite list_run. cbn [products session tie_rank].
  eexists. eexists. eexists. split; [reflexivity | ].
  split; [reflexivity | ].
  assert (Hlen : List.length
                   (map loaded
                      (firstn limit
                         (skipn skip
                            (order_by_created_at_desc (table_order skip limit)
                               (filter (ProductService.list_filter category_id search)
                                  rows)))))
                 = Nat.min limit
                     (List.length
                        (filter (ProductService.list_filter category_id search) rows)
                      - skip)).
  { rewrite length_map, length_firstn, length_skipn, order_by_length. reflexivity. }
  split; [exact Hlen | ]. split; [rewrite Hlen; apply Nat.le_min_l | ].
  intros Hskip. apply length_zero_iff_nil. rewrite Hlen. lia.
Qed.

Lemma Sorted_skipn {A} (R : A -> A -> Prop) (n : nat) (l : list A) :
  Sorted R l -> Sorted R (skipn n l).
Proof.
  revert l. induction n as [ | n IH ]; intros l Hs; cbn [skipn].
  - exact Hs.
  - destruct l as [ | x l ]; [constructor | ].
    apply IH. inversion Hs; assumption.
Qed.

Lemma Sorted_firstn {A} (R : A -> A -> Prop) (n : nat) (l : list A) :
  Sorted R l -> Sorted R (firstn n l).
Proof.
  revert l. induction n as [ | n IH ]; intros l Hs; cbn [firstn].
  - constructor.
  - destruct l as [ | x l ]; [constructor | ].
    inversion Hs as [ | ? ? Hs' Hhd ]; subst.
    constructor; [apply IH; exact Hs' | ].
    destruct n as [ | n ]; cbn [firstn]; [constructor | ].
    destruct l as [ | y l ]; [constructor | ].
    constructor. inversion Hhd; subst. assumption.
Qed.

Lemma In_firstn {A} (n : nat) (l : list A) (x : A) : In x (firstn n l) -> In x l.
Proof.
  intros H. rewrite <- (firstn_skipn n l). apply in_or_app. left. exact H.
Qed.

Lemma In_skipn {A} (n : nat) (l : list A) (x : A) : In x (skipn n l) -> In x l.
Proof.
  intros H. rewrite <- (firstn_skipn n l). apply in_or_app. right. exact H.
Qed.

(** X21.  A page of [list] is ordered newest first, and each product on
    it is a stored product that passes the filters: it belongs to the
    category asked for, when one is asked for. *)
Theorem list_page_is_ordered_and_filtered
    (rows : list Product.t) (clock : Z) (pool : list UUID)
    (skip limit : nat) (category_id : option UUID) (search : option string) :
  exists page total s',
    ProductService.list skip limit category_id search (session rows clock pool)
    = (Return (page, total), s')
    /\ Sorted not_created_after (map columns page)
    /\ (forall p, In p (map columns page) ->
          In p rows
          /\ ProductService.list_filter category_id search p = true
          /\ (forall c, category_id = Some c -> Product.category_id p = Some c)).
Proof.
  rewrite list_run. cbn [products session tie_rank].
  eexists. eexists. eexists. split; [reflexivity | ].
  rewrite columns_loaded. split.
  - apply Sorted_firstn, Sorted_skipn, order_by_sorted.
  - intros p Hp.
    apply In_firstn, In_skipn in Hp.
    apply (Permutation_in p (Permutation_sym (order_by_perm _ _))) in Hp.
    apply filter_In in Hp. destruct Hp as [Hin Hf].
    split; [exact Hin | ]. split; [exact Hf | ].
    intros c ->. unfold ProductService.list_filter in Hf.
    apply andb_true_iff in Hf. destruct Hf as [Hcat _].
    apply option_eqb_Some_iff in Hcat. exact Hcat.
Qed.

(** *** The search term *)












(** *** [get_by_sku] *)

(** X24.  [get_by_sku] on a store with unique skus: an unknown sku gives
    [None], which is a result and not an error; the sku of a stored
    product gives that product; either way the store is left as it was. *)
Theorem get_by_sku_finds_or_returns_none
    (rows : list Product.t) (clock : Z) (pool : list UUID) (sku : string) :
  uq_products_sku rows ->
  let r := ProductService.get_by_sku sku (session rows clock pool) in
  (~ In sku (map Product.sku rows) -> fst r = Return None)
  /\ (forall p, In p rows -> Product.sku p = sku -> fst r = Return (Some (loaded p)))
  /\ products (snd r) = rows.
Proof.
  intros Huq. cbv zeta.
  unfold ProductService.get_by_sku, bind, db_execute_select.
  cbn [products session].
  split; [ | split ].
  - intros Hno.
    rewrite (filter_key_absent Product.sku String.eqb String_eqb_iff _ _ Hno).
    reflexivity.
  - intros p Hin <-.
    rewrite (filter_key_unique Product.sku String.eqb String_eqb_iff p _ Huq Hin).
    reflexivity.
  - destruct (filter _ rows) as [ | x [ | y l ] ]; reflexivity.
Qed.

Lemma get_by_sku_finds_or_returns_none_witness :
  uq_products_sku [Fixture.sample_product]
  /\ fst (ProductService.get_by_sku "TEST-001"
            (session [Fixture.sample_product] 200%Z []))
     = Return (Some (loaded Fixture.sample_product))
  /\ fst (ProductService.get_by_sku "NONE-000"
            (session [Fixture.sample_product] 200%Z []))
     = Return None.
Proof.
  assert (Huq : uq_products_sku [Fixture.sample_product]).
  { unfold uq_products_sku. cbn. constructor; [intros [] | constructor]. }
  split; [exact Huq | ]. split.
  - destruct (get_by_sku_finds_or_returns_none [Fixture.sample_product] 200%Z []
                "TEST-001" Huq) as (_ & Hfound & _).
    apply (Hfound Fixture.sample_product (or_introl eq_refl) eq_refl).
  - destruct (get_by_sku_finds_or_returns_none [Fixture.sample_product] 200%Z []
                "NONE-000" Huq) as (Hnone & _).
    apply Hnone. cbn. intros [H | []]. discriminate H.
Defined.

(** *** What the schemas let through *)

Lemma check_length_valid (min_length max_length : option nat) (v v' : string) :
  check_length min_length max_length v = Valid v' ->
  v' = v
  /\ (forall n, min_length = Some n -> (n <= String.length v)%nat)
  /\ (forall n, max_length = Some n -> (String.length v <= n)%nat).
Proof.
  unfold check_length.
  destruct min_length as [lo | ]; destruct max_length as [hi | ];
    repeat match goal with
           | |- context [(?a <? ?b)%nat] =>
               let Hcmp := fresh "Hcmp" in
               destruct (Nat.ltb_spec a b) as [Hcmp | Hcmp]
           end;
    intros Heq; try discriminate Heq; injection Heq as <-;
    (split; [reflexivity | ]); split; intros n Hn;
    try discriminate Hn; injection Hn as <-; lia.
Qed.

(** Above the minimum price, [create] raises no [ValidationError]. *)
Lemma create_validation_error_only_below_minimum
    (s : AsyncSession) (data : ProductCreate.t) (created_by : UUID)
    (message code : string) :
  dec_lt (ProductCreate.price data) Decimal_0_01 = false ->
  fst (ProductService.create data created_by s)
  <> Raise (ValidationError message code).
Proof.
  intros Hge. unfold ProductService.create. rewrite Hge.
  destruct s as [rows added clock pool0 called logged rank].
  unfold ProductService.get_by_sku, Product_new, uuid4, func_now, db_add,
    db_commit, db_refresh, db_execute_select, logger_info, scalar_one_or_none,
    bind, ret, raise.
  cbn [products new now uuid4_pool calls events tie_rank record_call].
  destruct (filter _ rows) as [ | existing [ | another more ] ];
    try (cbn [fst]; discriminate).
  destruct pool0 as [ | u pool ];
    cbn [products new now uuid4_pool calls events tie_rank record_call columns];
    match goal with
    | |- context [flush_each ?f ?l ?r] => destruct (flush_each f l r)
    end;
    cbn [flushed products new now uuid4_pool calls events tie_rank record_call fst];
    try discriminate;
    match goal with
    | |- context [filter ?f ?l] => destruct (filter f l) as [ | x [ | y l' ] ]
    end;
    cbn [fst]; discriminate.
Qed.


(** X25.  What [ProductCreate] accepts: the name has 1 to 200 characters,
    a description at most 2000, the sku 1 to 50; and the price is at least
    0.01, so the service's own price check never fires on validated data:
    [create] never answers a validated request with [InvalidPrice]. *)
Theorem validated_create_data_passes_the_price_check
    (kwargs data : ProductCreate.t) :
  ProductCreate.model_validate kwargs = inl data ->
  (1 <= String.length (ProductCreate.name data) <= 200)%nat
  /\ (forall d, ProductCreate.description data = Some d ->
                (String.length d <= 2000)%nat)
  /\ (1 <= String.length (ProductCreate.sku data) <= 50)%nat
  /\ dec_lt Decimal_0 (ProductCreate.price data) = true
  /\ dec_lt (ProductCreate.price data) Decimal_0_01 = false
  /\ (forall s created_by message,
        fst (ProductService.create data created_by s)
        <> Raise (ValidationError message "InvalidPrice")).
Proof.
  unfold ProductCreate.model_validate.
  destruct (ProductBase.check_name (ProductCreate.name kwargs)) as [n | ] eqn:En;
    [ | discriminate ].
  destruct (ProductBase.check_description (ProductCreate.description kwargs))
    as [d | ] eqn:Ed; [ | discriminate ].
  destruct (check_price (ProductCreate.price kwargs)) as [p | ] eqn:Ep;
    [ | discriminate ].
  destruct (ProductCreate.check_sku (ProductCreate.sku kwargs)) as [sk | ] eqn:Es;
    [ | discriminate ].
  intros H. injection H as <-.
  cbn [ProductCreate.name ProductCreate.description ProductCreate.sku
         ProductCreate.price].
  unfold ProductBase.check_name in En.
  apply check_length_valid in En. destruct En as (-> & Hlo & Hhi).
  assert (Hdesc : forall d0, d = Some d0 -> (String.length d0 <= 2000)%nat).
  { unfold ProductBase.check_description in Ed.
    destruct (ProductCreate.description kwargs) as [d1 | ].
    - destruct (check_length None (Some 2000%nat) d1) as [d2 | ] eqn:E2;
        [ | discriminate Ed ].
      injection Ed as <-. apply check_length_valid in E2.
      destruct E2 as (-> & _ & Hmax). intros d0 Hd0. injection Hd0 as <-.
      apply Hmax. reflexivity.
    - injection Ed as <-. intros d0 Hd0. discriminate Hd0. }
  assert (Hsku : (1 <= String.length sk <= 50)%nat).
  { unfold ProductCreate.check_sku in Es.
    destruct (check_length None (Some 50%nat) (ProductCreate.sku kwargs))
      as [v | ] eqn:Ev; [ | discriminate Es ].
    apply check_length_valid in Ev. destruct Ev as (-> & _ & Hmax).
    destruct (sku_pattern (ProductCreate.sku kwargs)) eqn:Hpat; [ | discriminate Es ].
    injection Es as <-.
    assert (Hall : string_forallb sku_char (ProductCreate.sku kwargs) = true).
    { unfold sku_pattern in Hpat. apply andb_true_iff in Hpat. apply Hpat. }
    unfold ProductCreate.uppercase_sku. rewrite (upper_sku_chars _ Hall).
    split; [ | apply Hmax; reflexivity ].
    unfold sku_pattern in Hpat. apply andb_true_iff in Hpat.
    destruct Hpat as [Hne _].
    destruct (ProductCreate.sku kwargs); [discriminate Hne | cbn; lia]. }
  assert (Hprice : dec_lt Decimal_0 p = true /\ within_decimal_places 2 p = true).
  { unfold check_price in Ep.
    destruct (within_decimal_places 2 (ProductCreate.price kwargs)) eqn:E1;
      [ | discriminate Ep ].
    destruct (dec_lt Decimal_0 (ProductCreate.price kwargs)) eqn:E2;
      [ | discriminate Ep ].
    cbn in Ep. injection Ep as <-. split; assumption. }
  destruct Hprice as [Hpos Hplaces].
  pose proof (two_places_positive_at_least_minimum p Hpos Hplaces) as Hmin.
  split; [split; [apply Hlo; reflexivity | apply Hhi; reflexivity] | ].
  split; [exact Hdesc | ]. split; [exact Hsku | ]. split; [exact Hpos | ].
  split; [exact Hmin | ].
  intros s created_by message.
  apply create_validation_error_only_below_minimum. exact Hmin.
Qed.

Lemma validated_create_data_passes_the_price_check_witness :
  ProductCreate.model_validate widget_request = inl widget_request
  /\ dec_lt (ProductCreate.price widget_request) Decimal_0_01 = false
  /\ (1 <= String.length (ProductCreate.sku widget_request) <= 50)%nat.
Proof.
  split; [reflexivity | ].
  destruct (validated_create_data_passes_the_price_check widget_request
              widget_request eq_refl) as (_ & _ & Hsku & _ & Hmin & _).
  split; [exact Hmin | exact Hsku].
Defined.

Lemma accepted_sku_is_uppercase_witness :
  ProductCreate.model_validate widget_request = inl widget_request
  /\ sku_pattern (ProductCreate.sku widget_request) = true
  /\ ProductCreate.sku widget_request
     = ProductCreate.uppercase_sku (ProductCreate.sku widget_request).
Proof.
  split; [reflexivity | ].
  destruct (accepted_sku_is_uppercase widget_request widget_request eq_refl)
    as (Hpat & Hupper & _).
  split; [exact Hpat | exact Hupper].
Defined.

Lemma check_int_valid (ge le : option Z) (v v' : Z) :
  ProductQueryParams.check_int ge le v = Valid v' ->
  v' = v
  /\ (forall b, ge = Some b -> (b <= v)%Z)
  /\ (forall b, le = Some b -> (v <= b)%Z).
Proof.
  unfold ProductQueryParams.check_int.
  destruct ge as [lo | ]; destruct le as [hi | ];
    repeat match goal with
           | |- context [(?a <? ?b)%Z] =>
               let Hcmp := fresh "Hcmp" in
               destruct (Z.ltb_spec a b) as [Hcmp | Hcmp]
           end;
    intros Heq; try discriminate Heq; injection Heq as <-;
    (split; [reflexivity | ]); split; intros n Hn;
    try discriminate Hn; injection Hn as <-; lia.
Qed.

(** X26.  What [ProductQueryParams] accepts: [skip] is not negative,
    [limit] is between 1 and 100, a price bound is not negative, a search
    term is not empty, and when both price bounds are there the maximum
    is not below the minimum. *)
Theorem validated_query_params_are_in_range
    (payload : ProductQueryParams.Payload) (q : ProductQueryParams.t) :
  ProductQueryParams.model_validate payload = inl q ->
  (0 <= ProductQueryParams.skip q)%Z
  /\ (1 <= ProductQueryParams.limit q <= 100)%Z
  /\ (forall m, ProductQueryParams.min_price q = Some m -> dec_le Decimal_0 m = true)
  /\ (forall v, ProductQueryParams.max_price q = Some v -> dec_le Decimal_0 v = true)
  /\ (forall m v, ProductQueryParams.min_price q = Some m ->
                  ProductQueryParams.max_price q = Some v ->
                  dec_lt v m = false)
  /\ (forall t, ProductQueryParams.search q = Some t -> t <> "").
Proof.
  unfold ProductQueryParams.model_validate.
  destruct (match ProductQueryParams.p_skip payload with
            | Some v => ProductQueryParams.check_int (Some 0%Z) None v
            | None => Valid 0%Z
            end) as [sk | ] eqn:Esk;
    [ | intros H; repeat match type of H with
                         | context [match ?c with _ => _ end] => destruct c
                         end; discriminate H ].
  destruct (match ProductQueryParams.p_limit payload with
            | Some v => ProductQueryParams.check_int (Some 1%Z) (Some 100%Z) v
            | None => Valid 20%Z
            end) as [li | ] eqn:Eli;
    [ | intros H; repeat match type of H with
                         | context [match ?c with _ => _ end] => destruct c
                         end; discriminate H ].
  destruct (ProductQueryParams.check_ge_0 (ProductQueryParams.p_min_price payload))
    as [mn | ] eqn:Emn;
    [ | intros H; repeat match type of H with
                         | context [match ?c with _ => _ end] => destruct c
                         end; discriminate H ].
  cbn [ProductQueryParams.validated].
  destruct (ProductQueryParams.check_max_price
              (ProductQueryParams.p_max_price payload) _) as [mx | ] eqn:Emx;
    [ | intros H; repeat match type of H with
                         | context [match ?c with _ => _ end] => destruct c
                         end; discriminate H ].
  destruct (ProductQueryParams.check_search (ProductQueryParams.p_search payload))
    as [se | ] eqn:Ese; [ | discriminate ].
  intros H. injection H as <-.
  cbn [ProductQueryParams.skip ProductQueryParams.limit ProductQueryParams.min_price
         ProductQueryParams.max_price ProductQueryParams.search].
  assert (Hskip : (0 <= sk)%Z).
  { destruct (ProductQueryParams.p_skip payload) as [v | ].
    - apply check_int_valid in Esk. destruct Esk as (-> & Hlo & _).
      apply Hlo. reflexivity.
    - injection Esk as <-. lia. }
  assert (Hlimit : (1 <= li <= 100)%Z).
  { destruct (ProductQueryParams.p_limit payload) as [v | ].
    - apply check_int_valid in Eli. destruct Eli as (-> & Hlo & Hhi).
      split; [apply Hlo | apply Hhi]; reflexivity.
    - injection Eli as <-. lia. }
  assert (Hmin : forall m, mn = Some m -> dec_le Decimal_0 m = true).
  { intros m ->. unfold ProductQueryParams.check_ge_0 in Emn.
    destruct (ProductQueryParams.p_min_price payload) as [d | ];
      [ | discriminate Emn ].
    destruct (dec_le Decimal_0 d) eqn:E; [ | discriminate Emn ].
    injection Emn as <-. exact E. }
  assert (Hmax : forall v, mx = Some v ->
                           dec_le Decimal_0 v = true
                           /\ forall m, mn = Some m -> dec_lt v m = false).
  { intros v ->. unfold ProductQueryParams.check_max_price in Emx.
    destruct (ProductQueryParams.p_max_price payload) as [d | ];
      [ | discriminate Emx ].
    unfold ProductQueryParams.check_ge_0 in Emx.
    destruct (dec_le Decimal_0 d) eqn:E; [ | discriminate Emx ].
    unfold ProductQueryParams.max_price_greater_than_min,
      ProductQueryParams.get_min_price in Emx.
    cbn [ProductQueryParams.data ProductQueryParams.data_min_price] in Emx.
    destruct mn as [m | ].
    - destruct (dec_lt d m) eqn:E'; [discriminate Emx | ].
      injection Emx as <-. split; [exact E | ].
      intros m' Hm'. injection Hm' as <-. exact E'.
    - injection Emx as <-. split; [exact E | ]. intros m' Hm'. discriminate Hm'. }
  split; [exact Hskip | ]. split; [exact Hlimit | ]. split; [exact Hmin | ].
  split; [intros v Hv; apply (Hmax v Hv) | ].
  split; [intros m v Hm Hv; apply (proj2 (Hmax v Hv) m Hm) | ].
  intros t ->. unfold ProductQueryParams.check_search in Ese.
  destruct (ProductQueryParams.p_search payload) as [s0 | ]; [ | discriminate Ese ].
  destruct (check_length (Some 1%nat) None s0) as [s1 | ] eqn:E; [ | discriminate Ese ].
  injection Ese as <-. apply check_length_valid in E. destruct E as (-> & Hlo & _).
  specialize (Hlo 1%nat eq_refl). intros ->. cbn in Hlo. lia.
Qed.

Lemma validated_query_params_are_in_range_witness :
  ProductQueryParams.model_validate price_window
  = inl (ProductQueryParams.mk 20%Z 10%Z None (Some (mkDecimal 5 0))
           (Some (mkDecimal 10 0)) (Some "widget"))
  /\ dec_lt (mkDecimal 10 0) (mkDecimal 5 0) = false.
Proof.
  split; [reflexivity | ].
  destruct (validated_query_params_are_in_range price_window _ eq_refl)
    as (_ & _ & _ & _ & Horder & _).
  apply (Horder (mkDecimal 5 0) (mkDecimal 10 0) eq_refl eq_refl).
Defined.

(** *** From the PATCH body to the stored product *)







(** *** The endpoints *)




